(** * Credit-card backend: scoring, application workflow and card ledger

    A shallow embedding of the business logic of the Flask/MongoDB backend
    under [backend/app]: the CIBIL score of [models/customer.py], the
    validators of [utils/validators.py], the models [CardApplication],
    [CreditCard] and [Transaction], and the manager, card and transaction
    routes that drive them.

    Numbers.  Python numbers (JSON ints and floats) are modelled as exact
    rationals [Q]; Python's [==] on numbers is [Qeq].  A [datetime] counts
    microseconds; each request reads the clock once, as [now].  Random
    strings (card number, CVV, reference number) are inputs of the
    operation that draws them.  Dictionaries with a fixed set of keys are
    records; a key that may be absent is an [option] field. *)

From Stdlib Require Import QArith Qround Lqa Ascii String.
From stdpp Require Import gmap strings.

Local Open Scope Q_scope.

Abbreviation ObjectId := positive.
Abbreviation datetime := N.

(** ** Python built-ins on numbers *)

Module Py.

(** [a >= b], [a > b] and [a < b] on numbers. *)
Definition ge (a b : Q) : bool := Qle_bool b a.
Definition gt (a b : Q) : bool := negb (Qle_bool a b).
Definition lt (a b : Q) : bool := negb (Qle_bool b a).
Definition le (a b : Q) : bool := Qle_bool a b.

(** [max(a, b)] keeps the first argument unless the second is greater;
    [min(a, b)] keeps the first unless the second is smaller. *)
Definition max (a b : Q) : Q := if gt b a then b else a.
Definition min (a b : Q) : Q := if lt b a then b else a.

(** A number is whole when it equals its own floor. *)
Definition is_integer (q : Q) : Prop := inject_Z (Qfloor q) == q.

(** [str.strip()] on ASCII text: the whitespace characters are the codes
    9 to 13 and 28 to 32. *)
Definition isspace (c : ascii) : bool :=
  let n := nat_of_ascii c in
  ((9 <=? n) && (n <=? 13) || (28 <=? n) && (n <=? 32))%nat.

Fixpoint lstrip (s : string) : string :=
  match s with
  | String c s' => if isspace c then lstrip s' else s
  | EmptyString => EmptyString
  end.

Definition strip (s : string) : string :=
  String.rev (lstrip (String.rev (lstrip s))).

(** [len(s)], as a number. *)
Definition len (s : string) : Q := inject_Z (Z.of_nat (String.length s)).

(** The slices [s[:n]] and [s[-n:]], for a count [n] above zero. *)
Fixpoint prefix (n : nat) (s : string) : string :=
  match n, s with
  | S n, String c s' => String c (prefix n s')
  | _, _ => EmptyString
  end.

Definition suffix (n : nat) (s : string) : string :=
  String.rev (prefix n (String.rev s)).

(** The class [\d] on ASCII text. *)
Definition isdigit (c : ascii) : bool :=
  let n := nat_of_ascii c in ((48 <=? n) && (n <=? 57))%nat.

(** [(a + b - 1) // b] and friends: floor division on integers. *)
Definition floordiv (a b : Z) : Z := (a / b)%Z.

End Py.

(** ** [utils/validators.py] *)

Module Validators.

(** The error messages, with the values their f-strings interpolate. *)
Inductive error :=
| missing_required_fields (missing_fields : list string)
| must_be_at_least (field_name : string) (min_val : Q)
| must_be_at_most (field_name : string) (max_val : Q)
| must_be_a_valid_number (field_name : string)
| message (text : string).

(** [validate_required_fields]: a field is missing when [field not in
    data or not data[field]].  The caller pairs each required field with
    the truth value of [field in data and data[field]]. *)
Definition validate_required_fields
    (data : list (string * bool)) : bool * option error :=
  let missing_fields := (filter (fun f => negb f.2) data).*1 in
  match missing_fields with
  | [] => (true, None)
  | _ => (false, Some (missing_required_fields missing_fields))
  end.

(** Truth value of a request field: a number is falsy when it is zero, a
    string when it is empty, and an absent key is falsy. *)
Definition truthy_number (v : option Q) : bool :=
  match v with Some q => negb (Qeq_bool q 0) | None => false end.

Definition truthy_string (v : option string) : bool :=
  match v with Some s => negb (String.eqb s EmptyString) | None => false end.

(** [validate_numeric_range].  [value] is [None] for Python's [None], on
    which [float] raises [TypeError]. *)
Definition validate_numeric_range (value : option Q)
    (min_val max_val : option Q) (field_name : string)
    : bool * option error :=
  match value with
  | None => (false, Some (must_be_a_valid_number field_name))
  | Some num_value =>
      match min_val with
      | Some m =>
          if Py.lt num_value m
          then (false, Some (must_be_at_least field_name m))
          else match max_val with
               | Some M =>
                   if Py.gt num_value M
                   then (false, Some (must_be_at_most field_name M))
                   else (true, None)
               | None => (true, None)
               end
      | None =>
          match max_val with
          | Some M =>
              if Py.gt num_value M
              then (false, Some (must_be_at_most field_name M))
              else (true, None)
          | None => (true, None)
          end
      end
  end.

Definition validate_credit_limit (limit : option Q) : bool * option error :=
  validate_numeric_range limit (Some 10000) (Some 1000000) "Credit limit".

Definition validate_transaction_amount (amount : option Q)
    : bool * option error :=
  validate_numeric_range amount (Some 1) (Some 100000) "Transaction amount".

(** [validate_pin].  [re.match(r'^\d{4}$', pin)]: four digits from the
    start, then [$], which holds at the end of the text and just before a
    line feed that ends it.  [pin] is [None] when the key is absent or
    does not hold a string. *)
Fixpoint digits (n : nat) (s : string) : option string :=
  match n with
  | O => Some s
  | S n =>
      match s with
      | String c s' => if Py.isdigit c then digits n s' else None
      | EmptyString => None
      end
  end.

Definition at_end (s : string) : bool :=
  String.eqb s EmptyString
  || String.eqb s (String (ascii_of_nat 10) EmptyString).

Definition validate_pin (pin : option string) : bool * option error :=
  match pin with
  | None => (false, Some (message "PIN is required"))
  | Some pin =>
      if String.eqb pin EmptyString
      then (false, Some (message "PIN is required"))
      else
        match digits 4 pin with
        | Some rest =>
            if at_end rest then (true, None)
            else (false, Some (message "PIN must be exactly 4 digits"))
        | None => (false, Some (message "PIN must be exactly 4 digits"))
        end
  end.

End Validators.

(** ** The document store

    A collection is a finite map from [ObjectId] to documents.  A document
    class says how a [$set] of one field rewrites a document and whether it
    changes it; [update_one] reports [modified_count]. *)

Class Document (doc field : Type) := {
  set_field : doc -> field -> doc;
  field_differs : doc -> field -> bool;
}.

Module Mongo.
Section collection.
Context {doc field : Type} `{!Document doc field}.

(** [insert_one]: the store draws an id that no document has. *)
Definition insert_one (coll : gmap ObjectId doc) (mk : ObjectId -> doc)
    : ObjectId * gmap ObjectId doc :=
  let inserted_id := fresh (dom coll) in
  (inserted_id, <[inserted_id := mk inserted_id]> coll).

Definition find_one (coll : gmap ObjectId doc) (id : ObjectId)
    : option doc :=
  coll !! id.

(** [update_one({'_id': id}, {'$set': update_data})]: [modified_count] is
    1 when a document matches and some field changes, else 0. *)
Definition update_one (coll : gmap ObjectId doc) (id : ObjectId)
    (update_data : list field) : nat * gmap ObjectId doc :=
  match coll !! id with
  | Some d =>
      if existsb (field_differs d) update_data
      then (1%nat, <[id := foldl set_field d update_data]> coll)
      else (0%nat, coll)
  | None => (0%nat, coll)
  end.

End collection.
End Mongo.

(** ** State passing

    The models read and write [mongo.db]; a computation over a store [S]
    returns its result together with the store it leaves. *)

Definition State (S A : Type) : Type := S -> A * S.

Definition ret {S A} (a : A) : State S A := fun s => (a, s).

Definition bind {S A B} (m : State S A) (k : A -> State S B) : State S B :=
  fun s => let (a, s') := m s in k a s'.

Notation "'let*' x := m 'in' k" := (bind m (fun x => k))
  (at level 10, x name, m at level 200, k at level 200).
Notation "'let*' ' p := m 'in' k" := (bind m (fun p => k))
  (at level 10, p strict pattern, m at level 200, k at level 200).

(** ** [models/customer.py] *)

Module Customer.

Record t := {
  id : ObjectId;
  first_name : string;
  last_name : string;
  username : string;
  email : string;
  age : Q;
  employment_type : string;
  years_of_experience : Q;
  annual_income : Q;
  existing_loan_amount : Q;
  is_active : bool;
  cibil_score : Q;
}.

Definition find_by_id (customer_id : ObjectId)
    : State (gmap ObjectId t) (option t) :=
  fun coll => (coll !! customer_id, coll).

(** The [customer_data] dictionary read by [calculate_cibil_score].  A
    field is [None] when its key is absent, so that [dict.get] falls
    back on its default. *)
Module customer_data.
Record t := {
  annual_income : option Q;
  years_of_experience : option Q;
  employment_type : option string;
  age : option Q;
  existing_loan_amount : option Q;
}.
End customer_data.

(** The keys of [to_dict] that the score reads. *)
Definition to_dict (self : t) : customer_data.t :=
  {| customer_data.annual_income := Some (annual_income self);
     customer_data.years_of_experience := Some (years_of_experience self);
     customer_data.employment_type := Some (employment_type self);
     customer_data.age := Some (age self);
     customer_data.existing_loan_amount :=
       Some (existing_loan_amount self) |}.

Definition calculate_cibil_score (customer_data : customer_data.t) : Q :=
  let score := 300 in
  (* Income factor *)
  let annual_income :=
    default 0 (customer_data.annual_income customer_data) in
  let score :=
    if Py.ge annual_income 1000000 then score + 200
    else if Py.ge annual_income 500000 then score + 150
    else if Py.ge annual_income 300000 then score + 100
    else score in
  (* Experience factor *)
  let years_of_experience :=
    default 0 (customer_data.years_of_experience customer_data) in
  let score :=
    if Py.ge years_of_experience 5 then score + 100
    else if Py.ge years_of_experience 2 then score + 50
    else score in
  (* Employment type factor *)
  let employment_type :=
    default EmptyString (customer_data.employment_type customer_data) in
  let score :=
    if String.eqb employment_type "salaried" then score + 100
    else if String.eqb employment_type "self_employed" then score + 50
    else score in
  (* Age factor *)
  let age := default 0 (customer_data.age customer_data) in
  let score :=
    if Py.le 25 age && Py.le age 35 then score + 50
    else if Py.le 36 age && Py.le age 45 then score + 75
    else score in
  (* Existing loan factor (negative) *)
  let existing_loan :=
    default 0 (customer_data.existing_loan_amount customer_data) in
  let score :=
    if Py.gt existing_loan 0
    then score - Py.min (existing_loan / 10000) 100
    else score in
  Py.min (Py.max score 300) 900.

End Customer.

(** ** [models/card_application.py] *)

Module CardApplication.

Inductive status_t := STATUS_PENDING | STATUS_APPROVED | STATUS_REJECTED.

Definition status_eqb (a b : status_t) : bool :=
  match a, b with
  | STATUS_PENDING, STATUS_PENDING
  | STATUS_APPROVED, STATUS_APPROVED
  | STATUS_REJECTED, STATUS_REJECTED => true
  | _, _ => false
  end.

Record t := {
  id : ObjectId;
  customer_id : ObjectId;
  card_name : string;
  bank_name : string;
  card_type : string;
  requested_credit_limit : Q;
  status : status_t;
  approved_credit_limit : option Q;
  approved_by : option ObjectId;
  rejection_reason : option string;
  applied_at : datetime;
  processed_at : option datetime;
  created_at : datetime;
  updated_at : datetime;
}.

(** The keys that [approve] and [reject] write. *)
Inductive field :=
| upd_status (v : status_t)
| upd_approved_by (v : ObjectId)
| upd_approved_credit_limit (v : Q)
| upd_rejection_reason (v : string)
| upd_processed_at (v : datetime)
| upd_updated_at (v : datetime).

Definition setattr (a : t) (f : field) : t :=
  match f with
  | upd_status v =>
      {| id := id a; customer_id := customer_id a; card_name := card_name a;
         bank_name := bank_name a; card_type := card_type a;
         requested_credit_limit := requested_credit_limit a;
         status := v;
         approved_credit_limit := approved_credit_limit a;
         approved_by := approved_by a;
         rejection_reason := rejection_reason a;
         applied_at := applied_at a; processed_at := processed_at a;
         created_at := created_at a; updated_at := updated_at a |}
  | upd_approved_by v =>
      {| id := id a; customer_id := customer_id a; card_name := card_name a;
         bank_name := bank_name a; card_type := card_type a;
         requested_credit_limit := requested_credit_limit a;
         status := status a;
         approved_credit_limit := approved_credit_limit a;
         approved_by := Some v;
         rejection_reason := rejection_reason a;
         applied_at := applied_at a; processed_at := processed_at a;
         created_at := created_at a; updated_at := updated_at a |}
  | upd_approved_credit_limit v =>
      {| id := id a; customer_id := customer_id a; card_name := card_name a;
         bank_name := bank_name a; card_type := card_type a;
         requested_credit_limit := requested_credit_limit a;
         status := status a;
         approved_credit_limit := Some v;
         approved_by := approved_by a;
         rejection_reason := rejection_reason a;
         applied_at := applied_at a; processed_at := processed_at a;
         created_at := created_at a; updated_at := updated_at a |}
  | upd_rejection_reason v =>
      {| id := id a; customer_id := customer_id a; card_name := card_name a;
         bank_name := bank_name a; card_type := card_type a;
         requested_credit_limit := requested_credit_limit a;
         status := status a;
         approved_credit_limit := approved_credit_limit a;
         approved_by := approved_by a;
         rejection_reason := Some v;
         applied_at := applied_at a; processed_at := processed_at a;
         created_at := created_at a; updated_at := updated_at a |}
  | upd_processed_at v =>
      {| id := id a; customer_id := customer_id a; card_name := card_name a;
         bank_name := bank_name a; card_type := card_type a;
         requested_credit_limit := requested_credit_limit a;
         status := status a;
         approved_credit_limit := approved_credit_limit a;
         approved_by := approved_by a;
         rejection_reason := rejection_reason a;
         applied_at := applied_at a; processed_at := Some v;
         created_at := created_at a; updated_at := updated_at a |}
  | upd_updated_at v =>
      {| id := id a; customer_id := customer_id a; card_name := card_name a;
         bank_name := bank_name a; card_type := card_type a;
         requested_credit_limit := requested_credit_limit a;
         status := status a;
         approved_credit_limit := approved_credit_limit a;
         approved_by := approved_by a;
         rejection_reason := rejection_reason a;
         applied_at := applied_at a; processed_at := processed_at a;
         created_at := created_at a; updated_at := v |}
  end.

Definition differs (a : t) (f : field) : bool :=
  match f with
  | upd_status v => negb (status_eqb (status a) v)
  | upd_approved_by v =>
      match approved_by a with
      | Some w => negb (Pos.eqb w v)
      | None => true
      end
  | upd_approved_credit_limit v =>
      match approved_credit_limit a with
      | Some w => negb (Qeq_bool w v)
      | None => true
      end
  | upd_rejection_reason v =>
      match rejection_reason a with
      | Some w => negb (String.eqb w v)
      | None => true
      end
  | upd_processed_at v =>
      match processed_at a with
      | Some w => negb (N.eqb w v)
      | None => true
      end
  | upd_updated_at v => negb (N.eqb (updated_at a) v)
  end.

#[export] Instance document : Document t field :=
  {| set_field := setattr; field_differs := differs |}.

Definition find_by_id (application_id : ObjectId)
    : State (gmap ObjectId t) (option t) :=
  fun coll => (Mongo.find_one coll application_id, coll).

(** [approve]: [approved_credit_limit or self.requested_credit_limit]
    falls back on the requested limit when the argument is [None] or
    zero. *)
Definition approve (self : t) (manager_id : ObjectId)
    (approved_credit_limit : option Q) (now : datetime)
    : State (gmap ObjectId t) (t * bool) :=
  fun coll =>
    let approved_limit :=
      match approved_credit_limit with
      | Some v => if Qeq_bool v 0 then requested_credit_limit self else v
      | None => requested_credit_limit self
      end in
    let update_data :=
      [ upd_status STATUS_APPROVED;
        upd_approved_by manager_id;
        upd_approved_credit_limit approved_limit;
        upd_processed_at now;
        upd_updated_at now ] in
    let (modified_count, coll') :=
      Mongo.update_one coll (id self) update_data in
    let self' :=
      if (0 <? modified_count)%nat then foldl setattr self update_data
      else self in
    ((self', (0 <? modified_count)%nat), coll').

Definition reject (self : t) (manager_id : ObjectId)
    (rejection_reason : string) (now : datetime)
    : State (gmap ObjectId t) (t * bool) :=
  fun coll =>
    let update_data :=
      [ upd_status STATUS_REJECTED;
        upd_approved_by manager_id;
        upd_rejection_reason rejection_reason;
        upd_processed_at now;
        upd_updated_at now ] in
    let (modified_count, coll') :=
      Mongo.update_one coll (id self) update_data in
    let self' :=
      if (0 <? modified_count)%nat then foldl setattr self update_data
      else self in
    ((self', (0 <? modified_count)%nat), coll').

(** The [application_data] dictionary that [apply_for_card] builds. *)
Module application_data.
Record t := {
  customer_id : ObjectId;
  card_name : string;
  bank_name : string;
  card_type : string;
  requested_credit_limit : Q;
}.
End application_data.

(** [create]: the four assignments, the insert, then
    [cls(application_data)]. *)
Definition create (application_data : application_data.t) (now : datetime)
    : State (gmap ObjectId t) t :=
  fun coll =>
    let document := fun inserted_id =>
      {| id := inserted_id;
         customer_id := application_data.customer_id application_data;
         card_name := application_data.card_name application_data;
         bank_name := application_data.bank_name application_data;
         card_type := application_data.card_type application_data;
         requested_credit_limit :=
           application_data.requested_credit_limit application_data;
         status := STATUS_PENDING;
         approved_credit_limit := None;
         approved_by := None;
         rejection_reason := None;
         applied_at := now;
         processed_at := None;
         created_at := now;
         updated_at := now |} in
    let (inserted_id, coll') := Mongo.insert_one coll document in
    (document inserted_id, coll').

(** [find_by_customer_id] and [find_pending_applications]: the documents
    that match the filter, in the order of the collection. *)
Definition find_by_customer_id (customer : ObjectId)
    : State (gmap ObjectId t) (list t) :=
  fun coll =>
    (List.filter (fun a => Pos.eqb (customer_id a) customer)
       (map_to_list coll).*2, coll).

Definition find_pending_applications : State (gmap ObjectId t) (list t) :=
  fun coll =>
    (List.filter (fun a => status_eqb (status a) STATUS_PENDING)
       (map_to_list coll).*2, coll).

End CardApplication.

(** ** [models/credit_card.py] *)

Module CreditCard.

Record t := {
  id : ObjectId;
  card_number : string;
  card_holder_name : string;
  expiry_date : datetime;
  cvv : string;
  pin : option string;
  customer_id : ObjectId;
  bank_name : string;
  card_type : string;
  credit_limit : Q;
  current_balance : Q;
  available_credit : Q;
  interest_rate : string;
  apr : string;
  rewards_program : string;
  fees_and_charges : string;
  policies : string;
  is_active : bool;
  created_at : datetime;
  updated_at : datetime;
}.

(** The [card_data] dictionary that the issuing route hands to [create].
    It always carries [credit_limit] and [current_balance], so the
    defaults of [card_data.get] are never taken. *)
Module card_data.
Record t := {
  customer_id : ObjectId;
  card_holder_name : string;
  bank_name : string;
  card_type : string;
  credit_limit : Q;
  current_balance : Q;
  interest_rate : string;
  apr : string;
  rewards_program : string;
  fees_and_charges : string;
  policies : string;
}.
End card_data.

(** The keys that [update] is called with. *)
Inductive field :=
| upd_current_balance (v : Q)
| upd_available_credit (v : Q)
| upd_pin (v : string)
| upd_is_active (v : bool)
| upd_updated_at (v : datetime).

Definition setattr (c : t) (f : field) : t :=
  match f with
  | upd_current_balance v =>
      {| id := id c; card_number := card_number c;
         card_holder_name := card_holder_name c;
         expiry_date := expiry_date c; cvv := cvv c; pin := pin c;
         customer_id := customer_id c; bank_name := bank_name c;
         card_type := card_type c; credit_limit := credit_limit c;
         current_balance := v; available_credit := available_credit c;
         interest_rate := interest_rate c; apr := apr c;
         rewards_program := rewards_program c;
         fees_and_charges := fees_and_charges c; policies := policies c;
         is_active := is_active c; created_at := created_at c;
         updated_at := updated_at c |}
  | upd_available_credit v =>
      {| id := id c; card_number := card_number c;
         card_holder_name := card_holder_name c;
         expiry_date := expiry_date c; cvv := cvv c; pin := pin c;
         customer_id := customer_id c; bank_name := bank_name c;
         card_type := card_type c; credit_limit := credit_limit c;
         current_balance := current_balance c; available_credit := v;
         interest_rate := interest_rate c; apr := apr c;
         rewards_program := rewards_program c;
         fees_and_charges := fees_and_charges c; policies := policies c;
         is_active := is_active c; created_at := created_at c;
         updated_at := updated_at c |}
  | upd_pin v =>
      {| id := id c; card_number := card_number c;
         card_holder_name := card_holder_name c;
         expiry_date := expiry_date c; cvv := cvv c; pin := Some v;
         customer_id := customer_id c; bank_name := bank_name c;
         card_type := card_type c; credit_limit := credit_limit c;
         current_balance := current_balance c;
         available_credit := available_credit c;
         interest_rate := interest_rate c; apr := apr c;
         rewards_program := rewards_program c;
         fees_and_charges := fees_and_charges c; policies := policies c;
         is_active := is_active c; created_at := created_at c;
         updated_at := updated_at c |}
  | upd_is_active v =>
      {| id := id c; card_number := card_number c;
         card_holder_name := card_holder_name c;
         expiry_date := expiry_date c; cvv := cvv c; pin := pin c;
         customer_id := customer_id c; bank_name := bank_name c;
         card_type := card_type c; credit_limit := credit_limit c;
         current_balance := current_balance c;
         available_credit := available_credit c;
         interest_rate := interest_rate c; apr := apr c;
         rewards_program := rewards_program c;
         fees_and_charges := fees_and_charges c; policies := policies c;
         is_active := v; created_at := created_at c;
         updated_at := updated_at c |}
  | upd_updated_at v =>
      {| id := id c; card_number := card_number c;
         card_holder_name := card_holder_name c;
         expiry_date := expiry_date c; cvv := cvv c; pin := pin c;
         customer_id := customer_id c; bank_name := bank_name c;
         card_type := card_type c; credit_limit := credit_limit c;
         current_balance := current_balance c;
         available_credit := available_credit c;
         interest_rate := interest_rate c; apr := apr c;
         rewards_program := rewards_program c;
         fees_and_charges := fees_and_charges c; policies := policies c;
         is_active := is_active c; created_at := created_at c;
         updated_at := v |}
  end.

Definition differs (c : t) (f : field) : bool :=
  match f with
  | upd_current_balance v => negb (Qeq_bool (current_balance c) v)
  | upd_available_credit v => negb (Qeq_bool (available_credit c) v)
  | upd_pin v =>
      match pin c with
      | Some w => negb (String.eqb w v)
      | None => true
      end
  | upd_is_active v => negb (Bool.eqb (is_active c) v)
  | upd_updated_at v => negb (N.eqb (updated_at c) v)
  end.

#[export] Instance document : Document t field :=
  {| set_field := setattr; field_differs := differs |}.

(** [timedelta(days=365 * 5)], in microseconds. *)
Definition five_years : datetime := (365 * 5 * 86400 * 1000000)%N.

(** [create].  The card number and the CVV are the strings drawn by
    [_generate_card_number] and [_generate_cvv]; [expiry_date] is kept as
    the date that [strftime] renders. *)
Definition create (card_data : card_data.t) (now : datetime)
    (card_number cvv : string) : State (gmap ObjectId t) t :=
  fun coll =>
    let available_credit :=
      card_data.credit_limit card_data
      - card_data.current_balance card_data in
    let document := fun inserted_id =>
      {| id := inserted_id;
         card_number := card_number;
         card_holder_name := card_data.card_holder_name card_data;
         expiry_date := (now + five_years)%N;
         cvv := cvv;
         pin := None;
         customer_id := card_data.customer_id card_data;
         bank_name := card_data.bank_name card_data;
         card_type := card_data.card_type card_data;
         credit_limit := card_data.credit_limit card_data;
         current_balance := card_data.current_balance card_data;
         available_credit := available_credit;
         interest_rate := card_data.interest_rate card_data;
         apr := card_data.apr card_data;
         rewards_program := card_data.rewards_program card_data;
         fees_and_charges := card_data.fees_and_charges card_data;
         policies := card_data.policies card_data;
         is_active := true;
         created_at := now;
         updated_at := now |} in
    let (inserted_id, coll') := Mongo.insert_one coll document in
    (document inserted_id, coll').

Definition find_by_id (card_id : ObjectId)
    : State (gmap ObjectId t) (option t) :=
  fun coll => (Mongo.find_one coll card_id, coll).

(** [update]: the attributes of [self] are set only when the store
    reports a modified document. *)
Definition update (self : t) (update_data : list field) (now : datetime)
    : State (gmap ObjectId t) (t * bool) :=
  fun coll =>
    let update_data := update_data ++ [upd_updated_at now] in
    let (modified_count, coll') :=
      Mongo.update_one coll (id self) update_data in
    let self' :=
      if (0 <? modified_count)%nat then foldl setattr self update_data
      else self in
    ((self', (0 <? modified_count)%nat), coll').

(** [update_balance]: [self] is assigned its new balance and available
    credit first, then [update] is called with the two values. *)
Definition update_balance (self : t) (amount : Q)
    (transaction_type : string) (now : datetime)
    : State (gmap ObjectId t) (t * bool) :=
  let self :=
    if String.eqb transaction_type "debit"
    then setattr self (upd_current_balance (current_balance self + amount))
    else setattr self
           (upd_current_balance (Py.max 0 (current_balance self - amount)))
  in
  let self :=
    setattr self
      (upd_available_credit (credit_limit self - current_balance self)) in
  update self
    [ upd_current_balance (current_balance self);
      upd_available_credit (available_credit self) ] now.

Definition set_pin (self : t) (pin : string) (now : datetime)
    : State (gmap ObjectId t) (t * bool) :=
  update self [upd_pin pin] now.

Definition delete (self : t) (now : datetime)
    : State (gmap ObjectId t) (t * bool) :=
  update self [upd_is_active false] now.

(** [find_by_customer_id]: the active cards of a customer, in the order
    of the collection. *)
Definition find_by_customer_id (customer : ObjectId)
    : State (gmap ObjectId t) (list t) :=
  fun coll =>
    (List.filter
       (fun c => Pos.eqb (customer_id c) customer && is_active c)
       (map_to_list coll).*2, coll).

(** [_mask_card_number]: [None] for an empty number, else the first four
    and the last four characters around the mask. *)
Definition _mask_card_number (self : t) : option string :=
  if String.eqb (card_number self) EmptyString then None
  else Some (Py.prefix 4 (card_number self) +:+ " **** **** "
             +:+ Py.suffix 4 (card_number self)).

(** The dictionary that [to_dict] returns; the two dates are kept as
    dates. *)
Module dict.
Record t := {
  id : ObjectId;
  card_holder_name : string;
  expiry_date : datetime;
  bank_name : string;
  card_type : string;
  credit_limit : Q;
  current_balance : Q;
  available_credit : Q;
  interest_rate : string;
  apr : string;
  rewards_program : string;
  fees_and_charges : string;
  policies : string;
  is_active : bool;
  created_at : datetime;
  updated_at : datetime;
  card_number : option string;
  cvv : string;
  pin : option string;
}.
End dict.

Definition to_dict (self : t) (mask_sensitive : bool) : dict.t :=
  {| dict.id := id self;
     dict.card_holder_name := card_holder_name self;
     dict.expiry_date := expiry_date self;
     dict.bank_name := bank_name self;
     dict.card_type := card_type self;
     dict.credit_limit := credit_limit self;
     dict.current_balance := current_balance self;
     dict.available_credit := available_credit self;
     dict.interest_rate := interest_rate self;
     dict.apr := apr self;
     dict.rewards_program := rewards_program self;
     dict.fees_and_charges := fees_and_charges self;
     dict.policies := policies self;
     dict.is_active := is_active self;
     dict.created_at := created_at self;
     dict.updated_at := updated_at self;
     dict.card_number :=
       if mask_sensitive then _mask_card_number self
       else Some (card_number self);
     dict.cvv := if mask_sensitive then "***" else cvv self;
     dict.pin :=
       if mask_sensitive
       then match pin self with
            | Some p => if String.eqb p EmptyString then None else Some "****"
            | None => None
            end
       else pin self |}.

End CreditCard.

(** ** [models/transaction.py] *)

Module Transaction.

Inductive status_t :=
| STATUS_PENDING | STATUS_COMPLETED | STATUS_FAILED | STATUS_CANCELLED.

Record t := {
  id : ObjectId;
  card_id : ObjectId;
  customer_id : ObjectId;
  transaction_type : string;
  amount : Q;
  currency : string;
  merchant_name : string;
  merchant_category : string;
  description : string;
  status : status_t;
  transaction_date : datetime;
  settlement_date : option datetime;
  reference_number : option string;
  location : option string;
  created_at : datetime;
  updated_at : datetime;
}.

(** The [transaction_data] dictionary: the keys that the callers set,
    and the keys that [create] and [create_sample_transactions] add. *)
Module transaction_data.
Record t := {
  card_id : ObjectId;
  customer_id : ObjectId;
  transaction_type : string;
  amount : Q;
  merchant_name : string;
  merchant_category : string;
  description : string;
  location : option string;
  status : option status_t;
  transaction_date : option datetime;
  settlement_date : option datetime;
  reference_number : option string;
  created_at : option datetime;
  updated_at : option datetime;
}.
End transaction_data.

(** [__init__], with the defaults of its [data.get] calls. *)
Definition init (_id : ObjectId) (data : transaction_data.t)
    (now : datetime) : t :=
  {| id := _id;
     card_id := transaction_data.card_id data;
     customer_id := transaction_data.customer_id data;
     transaction_type := transaction_data.transaction_type data;
     amount := transaction_data.amount data;
     currency := "INR";
     merchant_name := transaction_data.merchant_name data;
     merchant_category := transaction_data.merchant_category data;
     description := transaction_data.description data;
     status := default STATUS_PENDING (transaction_data.status data);
     transaction_date := default now (transaction_data.transaction_date data);
     settlement_date := transaction_data.settlement_date data;
     reference_number := transaction_data.reference_number data;
     location := transaction_data.location data;
     created_at := default now (transaction_data.created_at data);
     updated_at := default now (transaction_data.updated_at data) |}.

(** [create]: the four assignments to [transaction_data], the insert,
    then [cls(transaction_data)].  [reference_number] is the string drawn
    by [_generate_reference_number]. *)
Definition create (transaction_data : transaction_data.t) (now : datetime)
    (reference_number : string) : State (gmap ObjectId t) t :=
  fun coll =>
    let transaction_data :=
      {| transaction_data.card_id := transaction_data.card_id transaction_data;
         transaction_data.customer_id :=
           transaction_data.customer_id transaction_data;
         transaction_data.transaction_type :=
           transaction_data.transaction_type transaction_data;
         transaction_data.amount := transaction_data.amount transaction_data;
         transaction_data.merchant_name :=
           transaction_data.merchant_name transaction_data;
         transaction_data.merchant_category :=
           transaction_data.merchant_category transaction_data;
         transaction_data.description :=
           transaction_data.description transaction_data;
         transaction_data.location :=
           transaction_data.location transaction_data;
         transaction_data.status := Some STATUS_PENDING;
         transaction_data.transaction_date :=
           transaction_data.transaction_date transaction_data;
         transaction_data.settlement_date :=
           transaction_data.settlement_date transaction_data;
         transaction_data.reference_number := Some reference_number;
         transaction_data.created_at := Some now;
         transaction_data.updated_at := Some now |} in
    let document := fun inserted_id => init inserted_id transaction_data now in
    let (inserted_id, coll') := Mongo.insert_one coll document in
    (document inserted_id, coll').

Definition sample (card_id customer_id : ObjectId)
    (transaction_type : string) (amount : Q)
    (merchant_name merchant_category description : string)
    : transaction_data.t :=
  {| transaction_data.card_id := card_id;
     transaction_data.customer_id := customer_id;
     transaction_data.transaction_type := transaction_type;
     transaction_data.amount := amount;
     transaction_data.merchant_name := merchant_name;
     transaction_data.merchant_category := merchant_category;
     transaction_data.description := description;
     transaction_data.location := None;
     transaction_data.status := Some STATUS_COMPLETED;
     transaction_data.transaction_date := None;
     transaction_data.settlement_date := None;
     transaction_data.reference_number := None;
     transaction_data.created_at := None;
     transaction_data.updated_at := None |}.

Definition sample_transactions (card_id customer_id : ObjectId)
    : list transaction_data.t :=
  [ sample card_id customer_id "purchase" 2500
      "Amazon India" "Online Shopping" "Electronics purchase";
    sample card_id customer_id "purchase" 800
      "Swiggy" "Food & Dining" "Food delivery";
    sample card_id customer_id "purchase" 1200
      "Uber" "Transportation" "Ride payment";
    sample card_id customer_id "purchase" 4500
      "BigBazaar" "Groceries" "Grocery shopping";
    sample card_id customer_id "payment" 5000
      "Credit Card Payment" "Payment" "Monthly bill payment" ].

(** The loop of [create_sample_transactions]: each sample gets its two
    dates and is inserted as it is, without going through [create]. *)
Fixpoint insert_samples (samples : list transaction_data.t)
    (now : datetime) : State (gmap ObjectId t) (list t) :=
  match samples with
  | [] => ret []
  | txn_data :: samples =>
      fun coll =>
        let txn_data :=
          {| transaction_data.card_id := transaction_data.card_id txn_data;
             transaction_data.customer_id :=
               transaction_data.customer_id txn_data;
             transaction_data.transaction_type :=
               transaction_data.transaction_type txn_data;
             transaction_data.amount := transaction_data.amount txn_data;
             transaction_data.merchant_name :=
               transaction_data.merchant_name txn_data;
             transaction_data.merchant_category :=
               transaction_data.merchant_category txn_data;
             transaction_data.description :=
               transaction_data.description txn_data;
             transaction_data.location := transaction_data.location txn_data;
             transaction_data.status := transaction_data.status txn_data;
             transaction_data.transaction_date := Some now;
             transaction_data.settlement_date := Some now;
             transaction_data.reference_number :=
               transaction_data.reference_number txn_data;
             transaction_data.created_at :=
               transaction_data.created_at txn_data;
             transaction_data.updated_at :=
               transaction_data.updated_at txn_data |} in
        let document := fun inserted_id => init inserted_id txn_data now in
        let (inserted_id, coll') := Mongo.insert_one coll document in
        let (created, coll'') := insert_samples samples now coll' in
        (document inserted_id :: created, coll'')
  end.

Definition create_sample_transactions (card_id customer_id : ObjectId)
    (now : datetime) : State (gmap ObjectId t) (list t) :=
  insert_samples (sample_transactions card_id customer_id) now.

Definition status_eqb (a b : status_t) : bool :=
  match a, b with
  | STATUS_PENDING, STATUS_PENDING
  | STATUS_COMPLETED, STATUS_COMPLETED
  | STATUS_FAILED, STATUS_FAILED
  | STATUS_CANCELLED, STATUS_CANCELLED => true
  | _, _ => false
  end.

(** The keys that [update_status] writes. *)
Inductive field :=
| upd_status (v : status_t)
| upd_updated_at (v : datetime)
| upd_settlement_date (v : datetime).

Definition setattr (x : t) (f : field) : t :=
  match f with
  | upd_status v =>
      {| id := id x; card_id := card_id x; customer_id := customer_id x;
         transaction_type := transaction_type x; amount := amount x;
         currency := currency x; merchant_name := merchant_name x;
         merchant_category := merchant_category x;
         description := description x; status := v;
         transaction_date := transaction_date x;
         settlement_date := settlement_date x;
         reference_number := reference_number x; location := location x;
         created_at := created_at x; updated_at := updated_at x |}
  | upd_updated_at v =>
      {| id := id x; card_id := card_id x; customer_id := customer_id x;
         transaction_type := transaction_type x; amount := amount x;
         currency := currency x; merchant_name := merchant_name x;
         merchant_category := merchant_category x;
         description := description x; status := status x;
         transaction_date := transaction_date x;
         settlement_date := settlement_date x;
         reference_number := reference_number x; location := location x;
         created_at := created_at x; updated_at := v |}
  | upd_settlement_date v =>
      {| id := id x; card_id := card_id x; customer_id := customer_id x;
         transaction_type := transaction_type x; amount := amount x;
         currency := currency x; merchant_name := merchant_name x;
         merchant_category := merchant_category x;
         description := description x; status := status x;
         transaction_date := transaction_date x; settlement_date := Some v;
         reference_number := reference_number x; location := location x;
         created_at := created_at x; updated_at := updated_at x |}
  end.

Definition differs (x : t) (f : field) : bool :=
  match f with
  | upd_status v => negb (status_eqb (status x) v)
  | upd_updated_at v => negb (N.eqb (updated_at x) v)
  | upd_settlement_date v =>
      match settlement_date x with
      | Some w => negb (N.eqb w v)
      | None => true
      end
  end.

#[export] Instance document : Document t field :=
  {| set_field := setattr; field_differs := differs |}.

(** [update_status]: the store gets a settlement date when one is given or
    when the new status is completed; [self] takes the status, the update
    time and only a settlement date that was given. *)
Definition update_status (self : t) (status : status_t)
    (settlement_date : option datetime) (now : datetime)
    : State (gmap ObjectId t) (t * bool) :=
  fun coll =>
    let update_data :=
      [upd_status status; upd_updated_at now]
      ++ match settlement_date with
         | Some d => [upd_settlement_date d]
         | None =>
             if status_eqb status STATUS_COMPLETED
             then [upd_settlement_date now]
             else []
         end in
    let (modified_count, coll') :=
      Mongo.update_one coll (id self) update_data in
    let self' :=
      if (0 <? modified_count)%nat
      then foldl setattr self
             ([upd_status status; upd_updated_at now]
              ++ match settlement_date with
                 | Some d => [upd_settlement_date d]
                 | None => []
                 end)
      else self in
    ((self', (0 <? modified_count)%nat), coll').

End Transaction.

(** ** [utils/helpers.py]: responses and the two sinks *)

(** What [APIResponse] builds, by status code: 200, 400, 403, 404, 409 and
    500. *)
Inductive Response (A : Type) :=
| success (data : A) (message : string)
| validation_error (errors : option Validators.error)
| forbidden (message : string)
| not_found (message : string)
| conflict (message : string)
| server_error (message : string).

Arguments success {A} data message.
Arguments validation_error {A} errors.
Arguments forbidden {A} message.
Arguments not_found {A} message.
Arguments conflict {A} message.
Arguments server_error {A} message.

Definition is_success {A} (r : Response A) : bool :=
  match r with success _ _ => true | _ => false end.

Definition is_validation_error {A} (r : Response A) : bool :=
  match r with validation_error _ => true | _ => false end.

Definition is_conflict {A} (r : Response A) : bool :=
  match r with conflict _ => true | _ => false end.

(** A notification and an audit entry, without the rendered message text
    and the request metadata. *)
Record notification := {
  n_user_id : ObjectId;
  n_user_type : string;
  n_notification_type : string;
  n_data : list (string * ObjectId);
  n_is_read : bool;
  n_created_at : datetime;
}.

Record audit_entry := {
  a_user_id : ObjectId;
  a_user_type : string;
  a_action : string;
  a_timestamp : datetime;
}.

(** ** [mongo.db] *)

Record Db := {
  customers : gmap ObjectId Customer.t;
  card_applications : gmap ObjectId CardApplication.t;
  credit_cards : gmap ObjectId CreditCard.t;
  transactions : gmap ObjectId Transaction.t;
  notifications : list notification;
  audit_logs : list audit_entry;
}.

Definition on_customers {A} (m : State (gmap ObjectId Customer.t) A)
    : State Db A :=
  fun db =>
    let (a, coll) := m (customers db) in
    (a, {| customers := coll; card_applications := card_applications db;
           credit_cards := credit_cards db; transactions := transactions db;
           notifications := notifications db; audit_logs := audit_logs db |}).

Definition on_card_applications {A}
    (m : State (gmap ObjectId CardApplication.t) A) : State Db A :=
  fun db =>
    let (a, coll) := m (card_applications db) in
    (a, {| customers := customers db; card_applications := coll;
           credit_cards := credit_cards db; transactions := transactions db;
           notifications := notifications db; audit_logs := audit_logs db |}).

Definition on_credit_cards {A} (m : State (gmap ObjectId CreditCard.t) A)
    : State Db A :=
  fun db =>
    let (a, coll) := m (credit_cards db) in
    (a, {| customers := customers db;
           card_applications := card_applications db;
           credit_cards := coll; transactions := transactions db;
           notifications := notifications db; audit_logs := audit_logs db |}).

Definition on_transactions {A} (m : State (gmap ObjectId Transaction.t) A)
    : State Db A :=
  fun db =>
    let (a, coll) := m (transactions db) in
    (a, {| customers := customers db;
           card_applications := card_applications db;
           credit_cards := credit_cards db; transactions := coll;
           notifications := notifications db; audit_logs := audit_logs db |}).

Module NotificationService.

Definition create_notification (user_id : ObjectId)
    (user_type notification_type : string)
    (data : list (string * ObjectId)) (now : datetime) : State Db bool :=
  fun db =>
    let notification :=
      {| n_user_id := user_id; n_user_type := user_type;
         n_notification_type := notification_type; n_data := data;
         n_is_read := false; n_created_at := now |} in
    (true,
     {| customers := customers db;
        card_applications := card_applications db;
        credit_cards := credit_cards db; transactions := transactions db;
        notifications := notifications db ++ [notification];
        audit_logs := audit_logs db |}).

End NotificationService.

Module AuditLogger.

Definition log_user_action (user_id : ObjectId)
    (user_type action : string) (now : datetime) : State Db unit :=
  fun db =>
    let audit_entry :=
      {| a_user_id := user_id; a_user_type := user_type;
         a_action := action; a_timestamp := now |} in
    (tt,
     {| customers := customers db;
        card_applications := card_applications db;
        credit_cards := credit_cards db; transactions := transactions db;
        notifications := notifications db;
        audit_logs := audit_logs db ++ [audit_entry] |}).

End AuditLogger.

(** ** [routes/manager.py] *)

Module routes_manager.

(** The JSON body of an approval, and the data of its success response. *)
Record approve_request := {
  approved_credit_limit : option Q;
}.

Record approve_result := {
  application_id : ObjectId;
  card_id : ObjectId;
  approved_limit : Q;
}.

Definition approve_application (manager_id application_id : ObjectId)
    (data : approve_request) (now : datetime) (card_number cvv : string)
    : State Db (Response approve_result) :=
  (* Get application *)
  let* application :=
    on_card_applications (CardApplication.find_by_id application_id) in
  match application with
  | None => ret (not_found "Application not found")
  | Some application =>
      if negb (CardApplication.status_eqb
                 (CardApplication.status application)
                 CardApplication.STATUS_PENDING)
      then ret (conflict "Application is not pending")
      else
        (* Get approved credit limit *)
        let approved_limit :=
          default (CardApplication.requested_credit_limit application)
                  (approved_credit_limit data) in
        (* Validate approved limit *)
        let (is_valid, error) :=
          Validators.validate_credit_limit (Some approved_limit) in
        if negb is_valid then ret (validation_error error)
        else
          (* Approve application *)
          let* ' (application, success_) :=
            on_card_applications
              (CardApplication.approve application manager_id
                 (Some approved_limit) now) in
          if success_ : bool then
            (* Create credit card for customer *)
            let* customer :=
              on_customers
                (Customer.find_by_id
                   (CardApplication.customer_id application)) in
            match customer with
            | Some customer =>
                let card_data :=
                  {| CreditCard.card_data.customer_id :=
                       CardApplication.customer_id application;
                     CreditCard.card_data.card_holder_name :=
                       Customer.first_name customer ++ " "
                       ++ Customer.last_name customer;
                     CreditCard.card_data.bank_name :=
                       CardApplication.bank_name application;
                     CreditCard.card_data.card_type :=
                       CardApplication.card_type application;
                     CreditCard.card_data.credit_limit := approved_limit;
                     CreditCard.card_data.current_balance := 0;
                     CreditCard.card_data.interest_rate := "3.0%";
                     CreditCard.card_data.apr := "36%";
                     CreditCard.card_data.rewards_program :=
                       "2X rewards on all spends";
                     CreditCard.card_data.fees_and_charges :=
                       "No annual fee for first year";
                     CreditCard.card_data.policies :=
                       "Standard terms and conditions apply" |} in
                (* Create the credit card *)
                let* credit_card :=
                  on_credit_cards
                    (CreditCard.create card_data now card_number cvv) in
                (* Create sample transactions for demo *)
                let* _ :=
                  on_transactions
                    (Transaction.create_sample_transactions
                       (CreditCard.id credit_card) (Customer.id customer)
                       now) in
                (* Send notification to customer *)
                let* _ :=
                  NotificationService.create_notification
                    (Customer.id customer) "customer" "application_approved"
                    [("card_id", CreditCard.id credit_card);
                     ("application_id", application_id)] now in
                (* Log approval *)
                let* _ :=
                  AuditLogger.log_user_action manager_id "manager"
                    "application_approved" now in
                ret (success
                       {| application_id := application_id;
                          card_id := CreditCard.id credit_card;
                          approved_limit := approved_limit |}
                       "Application approved successfully")
            | None => ret (server_error "Customer not found")
            end
          else ret (server_error "Failed to approve application")
  end.

Record reject_request := {
  rejection_reason : option string;
}.

Definition reject_application (manager_id application_id : ObjectId)
    (data : reject_request) (now : datetime)
    : State Db (Response ObjectId) :=
  (* Validate rejection reason *)
  let rejection_reason :=
    default "Application does not meet our criteria"
            (rejection_reason data) in
  if String.eqb rejection_reason EmptyString
     || Py.lt (Py.len (Py.strip rejection_reason)) 10
  then ret (validation_error
              (Some (Validators.message
                       "Rejection reason must be at least 10 characters")))
  else
    (* Get application *)
    let* application :=
      on_card_applications (CardApplication.find_by_id application_id) in
    match application with
    | None => ret (not_found "Application not found")
    | Some application =>
        if negb (CardApplication.status_eqb
                   (CardApplication.status application)
                   CardApplication.STATUS_PENDING)
        then ret (conflict "Application is not pending")
        else
          (* Reject application *)
          let* ' (application, success_) :=
            on_card_applications
              (CardApplication.reject application manager_id
                 rejection_reason now) in
          if success_ : bool then
            (* Send notification to customer *)
            let* customer :=
              on_customers
                (Customer.find_by_id
                   (CardApplication.customer_id application)) in
            let* _ :=
              match customer with
              | Some customer =>
                  NotificationService.create_notification
                    (Customer.id customer) "customer" "application_rejected"
                    [("application_id", application_id)] now
              | None => ret false
              end in
            (* Log rejection *)
            let* _ :=
              AuditLogger.log_user_action manager_id "manager"
                "application_rejected" now in
            ret (success application_id "Application rejected successfully")
          else ret (server_error "Failed to reject application")
    end.

End routes_manager.

(** ** [routes/transactions.py] *)

Module routes_transactions.

(** The JSON body of [/create]. *)
Record create_request := {
  card_id : option ObjectId;
  amount : option Q;
  merchant_name : option string;
  description : option string;
  transaction_type : option string;
  merchant_category : option string;
  location : option string;
}.

Record create_result := {
  transaction : Transaction.t;
  new_balance : Q;
  available_credit : Q;
}.

(** [create_transaction].  Reading a required key after the two
    validations cannot fail; the [KeyError] branches are kept as the
    general error handler's response. *)
Definition create_transaction (customer : Customer.t)
    (data : create_request) (now : datetime) (reference_number : string)
    : State Db (Response create_result) :=
  (* Validate required fields *)
  let (is_valid, error) :=
    Validators.validate_required_fields
      [ ("card_id", bool_decide (is_Some (card_id data)));
        ("amount", Validators.truthy_number (amount data));
        ("merchant_name", Validators.truthy_string (merchant_name data));
        ("description", Validators.truthy_string (description data)) ] in
  if negb is_valid then ret (validation_error error)
  else
    (* Validate amount *)
    let (is_valid, error) :=
      Validators.validate_transaction_amount (amount data) in
    if negb is_valid then ret (validation_error error)
    else
      match card_id data, amount data,
            merchant_name data, description data with
      | Some card_id, Some transaction_amount,
        Some merchant_name, Some description =>
          (* Verify card ownership *)
          let* card := on_credit_cards (CreditCard.find_by_id card_id) in
          match card with
          | None => ret (forbidden "Access denied")
          | Some card =>
              if negb (Pos.eqb (CreditCard.customer_id card)
                               (Customer.id customer))
              then ret (forbidden "Access denied")
              else
                (* Check if transaction would exceed credit limit *)
                if Py.gt (CreditCard.current_balance card
                          + transaction_amount)
                         (CreditCard.credit_limit card)
                then ret (validation_error
                            (Some (Validators.message
                               "Transaction would exceed credit limit")))
                else
                  (* Create transaction *)
                  let transaction_data :=
                    {| Transaction.transaction_data.card_id := card_id;
                       Transaction.transaction_data.customer_id :=
                         Customer.id customer;
                       Transaction.transaction_data.transaction_type :=
                         default "purchase" (transaction_type data);
                       Transaction.transaction_data.amount :=
                         transaction_amount;
                       Transaction.transaction_data.merchant_name :=
                         merchant_name;
                       Transaction.transaction_data.merchant_category :=
                         default "Other" (merchant_category data);
                       Transaction.transaction_data.description :=
                         description;
                       Transaction.transaction_data.location :=
                         location data;
                       Transaction.transaction_data.status :=
                         Some Transaction.STATUS_COMPLETED;
                       Transaction.transaction_data.transaction_date := None;
                       Transaction.transaction_data.settlement_date := None;
                       Transaction.transaction_data.reference_number := None;
                       Transaction.transaction_data.created_at := None;
                       Transaction.transaction_data.updated_at := None |} in
                  let* transaction :=
                    on_transactions
                      (Transaction.create transaction_data now
                         reference_number) in
                  (* Update card balance *)
                  let* ' (card, _) :=
                    on_credit_cards
                      (CreditCard.update_balance card transaction_amount
                         "debit" now) in
                  (* Log transaction creation *)
                  let* _ :=
                    AuditLogger.log_user_action (Customer.id customer)
                      "customer" "transaction_created" now in
                  ret (success
                         {| transaction := transaction;
                            new_balance := CreditCard.current_balance card;
                            available_credit :=
                              CreditCard.available_credit card |}
                         "Transaction created successfully")
          end
      | _, _, _, _ => ret (server_error "An unexpected error occurred")
      end.

(** The paging arithmetic of [get_card_transactions] and
    [get_customer_transactions]: the offset of a page, the number of
    pages, and the slice [.skip(skip).limit(per_page)] of a cursor over
    [results], for a page and a page size of at least one. *)
Definition skip (page per_page : Z) : Z := ((page - 1) * per_page)%Z.

Definition pages (total per_page : Z) : Z :=
  Py.floordiv (total + per_page - 1) per_page.

Definition page_of {A} (results : list A) (page per_page : Z) : list A :=
  take (Z.to_nat per_page) (drop (Z.to_nat (skip page per_page)) results).

End routes_transactions.

(** ** [routes/cards.py] *)

Module routes_cards.

Record pay_bill_request := {
  amount : option Q;
}.

Record pay_bill_result := {
  new_balance : Q;
  available_credit : Q;
}.

Definition pay_bill (customer : Customer.t) (card_id : ObjectId)
    (data : pay_bill_request) (now : datetime) (reference_number : string)
    : State Db (Response pay_bill_result) :=
  (* Validate payment amount *)
  let (is_valid, error) :=
    Validators.validate_transaction_amount (amount data) in
  if negb is_valid then ret (validation_error error)
  else
    let* card := on_credit_cards (CreditCard.find_by_id card_id) in
    match card, amount data with
    | None, _ => ret (not_found "Card not found")
    | Some card, Some payment_amount =>
        if negb (Pos.eqb (CreditCard.customer_id card)
                         (Customer.id customer))
        then ret (forbidden "Access denied")
        else
          (* Check if payment amount is valid *)
          if Py.gt payment_amount (CreditCard.current_balance card)
          then ret (validation_error
                      (Some (Validators.message
                         "Payment amount cannot exceed current balance")))
          else
            (* Update card balance *)
            let* ' (card, success_) :=
              on_credit_cards
                (CreditCard.update_balance card payment_amount
                   "credit" now) in
            if success_ : bool then
              (* Create payment transaction *)
              let transaction_data :=
                {| Transaction.transaction_data.card_id := card_id;
                   Transaction.transaction_data.customer_id :=
                     Customer.id customer;
                   Transaction.transaction_data.transaction_type :=
                     "payment";
                   Transaction.transaction_data.amount := payment_amount;
                   Transaction.transaction_data.merchant_name :=
                     "Credit Card Payment";
                   Transaction.transaction_data.merchant_category :=
                     "Payment";
                   Transaction.transaction_data.description :=
                     "Bill payment";
                   Transaction.transaction_data.location := None;
                   Transaction.transaction_data.status :=
                     Some Transaction.STATUS_COMPLETED;
                   Transaction.transaction_data.transaction_date := None;
                   Transaction.transaction_data.settlement_date := None;
                   Transaction.transaction_data.reference_number := None;
                   Transaction.transaction_data.created_at := None;
                   Transaction.transaction_data.updated_at := None |} in
              let* _ :=
                on_transactions
                  (Transaction.create transaction_data now
                     reference_number) in
              let* _ :=
                AuditLogger.log_user_action (Customer.id customer)
                  "customer" "bill_payment" now in
              ret (success
                     {| new_balance := CreditCard.current_balance card;
                        available_credit :=
                          CreditCard.available_credit card |}
                     "Bill payment successful")
            else ret (server_error "Failed to process payment")
    | Some _, None => ret (server_error "An unexpected error occurred")
    end.

(** The JSON body of [/apply]. *)
Record apply_request := {
  card_name : option string;
  bank_name : option string;
  requested_credit_limit : option Q;
  card_type : option string;
}.

(** [apply_for_card].  The loop over the customer's active cards answers
    with a conflict at the first card of the requested bank. *)
Definition apply_for_card (customer : Customer.t) (data : apply_request)
    (now : datetime) : State Db (Response ObjectId) :=
  (* Validate required fields *)
  let (is_valid, error) :=
    Validators.validate_required_fields
      [ ("card_name", Validators.truthy_string (card_name data));
        ("bank_name", Validators.truthy_string (bank_name data));
        ("requested_credit_limit",
         Validators.truthy_number (requested_credit_limit data)) ] in
  if negb is_valid then ret (validation_error error)
  else
    (* Validate credit limit *)
    let (is_valid, error) :=
      Validators.validate_credit_limit (requested_credit_limit data) in
    if negb is_valid then ret (validation_error error)
    else
      match card_name data, bank_name data, requested_credit_limit data with
      | Some card_name, Some bank_name, Some requested_credit_limit =>
          (* Check if customer already has a card from the same bank *)
          let* existing_cards :=
            on_credit_cards
              (CreditCard.find_by_customer_id (Customer.id customer)) in
          if existsb
               (fun card => String.eqb (CreditCard.bank_name card) bank_name)
               existing_cards
          then ret (conflict "You already have a card from this bank")
          else
            (* Create card application *)
            let application_data :=
              {| CardApplication.application_data.customer_id :=
                   Customer.id customer;
                 CardApplication.application_data.card_name := card_name;
                 CardApplication.application_data.bank_name := bank_name;
                 CardApplication.application_data.card_type :=
                   default "Standard" (card_type data);
                 CardApplication.application_data.requested_credit_limit :=
                   requested_credit_limit |} in
            let* application :=
              on_card_applications
                (CardApplication.create application_data now) in
            (* Log application *)
            let* _ :=
              AuditLogger.log_user_action (Customer.id customer)
                "customer" "card_application" now in
            ret (success (CardApplication.id application)
                   "Card application submitted successfully")
      | _, _, _ => ret (server_error "An unexpected error occurred")
      end.

Record pin_request := {
  pin : option string;
}.

Definition set_card_pin (customer : Customer.t) (card_id : ObjectId)
    (data : pin_request) (now : datetime) : State Db (Response unit) :=
  (* Validate PIN *)
  let (is_valid, error) := Validators.validate_pin (pin data) in
  if negb is_valid then ret (validation_error error)
  else
    let* card := on_credit_cards (CreditCard.find_by_id card_id) in
    match card, pin data with
    | None, _ => ret (not_found "Card not found")
    | Some card, Some pin =>
        if negb (Pos.eqb (CreditCard.customer_id card)
                         (Customer.id customer))
        then ret (forbidden "Access denied")
        else
          (* Set PIN *)
          let* ' (card, success_) :=
            on_credit_cards (CreditCard.set_pin card pin now) in
          if success_ : bool then
            let* _ :=
              AuditLogger.log_user_action (Customer.id customer)
                "customer" "pin_set" now in
            ret (success tt "PIN set successfully")
          else ret (server_error "Failed to set PIN")
    | Some _, None => ret (server_error "An unexpected error occurred")
    end.

Definition remove_card (customer : Customer.t) (card_id : ObjectId)
    (now : datetime) : State Db (Response unit) :=
  let* card := on_credit_cards (CreditCard.find_by_id card_id) in
  match card with
  | None => ret (not_found "Card not found")
  | Some card =>
      if negb (Pos.eqb (CreditCard.customer_id card) (Customer.id customer))
      then ret (forbidden "Access denied")
      else
        (* Soft delete card *)
        let* ' (card, success_) :=
          on_credit_cards (CreditCard.delete card now) in
        if success_ : bool then
          let* _ :=
            AuditLogger.log_user_action (Customer.id customer)
              "customer" "card_removed" now in
          ret (success tt "Card removed successfully")
        else ret (server_error "Failed to remove card")
  end.

End routes_cards.

(** ** [routes/customer.py] *)

Module routes_customer.

(** The keys of [analysis_data] that [get_default_insights] reads: the
    income of the customer profile and the three amounts of the card
    details. *)
Record analysis_data := {
  annual_income : Q;
  credit_limit : Q;
  current_balance : Q;
  available_credit : Q;
}.

(** The lines of advice, one constructor per message text. *)
Inductive insight :=
| high_credit_utilization
| moderate_credit_utilization
| excellent_credit_utilization
| low_available_credit
| consider_premium_card
| regular_monitoring
| automatic_payments.

(** [get_default_insights]: the list that is joined with line feeds.
    [None] is the [ZeroDivisionError] of a zero credit limit. *)
Definition get_default_insights (data : analysis_data)
    : option (list insight) :=
  if Qeq_bool (credit_limit data) 0 then None
  else
    let credit_utilization :=
      (current_balance data / credit_limit data) * 100 in
    let insights := [] in
    let insights :=
      if Py.gt credit_utilization 80
      then insights ++ [high_credit_utilization]
      else if Py.gt credit_utilization 50
      then insights ++ [moderate_credit_utilization]
      else insights ++ [excellent_credit_utilization] in
    let insights :=
      if Py.lt (available_credit data) 10000
      then insights ++ [low_available_credit]
      else insights in
    let insights :=
      if Py.gt (annual_income data) 500000
      then insights ++ [consider_premium_card]
      else insights in
    let insights := insights ++ [regular_monitoring] in
    let insights := insights ++ [automatic_payments] in
    Some insights.

End routes_customer.

(** * Vocabulary of the properties *)

(** ** The score, block by block *)

Section score_vocabulary.

Import Customer.

(** Whole numbers: the images of [Z]. *)
Definition whole (q : Q) : Prop := exists z : Z, q == inject_Z z.

(** The five blocks of [calculate_cibil_score], each as the update it
    makes to the running [score]. *)
Definition income_factor (annual_income score : Q) : Q :=
  if Py.ge annual_income 1000000 then score + 200
  else if Py.ge annual_income 500000 then score + 150
  else if Py.ge annual_income 300000 then score + 100
  else score.

Definition experience_factor (years_of_experience score : Q) : Q :=
  if Py.ge years_of_experience 5 then score + 100
  else if Py.ge years_of_experience 2 then score + 50
  else score.

Definition employment_factor (employment_type : string) (score : Q) : Q :=
  if String.eqb employment_type "salaried" then score + 100
  else if String.eqb employment_type "self_employed" then score + 50
  else score.

Definition age_factor (age score : Q) : Q :=
  if Py.le 25 age && Py.le age 35 then score + 50
  else if Py.le 36 age && Py.le age 45 then score + 75
  else score.

Definition loan_factor (existing_loan score : Q) : Q :=
  if Py.gt existing_loan 0
  then score - Py.min (existing_loan / 10000) 100
  else score.

Definition raw_score (d : customer_data.t) : Q :=
  loan_factor (default 0 (customer_data.existing_loan_amount d))
    (age_factor (default 0 (customer_data.age d))
      (employment_factor
        (default EmptyString (customer_data.employment_type d))
        (experience_factor
          (default 0 (customer_data.years_of_experience d))
          (income_factor (default 0 (customer_data.annual_income d))
             300)))).

(** The loan penalty is whole when the loan is not positive, is at least
    1,000,000, or is a whole multiple of 10,000. *)
Definition whole_penalty (existing_loan : Q) : Prop :=
  existing_loan <= 0 \/ 1000000 <= existing_loan
  \/ exists k : Z, existing_loan == 10000 * inject_Z k.

(** The two sets of attributes differ in one input only, and the second
    is at least as favourable there: a higher income, more years of
    experience, or salaried employment. *)
Inductive improves : customer_data.t -> customer_data.t -> Prop :=
| improves_income inc inc' yoe emp age loan :
    default 0 inc <= default 0 inc' ->
    improves
      {| customer_data.annual_income := inc;
         customer_data.years_of_experience := yoe;
         customer_data.employment_type := emp;
         customer_data.age := age;
         customer_data.existing_loan_amount := loan |}
      {| customer_data.annual_income := inc';
         customer_data.years_of_experience := yoe;
         customer_data.employment_type := emp;
         customer_data.age := age;
         customer_data.existing_loan_amount := loan |}
| improves_experience inc yoe yoe' emp age loan :
    default 0 yoe <= default 0 yoe' ->
    improves
      {| customer_data.annual_income := inc;
         customer_data.years_of_experience := yoe;
         customer_data.employment_type := emp;
         customer_data.age := age;
         customer_data.existing_loan_amount := loan |}
      {| customer_data.annual_income := inc;
         customer_data.years_of_experience := yoe';
         customer_data.employment_type := emp;
         customer_data.age := age;
         customer_data.existing_loan_amount := loan |}
| improves_salaried inc yoe emp age loan :
    improves
      {| customer_data.annual_income := inc;
         customer_data.years_of_experience := yoe;
         customer_data.employment_type := emp;
         customer_data.age := age;
         customer_data.existing_loan_amount := loan |}
      {| customer_data.annual_income := inc;
         customer_data.years_of_experience := yoe;
         customer_data.employment_type := Some "salaried";
         customer_data.age := age;
         customer_data.existing_loan_amount := loan |}.

(** The applicant of the end-to-end example, and the same applicant with
    an existing loan of 5,000. *)
Definition applicant (existing_loan : Q) : customer_data.t :=
  {| customer_data.annual_income := Some 600000;
     customer_data.years_of_experience := Some 3;
     customer_data.employment_type := Some "salaried";
     customer_data.age := Some 25;
     customer_data.existing_loan_amount := Some existing_loan |}.

End score_vocabulary.

(** ** Sample documents and requests *)

Section ledger_samples.

Import CreditCard.

(** A card as issued, with a limit of 100,000, and a card data dictionary
    as the approval route builds it. *)
Definition card0 (balance : Q) : t :=
  {| id := 1%positive; card_number := "4000123412341234";
     card_holder_name := "Asha Rao"; expiry_date := five_years;
     cvv := "123"; pin := None; customer_id := 1%positive;
     bank_name := "HDFC Bank"; card_type := "Rewards";
     credit_limit := 100000; current_balance := balance;
     available_credit := 100000 - balance;
     interest_rate := "3.0%"; apr := "36%";
     rewards_program := "2X rewards on all spends";
     fees_and_charges := "No annual fee for first year";
     policies := "Standard terms and conditions apply";
     is_active := true; created_at := 0%N; updated_at := 0%N |}.

Definition card_data0 : card_data.t :=
  {| card_data.customer_id := 1%positive;
     card_data.card_holder_name := "Asha Rao";
     card_data.bank_name := "HDFC Bank";
     card_data.card_type := "Rewards";
     card_data.credit_limit := 100000;
     card_data.current_balance := 0;
     card_data.interest_rate := "3.0%";
     card_data.apr := "36%";
     card_data.rewards_program := "2X rewards on all spends";
     card_data.fees_and_charges := "No annual fee for first year";
     card_data.policies := "Standard terms and conditions apply" |}.

(** The invariant of a card, and of the cards of a store: every document
    is filed under its own id and satisfies the invariant. *)
Definition card_ok (c : t) : Prop :=
  available_credit c = credit_limit c - current_balance c
  /\ 0 <= current_balance c.


End ledger_samples.

Section posting_samples.

Import routes_transactions.

(** A customer, a store holding the customer's card, and a request body. *)
Definition customer0 : Customer.t :=
  {| Customer.id := 1%positive; Customer.first_name := "Asha";
     Customer.last_name := "Rao"; Customer.username := "asha_rao";
     Customer.email := "asha@example.com"; Customer.age := 25;
     Customer.employment_type := "salaried";
     Customer.years_of_experience := 3;
     Customer.annual_income := 600000;
     Customer.existing_loan_amount := 0;
     Customer.is_active := true; Customer.cibil_score := 650 |}.

Definition db0 (balance : Q) : Db :=
  {| customers := {[ 1%positive := customer0 ]};
     card_applications := ∅;
     credit_cards := {[ 1%positive := card0 balance ]};
     transactions := ∅;
     notifications := [];
     audit_logs := [] |}.

Definition request0 (kind : option string) (a : Q) : create_request :=
  {| card_id := Some 1%positive; amount := Some a;
     merchant_name := Some "Amazon India"%string;
     description := Some "Order 1234"%string;
     transaction_type := kind;
     merchant_category := None; location := None |}.

End posting_samples.

(** ** Resolved applications *)

Section workflow_vocabulary.

Import CardApplication routes_manager.

(** The document that [approve] and [reject] leave. *)
Definition approved (a : t) (manager_id : ObjectId) (limit : Q)
    (now : datetime) : t :=
  foldl setattr a
    [ upd_status STATUS_APPROVED; upd_approved_by manager_id;
      upd_approved_credit_limit limit; upd_processed_at now;
      upd_updated_at now ].

Definition rejected (a : t) (manager_id : ObjectId) (reason : string)
    (now : datetime) : t :=
  foldl setattr a
    [ upd_status STATUS_REJECTED; upd_approved_by manager_id;
      upd_rejection_reason reason; upd_processed_at now;
      upd_updated_at now ].

(** The reason that [reject_application] validates. *)
Definition reason_of (data : reject_request) : string :=
  default "Application does not meet our criteria"%string
          (rejection_reason data).

Definition reason_too_short (reason : string) : bool :=
  String.eqb reason EmptyString || Py.lt (Py.len (Py.strip reason)) 10.

(** The card that a successful approval issues. *)
Definition issued_card (a : t) (c : Customer.t) (limit : Q)
    (now : datetime) (card_number cvv : string) (card_id : ObjectId)
    : CreditCard.t :=
  {| CreditCard.id := card_id;
     CreditCard.card_number := card_number;
     CreditCard.card_holder_name :=
       Customer.first_name c ++ " " ++ Customer.last_name c;
     CreditCard.expiry_date := (now + CreditCard.five_years)%N;
     CreditCard.cvv := cvv;
     CreditCard.pin := None;
     CreditCard.customer_id := customer_id a;
     CreditCard.bank_name := bank_name a;
     CreditCard.card_type := card_type a;
     CreditCard.credit_limit := limit;
     CreditCard.current_balance := 0;
     CreditCard.available_credit := limit - 0;
     CreditCard.interest_rate := "3.0%";
     CreditCard.apr := "36%";
     CreditCard.rewards_program := "2X rewards on all spends";
     CreditCard.fees_and_charges := "No annual fee for first year";
     CreditCard.policies := "Standard terms and conditions apply";
     CreditCard.is_active := true;
     CreditCard.created_at := now;
     CreditCard.updated_at := now |}.

(** An application for a limit of 100,000 by [customer0], a store that
    holds it, and a store that holds it without its customer record. *)
Definition application0 : t :=
  {| id := 1%positive; customer_id := 1%positive;
     card_name := "HDFC Millennia Credit Card"; bank_name := "HDFC Bank";
     card_type := "Rewards"; requested_credit_limit := 100000;
     status := STATUS_PENDING;
     CardApplication.approved_credit_limit := None;
     approved_by := None; CardApplication.rejection_reason := None;
     applied_at := 1%N; processed_at := None;
     created_at := 1%N; updated_at := 1%N |}.

Definition db_with (a : t) : Db :=
  {| customers := {[ 1%positive := customer0 ]};
     card_applications := {[ id a := a ]};
     credit_cards := ∅; transactions := ∅;
     notifications := []; audit_logs := [] |}.


End workflow_vocabulary.

(** ** Vocabulary of the further properties *)

Section further_vocabulary.

(** The best applicant: the top income and experience tiers, salaried,
    aged 36 to 45, no loan. *)
Definition best_applicant : Customer.customer_data.t :=
  {| Customer.customer_data.annual_income := Some 1000000;
     Customer.customer_data.years_of_experience := Some 5;
     Customer.customer_data.employment_type := Some "salaried";
     Customer.customer_data.age := Some 40;
     Customer.customer_data.existing_loan_amount := None |}.

(** What a stored application looks like in each status: nothing of a
    resolution while it is pending, then the resolver and the time with
    either the approved limit or the rejection reason; the limits are in
    the legal range. *)
Definition application_ok (a : CardApplication.t) : Prop :=
  (10000 <= CardApplication.requested_credit_limit a
   /\ CardApplication.requested_credit_limit a <= 1000000)
  /\ match CardApplication.status a with
     | CardApplication.STATUS_PENDING =>
         CardApplication.approved_credit_limit a = None
         /\ CardApplication.rejection_reason a = None
         /\ CardApplication.approved_by a = None
         /\ CardApplication.processed_at a = None
     | CardApplication.STATUS_APPROVED =>
         (exists limit,
            CardApplication.approved_credit_limit a = Some limit
            /\ 10000 <= limit /\ limit <= 1000000)
         /\ CardApplication.rejection_reason a = None
         /\ is_Some (CardApplication.approved_by a)
         /\ is_Some (CardApplication.processed_at a)
     | CardApplication.STATUS_REJECTED =>
         CardApplication.approved_credit_limit a = None
         /\ (exists reason,
               CardApplication.rejection_reason a = Some reason
               /\ reason_too_short reason = false)
         /\ is_Some (CardApplication.approved_by a)
         /\ is_Some (CardApplication.processed_at a)
     end.

Definition applications_ok (db : Db) : Prop :=
  forall k a,
    card_applications db !! k = Some a ->
    CardApplication.id a = k /\ application_ok a.

(** Every stored card is on the ledger invariant and within its limit. *)
Definition ledger_bounded (db : Db) : Prop :=
  forall k c,
    credit_cards db !! k = Some c ->
    CreditCard.id c = k /\ card_ok c
    /\ CreditCard.current_balance c <= CreditCard.credit_limit c.

(** One request served by one of the routes that write the store. *)
Inductive step : Db -> Db -> Prop :=
| step_apply_for_card customer data now db :
    step db (routes_cards.apply_for_card customer data now db).2
| step_approve_application manager_id application_id data now
    card_number cvv db :
    step db
      (routes_manager.approve_application manager_id application_id data
         now card_number cvv db).2
| step_reject_application manager_id application_id data now db :
    step db
      (routes_manager.reject_application manager_id application_id data
         now db).2
| step_create_transaction customer data now reference_number db :
    step db
      (routes_transactions.create_transaction customer data now
         reference_number db).2
| step_pay_bill customer card_id data now reference_number db :
    step db
      (routes_cards.pay_bill customer card_id data now reference_number
         db).2
| step_set_card_pin customer card_id data now db :
    step db (routes_cards.set_card_pin customer card_id data now db).2
| step_remove_card customer card_id now db :
    step db (routes_cards.remove_card customer card_id now db).2.

(** A store with customers and nothing else. *)
Definition db_customers (customers : gmap ObjectId Customer.t) : Db :=
  {| customers := customers; card_applications := ∅; credit_cards := ∅;
     transactions := ∅; notifications := []; audit_logs := [] |}.

(** A request for a card of 100,000 at a bank. *)
Definition apply0 (bank : string) : routes_cards.apply_request :=
  {| routes_cards.card_name := Some "HDFC Millennia Credit Card"%string;
     routes_cards.bank_name := Some bank;
     routes_cards.requested_credit_limit := Some 100000;
     routes_cards.card_type := None |}.

(** The customer holds an active card of the bank. *)
Definition holds_card_of (db : Db) (customer : ObjectId) (bank : string)
    : Prop :=
  exists k c,
    credit_cards db !! k = Some c
    /\ CreditCard.customer_id c = customer
    /\ CreditCard.is_active c = true
    /\ CreditCard.bank_name c = bank.

(** The application that [apply_for_card] files. *)
Definition submitted (customer : Customer.t) (card_name bank : string)
    (card_type : option string) (limit : Q) (now : datetime)
    (application_id : ObjectId) : CardApplication.t :=
  {| CardApplication.id := application_id;
     CardApplication.customer_id := Customer.id customer;
     CardApplication.card_name := card_name;
     CardApplication.bank_name := bank;
     CardApplication.card_type := default "Standard"%string card_type;
     CardApplication.requested_credit_limit := limit;
     CardApplication.status := CardApplication.STATUS_PENDING;
     CardApplication.approved_credit_limit := None;
     CardApplication.approved_by := None;
     CardApplication.rejection_reason := None;
     CardApplication.applied_at := now;
     CardApplication.processed_at := None;
     CardApplication.created_at := now;
     CardApplication.updated_at := now |}.

Definition audit (user_id : ObjectId) (user_type action : string)
    (now : datetime) : audit_entry :=
  {| a_user_id := user_id; a_user_type := user_type; a_action := action;
     a_timestamp := now |}.

Definition notify (user_id : ObjectId) (notification_type : string)
    (data : list (string * ObjectId)) (now : datetime) : notification :=
  {| n_user_id := user_id; n_user_type := "customer";
     n_notification_type := notification_type; n_data := data;
     n_is_read := false; n_created_at := now |}.

(** The card that [update_balance] stores for a new balance. *)
Definition with_balance (card : CreditCard.t) (balance : Q)
    (now : datetime) : CreditCard.t :=
  foldl CreditCard.setattr card
    [ CreditCard.upd_current_balance balance;
      CreditCard.upd_available_credit
        (CreditCard.credit_limit card - balance);
      CreditCard.upd_updated_at now ].

(** Every card is filed under its own id. *)
Definition cards_keyed (db : Db) : Prop :=
  forall k c, credit_cards db !! k = Some c -> CreditCard.id c = k.

(** What the card routes can write over a card: a debit of an amount from
    1 that stays within the limit, a credit of an amount from 1 up to the
    balance, a PIN, or the inactive flag. *)
Inductive card_write (card : CreditCard.t) : CreditCard.t -> Prop :=
| write_debit a now :
    1 <= a ->
    CreditCard.current_balance card + a <= CreditCard.credit_limit card ->
    card_write card
      (with_balance card (CreditCard.current_balance card + a) now)
| write_credit a now :
    1 <= a -> a <= CreditCard.current_balance card ->
    card_write card
      (with_balance card
         (Py.max 0 (CreditCard.current_balance card - a)) now)
| write_pin pin now :
    card_write card
      (foldl CreditCard.setattr card
         [CreditCard.upd_pin pin; CreditCard.upd_updated_at now])
| write_inactive now :
    card_write card
      (foldl CreditCard.setattr card
         [CreditCard.upd_is_active false; CreditCard.upd_updated_at now]).

(** A request of a customer to one of the four routes that act on a card,
    with the store it leaves. *)
Inductive card_request (customer : Customer.t) (db : Db) : Db -> Prop :=
| request_create_transaction data now reference_number :
    card_request customer db
      (routes_transactions.create_transaction customer data now
         reference_number db).2
| request_pay_bill card_id data now reference_number :
    card_request customer db
      (routes_cards.pay_bill customer card_id data now reference_number
         db).2
| request_set_card_pin card_id data now :
    card_request customer db
      (routes_cards.set_card_pin customer card_id data now db).2
| request_remove_card card_id now :
    card_request customer db
      (routes_cards.remove_card customer card_id now db).2.


(** A stored sample purchase, and the applications that wait for a
    manager. *)
Definition transaction0 : Transaction.t :=
  Transaction.init 1%positive
    (Transaction.sample 1%positive 1%positive "purchase" 2500
       "Amazon India" "Online Shopping" "Electronics purchase") 2%N.

Definition pending_queue (db : Db) : list CardApplication.t :=
  (CardApplication.find_pending_applications (card_applications db)).1.



(** The data that [get_spending_insights] prepares for a customer and a
    card, as far as [get_default_insights] reads it. *)
Definition analysis_of (customer : Customer.t) (card : CreditCard.t)
    : routes_customer.analysis_data :=
  {| routes_customer.annual_income := Customer.annual_income customer;
     routes_customer.credit_limit := CreditCard.credit_limit card;
     routes_customer.current_balance := CreditCard.current_balance card;
     routes_customer.available_credit := CreditCard.available_credit card |}.


End further_vocabulary.

(** * Properties *)

(** ** Comparisons, [min] and [max] *)

Section py_facts.

Lemma ge_spec a b : Py.ge a b = true <-> b <= a.
Proof. unfold Py.ge. apply Qle_bool_iff. Qed.

Lemma le_spec a b : Py.le a b = true <-> a <= b.
Proof. unfold Py.le. apply Qle_bool_iff. Qed.

Lemma gt_spec a b : Py.gt a b = true <-> b < a.
Proof.
  unfold Py.gt. rewrite negb_true_iff, <- not_true_iff_false, Qle_bool_iff.
  split; [apply Qnot_le_lt | apply Qlt_not_le].
Qed.

Lemma lt_spec a b : Py.lt a b = true <-> a < b.
Proof. unfold Py.lt. apply (gt_spec b a). Qed.

Lemma ge_false a b : Py.ge a b = false <-> a < b.
Proof.
  unfold Py.ge. rewrite <- not_true_iff_false, Qle_bool_iff.
  split; [apply Qnot_le_lt | apply Qlt_not_le].
Qed.

Lemma gt_false a b : Py.gt a b = false <-> a <= b.
Proof. unfold Py.gt. rewrite negb_false_iff. apply Qle_bool_iff. Qed.

Lemma lt_false a b : Py.lt a b = false <-> b <= a.
Proof. apply (gt_false b a). Qed.

Lemma max_cases a b :
  (a < b /\ Py.max a b = b) \/ (b <= a /\ Py.max a b = a).
Proof.
  unfold Py.max. destruct (Py.gt b a) eqn:E.
  - left. split; [by apply gt_spec | done].
  - right. split; [by apply gt_false | done].
Qed.

Lemma min_cases a b :
  (b < a /\ Py.min a b = b) \/ (a <= b /\ Py.min a b = a).
Proof.
  unfold Py.min. destruct (Py.lt b a) eqn:E.
  - left. split; [by apply lt_spec | done].
  - right. split; [by apply lt_false | done].
Qed.

Lemma max_mono a a' b : a <= a' -> Py.max a b <= Py.max a' b.
Proof.
  intros H. destruct (max_cases a b) as [[? ->]|[? ->]],
    (max_cases a' b) as [[? ->]|[? ->]]; lra.
Qed.

Lemma min_mono a a' b : a <= a' -> Py.min a b <= Py.min a' b.
Proof.
  intros H. destruct (min_cases a b) as [[? ->]|[? ->]],
    (min_cases a' b) as [[? ->]|[? ->]]; lra.
Qed.


(** The final clamp of the score. *)
Lemma clamp_bounds s :
  300 <= Py.min (Py.max s 300) 900 /\ Py.min (Py.max s 300) 900 <= 900.
Proof.
  destruct (min_cases (Py.max s 300) 900) as [[? ->]|[? ->]];
    destruct (max_cases s 300) as [[? E]|[? E]]; rewrite ?E in *; lra.
Qed.

Lemma clamp_mono s s' :
  s <= s' -> Py.min (Py.max s 300) 900 <= Py.min (Py.max s' 300) 900.
Proof. intros H. by apply min_mono, max_mono. Qed.

Lemma whole_is_integer q : whole q -> Py.is_integer q.
Proof.
  intros [z Hz]. unfold Py.is_integer.
  rewrite (Qfloor_comp _ _ Hz), Qfloor_Z. by symmetry.
Qed.

Lemma whole_Z z : whole (inject_Z z).
Proof. by exists z. Qed.

Lemma whole_plus a b : whole a -> whole b -> whole (a + b).
Proof.
  intros [x Hx] [y Hy]. exists (x + y)%Z.
  rewrite inject_Z_plus, Hx, Hy. reflexivity.
Qed.

Lemma whole_minus a b : whole a -> whole b -> whole (a - b).
Proof.
  intros [x Hx] [y Hy]. exists (x - y)%Z.
  unfold Z.sub. rewrite inject_Z_plus, inject_Z_opp, Hx, Hy. reflexivity.
Qed.

Lemma whole_clamp s : whole s -> whole (Py.min (Py.max s 300) 900).
Proof.
  intros H.
  destruct (min_cases (Py.max s 300) 900) as [[_ ->]|[_ ->]];
    [apply (whole_Z 900)|].
  destruct (max_cases s 300) as [[_ ->]|[_ ->]];
    [apply (whole_Z 300) | done].
Qed.

End py_facts.

(** ** The CIBIL score *)

Section score.

Import Customer.

Lemma calculate_cibil_score_blocks d :
  calculate_cibil_score d = Py.min (Py.max (raw_score d) 300) 900.
Proof. reflexivity. Qed.

Ltac split_ge :=
  repeat match goal with
  | |- context [Py.ge ?a ?b] =>
      let E := fresh "E" in
      destruct (Py.ge a b) eqn:E;
      [apply ge_spec in E | apply ge_false in E]
  end.

Lemma income_factor_mono x x' s s' :
  x <= x' -> s <= s' -> income_factor x s <= income_factor x' s'.
Proof. intros Hx Hs. unfold income_factor. split_ge; lra. Qed.

Lemma experience_factor_mono x x' s s' :
  x <= x' -> s <= s' -> experience_factor x s <= experience_factor x' s'.
Proof. intros Hx Hs. unfold experience_factor. split_ge; lra. Qed.

Lemma employment_factor_mono e s s' :
  s <= s' -> employment_factor e s <= employment_factor e s'.
Proof.
  intros Hs. unfold employment_factor.
  repeat case_match; lra.
Qed.

Lemma employment_factor_salaried e s s' :
  s <= s' -> employment_factor e s <= employment_factor "salaried" s'.
Proof.
  intros Hs. unfold employment_factor. simpl.
  repeat case_match; lra.
Qed.

Lemma age_factor_mono a s s' :
  s <= s' -> age_factor a s <= age_factor a s'.
Proof. intros Hs. unfold age_factor. repeat case_match; lra. Qed.

Lemma loan_factor_mono l s s' :
  s <= s' -> loan_factor l s <= loan_factor l s'.
Proof. intros Hs. unfold loan_factor. case_match; lra. Qed.

Lemma income_factor_whole x s : whole s -> whole (income_factor x s).
Proof.
  intros H. unfold income_factor.
  repeat case_match; try done;
    apply whole_plus; try done;
    [apply (whole_Z 200) | apply (whole_Z 150) | apply (whole_Z 100)].
Qed.

Lemma experience_factor_whole x s :
  whole s -> whole (experience_factor x s).
Proof.
  intros H. unfold experience_factor.
  repeat case_match; try done;
    apply whole_plus; try done;
    [apply (whole_Z 100) | apply (whole_Z 50)].
Qed.

Lemma employment_factor_whole e s :
  whole s -> whole (employment_factor e s).
Proof.
  intros H. unfold employment_factor.
  repeat case_match; try done;
    apply whole_plus; try done;
    [apply (whole_Z 100) | apply (whole_Z 50)].
Qed.

Lemma age_factor_whole a s : whole s -> whole (age_factor a s).
Proof.
  intros H. unfold age_factor.
  repeat case_match; try done;
    apply whole_plus; try done;
    [apply (whole_Z 50) | apply (whole_Z 75)].
Qed.

Lemma loan_factor_whole l s :
  whole_penalty l -> whole s -> whole (loan_factor l s).
Proof.
  intros Hl Hs. unfold loan_factor.
  destruct (Py.gt l 0) eqn:E; [apply gt_spec in E | done].
  apply whole_minus; [done|].
  destruct (min_cases (l / 10000) 100) as [[_ ->]|[Hle ->]];
    [apply (whole_Z 100)|].
  destruct Hl as [Hl | [Hl | [k Hk]]].
  - lra.
  - exists 100%Z.
    change (l / 10000) with (l * (1 # 10000)) in *.
    change (inject_Z 100) with 100. lra.
  - exists k. rewrite Hk. field.
Qed.

Lemma raw_score_improves d d' : improves d d' -> raw_score d <= raw_score d'.
Proof.
  intros H. destruct H as [inc inc' yoe emp age loan Hle
                          |inc yoe yoe' emp age loan Hle
                          |inc yoe emp age loan];
    unfold raw_score; simpl;
    apply loan_factor_mono, age_factor_mono.
  - apply employment_factor_mono, experience_factor_mono; [lra|].
    apply income_factor_mono; [done | lra].
  - apply employment_factor_mono, experience_factor_mono; [done | lra].
  - apply employment_factor_salaried. lra.
Qed.

Lemma raw_score_whole d :
  whole_penalty (default 0 (customer_data.existing_loan_amount d)) ->
  whole (raw_score d).
Proof.
  intros H. unfold raw_score.
  apply loan_factor_whole; [done|].
  apply age_factor_whole, employment_factor_whole,
    experience_factor_whole, income_factor_whole, (whole_Z 300).
Qed.

Example score_650 : calculate_cibil_score (applicant 0) == 650.
Proof. reflexivity. Qed.

Example score_of_customer0 :
  calculate_cibil_score (to_dict customer0) == 650.
Proof. reflexivity. Qed.

Example score_649_5 : calculate_cibil_score (applicant 5000) == 1299 # 2.
Proof. reflexivity. Qed.

(** C4.  For every set of applicant attributes, present or absent, the
    score returned by [calculate_cibil_score] lies in the closed interval
    from 300 to 900. *)
Theorem score_in_range (d : customer_data.t) :
  300 <= calculate_cibil_score d /\ calculate_cibil_score d <= 900.
Proof. rewrite calculate_cibil_score_blocks. apply clamp_bounds. Qed.

(** C10.  The score does not decrease when the annual income grows, when
    the years of experience grow, or when the employment becomes
    salaried, all other attributes being the same. *)
Theorem score_monotone (d d' : customer_data.t) :
  improves d d' -> calculate_cibil_score d <= calculate_cibil_score d'.
Proof.
  intros H. rewrite !calculate_cibil_score_blocks.
  by apply clamp_mono, raw_score_improves.
Qed.

Lemma score_monotone_witness :
  calculate_cibil_score
    {| customer_data.annual_income := Some 250000;
       customer_data.years_of_experience := Some 3;
       customer_data.employment_type := Some "self_employed";
       customer_data.age := Some 30;
       customer_data.existing_loan_amount := Some 20000 |}
  <= calculate_cibil_score
    {| customer_data.annual_income := Some 250000;
       customer_data.years_of_experience := Some 3;
       customer_data.employment_type := Some "salaried";
       customer_data.age := Some 30;
       customer_data.existing_loan_amount := Some 20000 |}.
Proof. apply score_monotone. apply improves_salaried. Defined.

(** C7, as the code has it.  The score is a whole number whenever the
    existing loan is absent or not positive, is at least 1,000,000, or is
    a whole multiple of 10,000. *)
Theorem score_whole (d : customer_data.t) :
  whole_penalty (default 0 (customer_data.existing_loan_amount d)) ->
  Py.is_integer (calculate_cibil_score d).
Proof.
  intros H. rewrite calculate_cibil_score_blocks.
  by apply whole_is_integer, whole_clamp, raw_score_whole.
Qed.

Lemma score_whole_witness :
  Py.is_integer (calculate_cibil_score (applicant 20000)).
Proof.
  apply score_whole. simpl. right. right. exists 2%Z. reflexivity.
Defined.

(** C7, as stated, fails: with an existing loan of 5,000 the penalty is
    one half and the score is 649.5. *)
Lemma score_fractional :
  ~ Py.is_integer (calculate_cibil_score (applicant 5000)).
Proof. unfold Py.is_integer. vm_compute. discriminate. Qed.

End score.

(** ** The card ledger *)

Section ledger.

Import CreditCard.

Lemma update_unconfirmed self update_data now coll :
  (update self update_data now coll).1.2 = false ->
  update self update_data now coll = ((self, false), coll).
Proof.
  unfold update, Mongo.update_one.
  destruct (coll !! id self) as [d|]; [|done].
  by destruct (existsb _ _).
Qed.

Lemma update_balance_self self amount transaction_type now coll :
  let self' := (update_balance self amount transaction_type now coll).1.1 in
  id self' = id self
  /\ credit_limit self' = credit_limit self
  /\ current_balance self'
     = (if String.eqb transaction_type "debit"
        then current_balance self + amount
        else Py.max 0 (current_balance self - amount))
  /\ available_credit self' = credit_limit self' - current_balance self'.
Proof.
  unfold update_balance, update, Mongo.update_one.
  destruct (String.eqb transaction_type "debit"); simpl;
    destruct (coll !! id self) as [d|]; simpl;
    repeat case_match; simplify_eq/=; done.
Qed.

Example debit_then_credit :
  let coll : gmap ObjectId t := {[ 1%positive := card0 0 ]} in
  let '((card, ok), coll) := update_balance (card0 0) 5000 "debit" 1%N coll in
  let '((card', ok'), coll') := update_balance card 5000 "credit" 2%N coll in
  ok = true /\ current_balance card == 5000
  /\ available_credit card == 95000
  /\ ok' = true /\ current_balance card' == 0
  /\ available_credit card' == 100000
  /\ coll' !! 1%positive = Some card'.
Proof. vm_compute. repeat split; reflexivity. Qed.

Example issue_card :
  let '(card, coll) :=
    create card_data0 1%N "4000123412341234" "123" ∅ in
  current_balance card == 0 /\ available_credit card == 100000
  /\ coll !! id card = Some card.
Proof. vm_compute. repeat split; reflexivity. Qed.

(** C9, at the failing input.  The card's document is not in the store,
    so the store confirms no modification: [update_balance] reports
    failure, yet the card in memory has taken the debit. *)
Theorem update_balance_unconfirmed_mutates :
  let '((card, ok), coll) :=
    update_balance (card0 0) 5000 "debit" 1%N ∅ in
  ok = false /\ coll = ∅
  /\ current_balance card == 5000
  /\ available_credit card == 95000
  /\ card <> card0 0.
Proof.
  vm_compute. repeat split; try reflexivity. discriminate.
Qed.

(** The sibling path: [update] leaves the card in memory and the store
    untouched when the store confirms no modification. *)
Lemma set_pin_unconfirmed self pin now coll :
  (set_pin self pin now coll).1.2 = false ->
  set_pin self pin now coll = ((self, false), coll).
Proof. apply update_unconfirmed. Qed.

End ledger.

(** ** Posting transactions *)

Section posting.

Import routes_transactions.

(** The validators accept a number exactly in the closed range. *)
Lemma validate_numeric_range_accepts value lo hi field_name :
  (Validators.validate_numeric_range
     (Some value) (Some lo) (Some hi) field_name).1 = true
  <-> lo <= value /\ value <= hi.
Proof.
  unfold Validators.validate_numeric_range.
  destruct (Py.lt value lo) eqn:Elo;
    [apply lt_spec in Elo | apply lt_false in Elo];
    [simpl; split; [done | lra]|].
  destruct (Py.gt value hi) eqn:Ehi;
    [apply gt_spec in Ehi | apply gt_false in Ehi];
    simpl; split; (done || lra).
Qed.

Lemma validate_transaction_amount_accepts a :
  (Validators.validate_transaction_amount (Some a)).1 = true
  <-> 1 <= a /\ a <= 100000.
Proof. apply validate_numeric_range_accepts. Qed.

Lemma validate_credit_limit_accepts limit :
  (Validators.validate_credit_limit (Some limit)).1 = true
  <-> 10000 <= limit /\ limit <= 1000000.
Proof. apply validate_numeric_range_accepts. Qed.

(** Every record that [Transaction.create] builds is pending, whatever
    status the caller put in [transaction_data]. *)
Lemma transaction_create_pending transaction_data now reference_number coll :
  Transaction.status
    (Transaction.create transaction_data now reference_number coll).1
  = Transaction.STATUS_PENDING.
Proof. reflexivity. Qed.

(** A successful [create_transaction] adds the amount to the balance of
    the stored card, whatever the kind of the transaction. *)
Lemma create_transaction_debits customer data now reference_number db
    r msg db' :
  create_transaction customer data now reference_number db
    = (success r msg, db') ->
  exists card_id a card,
    routes_transactions.card_id data = Some card_id
    /\ amount data = Some a
    /\ credit_cards db !! card_id = Some card
    /\ new_balance r = CreditCard.current_balance card + a
    /\ Transaction.transaction_type (transaction r)
       = default "purchase"%string (transaction_type data).
Proof.
  unfold create_transaction.
  destruct (Validators.validate_required_fields _) as [[] ?];
    [|by unfold ret].
  destruct (Validators.validate_transaction_amount _) as [[] ?];
    [|by unfold ret].
  simpl.
  destruct (routes_transactions.card_id data) as [card_id|]; [|done].
  destruct (amount data) as [a|]; [|done].
  destruct (merchant_name data) as [merchant|]; [|done].
  destruct (description data) as [descr|]; [|done].
  unfold bind, on_credit_cards at 1, CreditCard.find_by_id,
    Mongo.find_one.
  simpl.
  destruct (credit_cards db !! card_id) as [card|] eqn:Hcard; [|done].
  destruct (negb _); [done|].
  destruct (Py.gt _ _); [done|].
  unfold ret, on_transactions, on_credit_cards,
    AuditLogger.log_user_action.
  simpl.
  destruct (CreditCard.update_balance card a "debit" now (credit_cards db))
    as [[card' ok] coll'] eqn:Hupd.
  intros [= <- _ _].
  exists card_id, a, card. repeat split; try done. simpl.
  pose proof (update_balance_self card a "debit" now (credit_cards db))
    as (_ & _ & Hbalance & _).
  rewrite Hupd in Hbalance. exact Hbalance.
Qed.

(** C5, at the failing input.  A refund of 100 posted through
    [create_transaction] on a card with balance 500 is recorded as a
    refund and raises the balance to 600. *)
Theorem refund_increases_balance :
  let '(response, db) :=
    create_transaction customer0 (request0 (Some "refund"%string) 100)
      1%N "TXN00000001A" (db0 500) in
  match response with
  | success r _ =>
      Transaction.transaction_type (transaction r) = "refund"%string
      /\ new_balance r == 600
      /\ (CreditCard.current_balance <$> credit_cards db !! 1%positive)
         = Some (new_balance r)
  | _ => False
  end.
Proof. vm_compute. repeat split; reflexivity. Qed.

(** C6, at the failing input.  The transaction that a successful
    [create_transaction] records and returns has status pending. *)
Theorem posted_transaction_is_pending :
  let '(response, db) :=
    create_transaction customer0 (request0 None 5000)
      1%N "TXN00000001A" (db0 0) in
  match response with
  | success r _ =>
      Transaction.status (transaction r) = Transaction.STATUS_PENDING
      /\ transactions db !! Transaction.id (transaction r)
         = Some (transaction r)
  | _ => False
  end.
Proof. vm_compute. repeat split; reflexivity. Qed.




End posting.

(** ** The application workflow *)

Section workflow.

Import CardApplication routes_manager.

Ltac db_simpl :=
  cbn [customers card_applications credit_cards transactions
       notifications audit_logs fst snd].

Lemma status_eqb_eq a b : status_eqb a b = true <-> a = b.
Proof. destruct a, b; simpl; split; congruence. Qed.

Lemma approve_pending a manager_id limit now coll :
  coll !! id a = Some a ->
  status a = STATUS_PENDING ->
  ~ limit == 0 ->
  approve a manager_id (Some limit) now coll
  = ((approved a manager_id limit now, true),
     <[id a := approved a manager_id limit now]> coll).
Proof.
  intros Hin Hst Hnz. unfold approve, Mongo.update_one.
  rewrite Hin.
  destruct (Qeq_bool limit 0) eqn:E; [by apply Qeq_bool_iff in E|].
  simpl. by rewrite Hst.
Qed.

Lemma reject_pending a manager_id reason now coll :
  coll !! id a = Some a ->
  status a = STATUS_PENDING ->
  reject a manager_id reason now coll
  = ((rejected a manager_id reason now, true),
     <[id a := rejected a manager_id reason now]> coll).
Proof.
  intros Hin Hst. unfold reject, Mongo.update_one.
  rewrite Hin. simpl. by rewrite Hst.
Qed.

(** On an application that is not pending, both routes leave the store
    as it is. *)
Lemma approve_application_terminal db a manager_id data now card_number cvv :
  card_applications db !! id a = Some a ->
  status a <> STATUS_PENDING ->
  approve_application manager_id (id a) data now card_number cvv db
  = (conflict "Application is not pending", db).
Proof.
  intros Hin Hst. unfold approve_application, bind, on_card_applications,
    find_by_id, Mongo.find_one. simpl. rewrite Hin.
  destruct (status_eqb (status a) STATUS_PENDING) eqn:E;
    [by apply status_eqb_eq in E|].
  simpl. unfold ret. by destruct db.
Qed.

Lemma reject_application_terminal db a manager_id data now :
  card_applications db !! id a = Some a ->
  status a <> STATUS_PENDING ->
  reject_application manager_id (id a) data now db
  = (if reason_too_short (reason_of data)
     then validation_error
            (Some (Validators.message
                     "Rejection reason must be at least 10 characters"))
     else conflict "Application is not pending", db).
Proof.
  intros Hin Hst. unfold reject_application.
  fold (reason_of data). fold (reason_too_short (reason_of data)).
  destruct (reason_too_short (reason_of data)); [done|].
  unfold bind, on_card_applications, find_by_id, Mongo.find_one.
  simpl. rewrite Hin.
  destruct (status_eqb (status a) STATUS_PENDING) eqn:E;
    [by apply status_eqb_eq in E|].
  simpl. unfold ret. by destruct db.
Qed.

(** The whole effect of approving a pending application whose customer
    record exists, with a limit in the legal range. *)
Lemma approve_application_pending db a c manager_id data now
    card_number cvv :
  card_applications db !! id a = Some a ->
  status a = STATUS_PENDING ->
  customers db !! customer_id a = Some c ->
  let limit :=
    default (requested_credit_limit a) (approved_credit_limit data) in
  let card_id := fresh (dom (credit_cards db)) in
  10000 <= limit /\ limit <= 1000000 ->
  approve_application manager_id (id a) data now card_number cvv db
  = (success
       {| application_id := id a; routes_manager.card_id := card_id;
          approved_limit := limit |}
       "Application approved successfully",
     {| customers := customers db;
        card_applications :=
          <[id a := approved a manager_id limit now]>
            (card_applications db);
        credit_cards :=
          <[card_id := issued_card a c limit now card_number cvv card_id]>
            (credit_cards db);
        transactions :=
          (Transaction.create_sample_transactions card_id (Customer.id c)
             now (transactions db)).2;
        notifications :=
          notifications db ++
          [ {| n_user_id := Customer.id c; n_user_type := "customer";
               n_notification_type := "application_approved";
               n_data := [("card_id"%string, card_id);
                          ("application_id"%string, id a)];
               n_is_read := false; n_created_at := now |} ];
        audit_logs :=
          audit_logs db ++
          [ {| a_user_id := manager_id; a_user_type := "manager";
               a_action := "application_approved";
               a_timestamp := now |} ] |}).
Proof.
  intros Hin Hst Hc limit card_id Hrange.
  unfold approve_application, bind, on_card_applications at 1,
    find_by_id, Mongo.find_one.
  cbn [fst snd]. rewrite Hin, Hst. cbn [status_eqb negb].
  fold limit.
  destruct (Validators.validate_credit_limit (Some limit))
    as [is_valid error] eqn:Hv.
  assert (is_valid = true) as ->.
  { change is_valid with (is_valid, error).1. rewrite <- Hv.
    by apply validate_credit_limit_accepts. }
  cbn [negb]. unfold on_card_applications. db_simpl.
  rewrite (approve_pending a manager_id limit now _ Hin Hst)
    by (intros E; rewrite E in Hrange; lra).
  unfold on_customers, Customer.find_by_id. db_simpl.
  change (customer_id (approved a manager_id limit now))
    with (customer_id a).
  rewrite Hc.
  reflexivity.
Qed.

(** Whatever its input, [approve_application] answers with success
    only after it has marked a pending application approved. *)
Lemma approve_application_success db a manager_id data now card_number cvv
    response db' :
  card_applications db !! id a = Some a ->
  approve_application manager_id (id a) data now card_number cvv db
    = (response, db') ->
  is_success response = true ->
  status a = STATUS_PENDING
  /\ exists limit,
       card_applications db'
       = <[id a := approved a manager_id limit now]> (card_applications db).
Proof.
  intros Hin.
  unfold approve_application, bind, on_card_applications at 1,
    find_by_id, Mongo.find_one.
  db_simpl. rewrite Hin.
  destruct (status_eqb (status a) STATUS_PENDING) eqn:Hst;
    [apply status_eqb_eq in Hst | by intros [= <- _]].
  cbn [negb].
  set (limit :=
    default (requested_credit_limit a) (approved_credit_limit data)).
  destruct (Validators.validate_credit_limit (Some limit))
    as [[] error]; [| by intros [= <- _]].
  cbn [negb]. unfold on_card_applications, approve, Mongo.update_one.
  db_simpl. rewrite Hin. cbn [existsb differs field_differs document].
  rewrite Hst. cbn [status_eqb negb orb Nat.ltb Nat.leb].
  unfold on_customers, Customer.find_by_id. db_simpl.
  destruct (customers db !! _) as [c|]; [| by intros [= <- _]].
  intros [= <- <-] _. split; [done|]. db_simpl.
  by eexists.
Qed.


Lemma reject_application_success db a manager_id data now response db' :
  card_applications db !! id a = Some a ->
  reject_application manager_id (id a) data now db = (response, db') ->
  is_success response = true ->
  status a = STATUS_PENDING
  /\ card_applications db'
     = <[id a := rejected a manager_id (reason_of data) now]>
         (card_applications db).
Proof.
  intros Hin. unfold reject_application.
  fold (reason_of data). fold (reason_too_short (reason_of data)).
  destruct (reason_too_short (reason_of data)); [by intros [= <- _]|].
  unfold bind, on_card_applications at 1, find_by_id, Mongo.find_one.
  db_simpl. rewrite Hin.
  destruct (status_eqb (status a) STATUS_PENDING) eqn:Hst;
    [apply status_eqb_eq in Hst | by intros [= <- _]].
  cbn [negb]. unfold on_card_applications. db_simpl.
  rewrite (reject_pending a manager_id (reason_of data) now _ Hin Hst).
  unfold on_customers, Customer.find_by_id. db_simpl.
  destruct (customers db !! _) as [c|]; by intros [= <- <-] _.
Qed.


Example submit_then_approve :
  let '(response, db) :=
    approve_application 9%positive 1%positive
      {| approved_credit_limit := Some 100000 |} 5%N
      "4000123412341234" "123" (db_with application0) in
  is_success response = true
  /\ (status <$> card_applications db !! 1%positive)
     = Some STATUS_APPROVED
  /\ (CreditCard.current_balance <$> credit_cards db !! 1%positive)
     = Some 0
  /\ size (credit_cards db) = 1%nat
  /\ size (transactions db) = 5%nat.
Proof. vm_compute. repeat split; reflexivity. Qed.

(** C2, as stated, fails: a second rejection with the reason "no" on an
    application that is already approved answers with a validation error,
    not with a conflict. *)
Lemma short_reason_on_resolved_application :
  let a := approved application0 9%positive 100000 5%N in
  let '(response, db) :=
    reject_application 9%positive 1%positive
      {| rejection_reason := Some "no"%string |} 6%N (db_with a) in
  status a = STATUS_APPROVED
  /\ card_applications (db_with a) !! 1%positive = Some a
  /\ is_conflict response = false
  /\ is_validation_error response = true.
Proof. vm_compute. repeat split; reflexivity. Qed.

(** C2, as the code has it.  On an application that is approved or
    rejected, an approval answers with a conflict and a rejection answers
    with a conflict, or with a validation error when its reason is
    shorter than ten characters; both leave the whole store as it is.
    After a successful approval no rejection succeeds, and after a
    successful rejection every approval answers with a conflict. *)
Theorem resolved_application_is_final (db : Db) (a : t) :
  card_applications db !! id a = Some a ->
  (status a <> STATUS_PENDING ->
   (forall manager_id data now card_number cvv,
      approve_application manager_id (id a) data now card_number cvv db
      = (conflict "Application is not pending", db))
   /\ (forall manager_id data now,
         reject_application manager_id (id a) data now db
         = (if reason_too_short (reason_of data)
            then validation_error
                   (Some (Validators.message
                      "Rejection reason must be at least 10 characters"))
            else conflict "Application is not pending", db)))
  /\ (forall manager_id data now card_number cvv response db',
        approve_application manager_id (id a) data now card_number cvv db
          = (response, db') ->
        is_success response = true ->
        forall manager_id' data' now',
          is_success
            (reject_application manager_id' (id a) data' now' db').1
            = false
          /\ (reject_application manager_id' (id a) data' now' db').2
             = db')
  /\ (forall manager_id data now response db',
        reject_application manager_id (id a) data now db
          = (response, db') ->
        is_success response = true ->
        forall manager_id' data' now' card_number cvv,
          approve_application manager_id' (id a) data' now'
            card_number cvv db'
          = (conflict "Application is not pending", db')).
Proof.
  intros Hin. split; [|split].
  - intros Hst. split; intros.
    + by apply approve_application_terminal.
    + by apply reject_application_terminal.
  - intros manager_id data now card_number cvv response db' Happ Hok
      manager_id' data' now'.
    destruct (approve_application_success _ _ _ _ _ _ _ _ _ Hin Happ Hok)
      as [_ [limit Hdb']].
    rewrite (reject_application_terminal db'
               (approved a manager_id limit now)); [|by rewrite Hdb', lookup_insert_eq|done].
    by destruct (reason_too_short _).
  - intros manager_id data now response db' Hrej Hok
      manager_id' data' now' card_number cvv.
    destruct (reject_application_success _ _ _ _ _ _ _ Hin Hrej Hok)
      as [_ Hdb'].
    apply (approve_application_terminal db'
             (rejected a manager_id (reason_of data) now));
      [by rewrite Hdb', lookup_insert_eq|done].
Qed.

Lemma resolved_application_is_final_witness :
  let a := approved application0 9%positive 100000 5%N in
  card_applications (db_with a) !! id a = Some a
  /\ status a <> STATUS_PENDING
  /\ reject_application 9%positive (id a)
       {| rejection_reason := None |} 6%N (db_with a)
     = (conflict "Application is not pending", db_with a).
Proof.
  intros a.
  assert (card_applications (db_with a) !! id a = Some a) as Hin
    by reflexivity.
  assert (status a <> STATUS_PENDING) as Hst by discriminate.
  split; [exact Hin|]. split; [exact Hst|].
  destruct (resolved_application_is_final (db_with a) a Hin) as [H _].
  destruct (H Hst) as [_ Hrej].
  exact (Hrej 9%positive {| rejection_reason := None |} 6%N).
Defined.




End workflow.

(** ** The ledger invariant in the store *)

Section ledger_in_store.

Import CreditCard.

Ltac db_simpl :=
  cbn [customers card_applications credit_cards transactions
       notifications audit_logs fst snd].

(** When the card in memory is the stored document, a confirmed
    [update_balance] stores the card it returns, and an unconfirmed one
    leaves the collection as it was. *)
Lemma update_balance_store self amount transaction_type now coll :
  coll !! id self = Some self ->
  (update_balance self amount transaction_type now coll).2
  = if (update_balance self amount transaction_type now coll).1.2
    then <[id self :=
             (update_balance self amount transaction_type now coll).1.1]> coll
    else coll.
Proof.
  intros Hin. unfold update_balance, update, Mongo.update_one.
  destruct (String.eqb transaction_type "debit"); cbn [id setattr];
    rewrite Hin; by destruct (existsb _ _).
Qed.










End ledger_in_store.


(** * Further properties of the code *)

(** ** The score: its reach and the cost of a loan *)

Section score_reach.

Import Customer.

Lemma income_factor_le x s : s <= income_factor x s <= s + 200.
Proof. unfold income_factor. repeat case_match; lra. Qed.

Lemma experience_factor_le x s : s <= experience_factor x s <= s + 100.
Proof. unfold experience_factor. repeat case_match; lra. Qed.

Lemma employment_factor_le e s : s <= employment_factor e s <= s + 100.
Proof. unfold employment_factor. repeat case_match; lra. Qed.

Lemma age_factor_le a s : s <= age_factor a s <= s + 75.
Proof. unfold age_factor. repeat case_match; lra. Qed.

(** The penalty of a loan lies between 0 and 100 and grows with the loan. *)
Lemma loan_factor_le l s : s - 100 <= loan_factor l s <= s.
Proof.
  unfold loan_factor.
  destruct (Py.gt l 0) eqn:E; [apply gt_spec in E | lra].
  change (l / 10000) with (l * (1 # 10000)).
  destruct (min_cases (l * (1 # 10000)) 100) as [[? ->]|[? ->]]; lra.
Qed.

Lemma loan_factor_antitone l l' s s' :
  l <= l' -> s' <= s -> loan_factor l' s' <= loan_factor l s.
Proof.
  intros Hl Hs. unfold loan_factor.
  change (l / 10000) with (l * (1 # 10000)).
  change (l' / 10000) with (l' * (1 # 10000)).
  destruct (Py.gt l 0) eqn:E; [apply gt_spec in E | apply gt_false in E];
    (destruct (Py.gt l' 0) eqn:E';
       [apply gt_spec in E' | apply gt_false in E']);
    try destruct (min_cases (l * (1 # 10000)) 100) as [[? ->]|[? ->]];
    try destruct (min_cases (l' * (1 # 10000)) 100) as [[? ->]|[? ->]];
    lra.
Qed.

Lemma raw_score_le d : raw_score d <= 775.
Proof.
  unfold raw_score.
  pose proof (income_factor_le
                (default 0 (customer_data.annual_income d)) 300) as H1.
  pose proof (experience_factor_le
                (default 0 (customer_data.years_of_experience d))
                (income_factor
                   (default 0 (customer_data.annual_income d)) 300)) as H2.
  pose proof (employment_factor_le
                (default EmptyString (customer_data.employment_type d))
                (experience_factor
                   (default 0 (customer_data.years_of_experience d))
                   (income_factor
                      (default 0 (customer_data.annual_income d)) 300)))
    as H3.
  set (s3 := employment_factor _ _) in *.
  pose proof (age_factor_le (default 0 (customer_data.age d)) s3) as H4.
  set (s4 := age_factor _ _) in *.
  pose proof (loan_factor_le
                (default 0 (customer_data.existing_loan_amount d)) s4) as H5.
  lra.
Qed.

Lemma clamp_shift s p :
  0 <= p ->
  Py.min (Py.max s 300) 900 - p <= Py.min (Py.max (s - p) 300) 900.
Proof.
  intros Hp.
  destruct (min_cases (Py.max s 300) 900) as [[? ->]|[? ->]];
    destruct (max_cases s 300) as [[? E1]|[? E1]]; rewrite ?E1 in *;
    destruct (min_cases (Py.max (s - p) 300) 900) as [[? ->]|[? ->]];
    destruct (max_cases (s - p) 300) as [[? E2]|[? E2]]; rewrite ?E2 in *;
    lra.
Qed.

(** X1.  No applicant scores above 775, the score of the best applicant:
    the upper clamp at 900 never binds. *)
Theorem score_at_most_775 :
  (forall d, calculate_cibil_score d <= 775)
  /\ calculate_cibil_score best_applicant == 775.
Proof.
  split; [|reflexivity].
  intros d. rewrite calculate_cibil_score_blocks.
  pose proof (raw_score_le d) as H.
  destruct (min_cases (Py.max (raw_score d) 300) 900) as [[? ->]|[? ->]];
    destruct (max_cases (raw_score d) 300) as [[? E]|[? E]];
    rewrite ?E in *; lra.
Qed.

(** X2.  With the other attributes fixed, a larger existing loan never
    raises the score, and a loan of any size lowers the score of the
    loan-free applicant by at most 100. *)
Theorem loan_lowers_score_by_at_most_100 inc yoe emp age loan loan' :
  default 0 loan <= default 0 loan' ->
  let d l :=
    {| customer_data.annual_income := inc;
       customer_data.years_of_experience := yoe;
       customer_data.employment_type := emp;
       customer_data.age := age;
       customer_data.existing_loan_amount := l |} in
  calculate_cibil_score (d loan') <= calculate_cibil_score (d loan)
  /\ calculate_cibil_score (d None) - 100 <= calculate_cibil_score (d loan).
Proof.
  intros Hl d. rewrite !calculate_cibil_score_blocks. unfold raw_score, d.
  cbn [customer_data.annual_income customer_data.years_of_experience
       customer_data.employment_type customer_data.age
       customer_data.existing_loan_amount].
  set (s := age_factor _ _). split.
  - apply clamp_mono, loan_factor_antitone; [done | lra].
  - pose proof (loan_factor_le (default 0 loan) s) as [Hlo _].
    assert (loan_factor (default 0 None) s = s) as -> by reflexivity.
    eapply Qle_trans; [apply (clamp_shift s 100); lra|].
    apply clamp_mono. lra.
Qed.

Lemma loan_lowers_score_by_at_most_100_witness :
  default 0 (Some 5000) <= default 0 (Some 2000000)
  /\ calculate_cibil_score (applicant 2000000)
     <= calculate_cibil_score (applicant 5000).
Proof.
  assert (default 0 (Some 5000) <= default 0 (Some 2000000)) as H
    by (simpl; lra).
  split; [exact H|].
  exact (proj1 (loan_lowers_score_by_at_most_100 (Some 600000) (Some 3)
                  (Some "salaried"%string) (Some 25)
                  (Some 5000) (Some 2000000) H)).
Defined.

End score_reach.

(** ** Card methods: field updates, balance round trips, the masked view *)

Section card_methods.

Import CreditCard.

Lemma foldl_setattr_id (self : t) update_data :
  id (foldl setattr self update_data) = id self.
Proof.
  revert self. induction update_data as [|f update_data IH]; intros self;
    [done|].
  simpl. rewrite IH. by destruct f.
Qed.

Lemma update_effect self update_data now coll :
  coll !! id self = Some self ->
  let '((self', ok), coll') := update self update_data now coll in
  if ok
  then self' = foldl setattr self (update_data ++ [upd_updated_at now])
       /\ id self' = id self
       /\ updated_at self' = now
       /\ coll' = <[id self := self']> coll
  else self' = self /\ coll' = coll.
Proof.
  unfold update, Mongo.update_one. intros Hin; rewrite Hin.
  destruct (existsb _ _); cbn [Nat.ltb Nat.leb]; [|done].
  repeat split.
  - apply foldl_setattr_id.
  - by rewrite foldl_app.
Qed.

(** X3.  [update] keeps the card in memory and its stored document in
    step: when the document is the card, a confirmed update stores
    exactly the card it returns, stamped with the time of the update, and
    an unconfirmed one changes neither; when no document has the card's
    id, nothing changes and the update reports failure. *)
Theorem update_keeps_memory_and_store_in_step self update_data now coll :
  (coll !! id self = Some self ->
   let '((self', ok), coll') := update self update_data now coll in
   if ok
   then self' = foldl setattr self (update_data ++ [upd_updated_at now])
        /\ id self' = id self
        /\ updated_at self' = now
        /\ coll' = <[id self := self']> coll
   else self' = self /\ coll' = coll)
  /\ (coll !! id self = None ->
      update self update_data now coll = ((self, false), coll)).
Proof.
  split; [apply update_effect|].
  unfold update, Mongo.update_one. by intros ->.
Qed.

Lemma update_keeps_memory_and_store_in_step_witness :
  let coll : gmap ObjectId t := {[ 1%positive := card0 0 ]} in
  coll !! id (card0 0) = Some (card0 0)
  /\ (pin <$> (update (card0 0) [upd_pin "4321"] 7%N coll).2 !! 1%positive)
     = Some (Some "4321"%string).
Proof.
  intros coll.
  assert (coll !! id (card0 0) = Some (card0 0)) as Hin by reflexivity.
  split; [exact Hin|].
  pose proof (proj1 (update_keeps_memory_and_store_in_step
                       (card0 0) [upd_pin "4321"] 7%N coll) Hin) as H.
  destruct (update (card0 0) [upd_pin "4321"] 7%N coll)
    as [[self' ok] coll'] eqn:E.
  assert (ok = true) as -> by (by injection E as _ <- _).
  destruct H as (-> & _ & _ & ->). cbn [snd]. by rewrite lookup_insert_eq.
Defined.

(** X4.  On a card with a non-negative balance, a debit followed by a
    credit of the same amount restores the balance and the available
    credit.  The other way round it does so only for an amount up to the
    balance: a larger credit is floored at zero, and the debit that follows
    leaves the balance at the amount. *)
Theorem debit_credit_round_trip self amount now now' coll coll' :
  0 <= current_balance self ->
  let debit c t s := (update_balance c amount "debit" t s).1.1 in
  let credit c t s := (update_balance c amount "credit" t s).1.1 in
  (current_balance (credit (debit self now coll) now' coll')
     == current_balance self
   /\ available_credit (credit (debit self now coll) now' coll')
      == credit_limit self - current_balance self)
  /\ (amount <= current_balance self ->
      current_balance (debit (credit self now coll) now' coll')
      == current_balance self)
  /\ (current_balance self < amount ->
      current_balance (debit (credit self now coll) now' coll') == amount).
Proof.
  intros Hb debit credit. unfold debit, credit.
  split; [|split].
  - destruct (update_balance_self self amount "debit" now coll)
      as (_ & Hl1 & Hb1 & _).
    destruct (update_balance_self
                (update_balance self amount "debit" now coll).1.1
                amount "credit" now' coll') as (_ & Hl2 & Hb2 & Ha2).
    rewrite Ha2, Hl2, Hl1, Hb2, Hb1. cbn [String.eqb Ascii.eqb Bool.eqb].
    destruct (max_cases 0 (current_balance self + amount - amount))
      as [[? ->]|[? ->]]; split; lra.
  - intros Hle.
    destruct (update_balance_self self amount "credit" now coll)
      as (_ & _ & Hb1 & _).
    destruct (update_balance_self
                (update_balance self amount "credit" now coll).1.1
                amount "debit" now' coll') as (_ & _ & Hb2 & _).
    rewrite Hb2, Hb1. cbn [String.eqb Ascii.eqb Bool.eqb].
    destruct (max_cases 0 (current_balance self - amount))
      as [[? ->]|[? ->]]; lra.
  - intros Hlt.
    destruct (update_balance_self self amount "credit" now coll)
      as (_ & _ & Hb1 & _).
    destruct (update_balance_self
                (update_balance self amount "credit" now coll).1.1
                amount "debit" now' coll') as (_ & _ & Hb2 & _).
    rewrite Hb2, Hb1. cbn [String.eqb Ascii.eqb Bool.eqb].
    destruct (max_cases 0 (current_balance self - amount))
      as [[? ->]|[? ->]]; lra.
Qed.

Lemma debit_credit_round_trip_witness :
  0 <= current_balance (card0 3000)
  /\ current_balance
       (update_balance
          (update_balance (card0 3000) 5000 "credit" 1%N ∅).1.1
          5000 "debit" 2%N ∅).1.1 == 5000.
Proof.
  assert (0 <= current_balance (card0 3000)) as Hb by (simpl; lra).
  split; [exact Hb|].
  destruct (debit_credit_round_trip (card0 3000) 5000 1%N 2%N ∅ ∅ Hb)
    as (_ & _ & H).
  apply H. simpl. lra.
Defined.

Ltac destruct_string s n :=
  lazymatch n with
  | O => destruct s; [|discriminate]
  | S ?n' =>
      let c := fresh "c" in
      destruct s as [|c s]; [discriminate|]; destruct_string s n'
  end.

(** X5.  The masked dictionary of a card shows the first four and the
    last four characters of a sixteen-character card number around a fixed
    mask, whatever the eight characters in between; its CVV is always
    three stars and its PIN is absent or four stars, whatever the CVV and
    the PIN of the card. *)
Theorem masked_view_hides_secrets (self : t) (first middle last : string) :
  String.length first = 4%nat ->
  String.length middle = 8%nat ->
  String.length last = 4%nat ->
  card_number self = first +:+ middle +:+ last ->
  let d := to_dict self true in
  dict.card_number d = Some (first +:+ " **** **** " +:+ last)
  /\ dict.cvv d = "***"%string
  /\ (dict.pin d = None \/ dict.pin d = Some "****"%string).
Proof.
  intros Hf Hm Hl Hn d. unfold d, to_dict, _mask_card_number.
  cbn [dict.card_number dict.cvv dict.pin]. rewrite Hn.
  split; [|split; [done|]].
  - destruct_string first 4%nat. destruct_string middle 8%nat.
    destruct_string last 4%nat. reflexivity.
  - destruct (pin self) as [p|]; [|by left].
    destruct (String.eqb p EmptyString); [by left | by right].
Qed.

Lemma masked_view_hides_secrets_witness :
  dict.card_number (to_dict (card0 0) true)
  = Some "4000 **** **** 1234"%string.
Proof.
  exact (proj1 (masked_view_hides_secrets (card0 0)
                  "4000" "12341234" "1234"
                  eq_refl eq_refl eq_refl eq_refl)).
Defined.

End card_methods.

(** ** Validators *)

Section validators.

Import Validators.

Lemma at_end_spec s :
  at_end s = true
  <-> s = EmptyString \/ s = String (ascii_of_nat 10) EmptyString.
Proof.
  unfold at_end. rewrite orb_true_iff, !String.eqb_eq. tauto.
Qed.

(** X6.  On ASCII text, [validate_pin] accepts exactly the texts made of
    four digits, and the same four digits followed by one line feed, which
    the [$] of its pattern lets through; an absent PIN is refused. *)
Theorem validate_pin_accepts_iff (pin : string) :
  ((validate_pin (Some pin)).1 = true
   <-> exists d1 d2 d3 d4,
         Py.isdigit d1 = true /\ Py.isdigit d2 = true
         /\ Py.isdigit d3 = true /\ Py.isdigit d4 = true
         /\ (pin = String d1 (String d2 (String d3 (String d4 EmptyString)))
             \/ pin = String d1 (String d2 (String d3 (String d4
                        (String (ascii_of_nat 10) EmptyString))))))
  /\ (validate_pin None).1 = false.
Proof.
  split; [|done]. split.
  - unfold validate_pin.
    destruct pin as [|d1 [|d2 [|d3 [|d4 rest]]]]; cbn [String.eqb digits];
      try done;
      destruct (Py.isdigit d1) eqn:H1; try done;
      destruct (Py.isdigit d2) eqn:H2; try done;
      destruct (Py.isdigit d3) eqn:H3; try done.
    destruct (Py.isdigit d4) eqn:H4; [|done].
    destruct (at_end rest) eqn:He; [|done].
    intros _. exists d1, d2, d3, d4. repeat (split; [done|]).
    apply at_end_spec in He. destruct He as [-> | ->]; [by left | by right].
  - intros (d1 & d2 & d3 & d4 & H1 & H2 & H3 & H4 & [-> | ->]);
      unfold validate_pin; cbn [String.eqb digits];
      by rewrite H1, H2, H3, H4.
Qed.

(** X7.  [validate_numeric_range] accepts a value exactly when it is a
    number that respects each bound that is given; it returns an error
    message exactly when it refuses, and the lower bound is the one
    reported when both are violated. *)
Theorem validate_numeric_range_accepts_iff value min_val max_val field_name :
  ((validate_numeric_range value min_val max_val field_name).1 = true
   <-> exists v,
         value = Some v
         /\ (forall m, min_val = Some m -> m <= v)
         /\ (forall M, max_val = Some M -> v <= M))
  /\ ((validate_numeric_range value min_val max_val field_name).2 = None
      <-> (validate_numeric_range value min_val max_val field_name).1 = true)
  /\ (forall v m,
        value = Some v -> min_val = Some m -> v < m ->
        validate_numeric_range value min_val max_val field_name
        = (false, Some (must_be_at_least field_name m))).
Proof.
  unfold validate_numeric_range. split; [|split].
  - destruct value as [v|]; [|split; [done | by intros (? & ? & _)]].
    destruct min_val as [m|], max_val as [M|];
      repeat match goal with
      | |- context [Py.lt ?a ?b] =>
          let E := fresh "E" in
          destruct (Py.lt a b) eqn:E;
          [apply lt_spec in E | apply lt_false in E]
      | |- context [Py.gt ?a ?b] =>
          let E := fresh "E" in
          destruct (Py.gt a b) eqn:E;
          [apply gt_spec in E | apply gt_false in E]
      end; cbn [fst]; split; try done;
      try (intros _; exists v; split; [done|];
           split; intros ? [= <-]; done);
      intros (v' & [= <-] & Hlo & Hhi);
      try (specialize (Hlo _ eq_refl)); try (specialize (Hhi _ eq_refl));
      lra.
  - repeat case_match; cbn [fst snd]; split; done.
  - intros v m -> -> Hlt. apply lt_spec in Hlt. by rewrite Hlt.
Qed.

Lemma validate_numeric_range_accepts_iff_witness :
  17 < 18
  /\ validate_numeric_range (Some 17) (Some 18) (Some 100) "Age"
     = (false, Some (must_be_at_least "Age" 18)).
Proof.
  assert (17 < 18) as H by lra.
  split; [exact H|].
  destruct (validate_numeric_range_accepts_iff
              (Some 17) (Some 18) (Some 100) "Age") as (_ & _ & Hlow).
  exact (Hlow 17 18 eq_refl eq_refl H).
Defined.

End validators.

(** ** The routes, request by request *)

Section routes.

Ltac db_simpl :=
  cbn [customers card_applications credit_cards transactions
       notifications audit_logs fst snd].

Lemma db_eta db :
  {| customers := customers db; card_applications := card_applications db;
     credit_cards := credit_cards db; transactions := transactions db;
     notifications := notifications db; audit_logs := audit_logs db |} = db.
Proof. by destruct db. Qed.

Lemma elem_of_map_values {A} (m : gmap ObjectId A) (x : A) :
  In x (map_to_list m).*2 <-> exists k, m !! k = Some x.
Proof.
  rewrite <- list_elem_of_In, list_elem_of_fmap. split.
  - intros ([k y] & -> & H). exists k. by apply elem_of_map_to_list.
  - intros [k H]. exists (k, x). split; [done|].
    by apply elem_of_map_to_list.
Qed.

(** The cards that [find_by_customer_id] lists: the stored, active cards
    of the customer. *)
Lemma find_by_customer_id_lists coll customer c :
  In c (CreditCard.find_by_customer_id customer coll).1
  <-> (exists k, coll !! k = Some c)
      /\ CreditCard.customer_id c = customer
      /\ CreditCard.is_active c = true.
Proof.
  unfold CreditCard.find_by_customer_id. cbn [fst].
  rewrite filter_In, elem_of_map_values, andb_true_iff, Pos.eqb_eq. tauto.
Qed.

Lemma existing_card_of_bank db customer bank :
  existsb (fun card => String.eqb (CreditCard.bank_name card) bank)
    (CreditCard.find_by_customer_id customer (credit_cards db)).1 = true
  <-> holds_card_of db customer bank.
Proof.
  rewrite existsb_exists. unfold holds_card_of. split.
  - intros (c & Hin & Hb). apply find_by_customer_id_lists in Hin
      as ([k Hk] & Hc & Ha). apply String.eqb_eq in Hb. by exists k, c.
  - intros (k & c & Hk & Hc & Ha & Hb). exists c. split.
    + apply find_by_customer_id_lists. eauto.
    + by apply String.eqb_eq.
Qed.

Lemma apply_for_card_cases customer data now db :
  let '(response, db') := routes_cards.apply_for_card customer data now db in
  match response with
  | success application_id _ =>
      exists card_name bank limit,
        routes_cards.card_name data = Some card_name
        /\ routes_cards.bank_name data = Some bank
        /\ routes_cards.requested_credit_limit data = Some limit
        /\ (10000 <= limit /\ limit <= 1000000)
        /\ ~ holds_card_of db (Customer.id customer) bank
        /\ card_applications db !! application_id = None
        /\ db' =
           {| customers := customers db;
              card_applications :=
                <[application_id :=
                    submitted customer card_name bank
                      (routes_cards.card_type data) limit now
                      application_id]> (card_applications db);
              credit_cards := credit_cards db;
              transactions := transactions db;
              notifications := notifications db;
              audit_logs :=
                audit_logs db
                ++ [audit (Customer.id customer) "customer"
                      "card_application" now] |}
  | conflict _ =>
      db' = db
      /\ exists bank,
           routes_cards.bank_name data = Some bank
           /\ holds_card_of db (Customer.id customer) bank
  | _ => db' = db
  end.
Proof.
  unfold routes_cards.apply_for_card.
  destruct (Validators.validate_required_fields _) as [[] e1];
    [|by unfold ret].
  destruct (Validators.validate_credit_limit _) as [[] e2] eqn:Hv;
    [|by unfold ret].
  cbn [negb].
  destruct (routes_cards.card_name data) as [card_name|]; [|by unfold ret].
  destruct (routes_cards.bank_name data) as [bank|]; [|by unfold ret].
  destruct (routes_cards.requested_credit_limit data) as [limit|];
    [|by unfold ret].
  assert (10000 <= limit /\ limit <= 1000000) as Hrange.
  { apply validate_credit_limit_accepts. by rewrite Hv. }
  unfold bind, on_credit_cards.
  pose proof (existing_card_of_bank db (Customer.id customer) bank) as Hex.
  destruct (CreditCard.find_by_customer_id (Customer.id customer)
              (credit_cards db)) as [cards coll] eqn:Hfind.
  assert (coll = credit_cards db) as -> by (by injection Hfind).
  cbn [fst] in Hex.
  destruct (existsb _ cards).
  - unfold ret. rewrite db_eta. split; [done|]. exists bank.
    split; [done|]. by apply Hex.
  - unfold on_card_applications, CardApplication.create, Mongo.insert_one,
      AuditLogger.log_user_action, ret. db_simpl.
    exists card_name, bank, limit. repeat (split; [done|]).
    split; [intros H; by apply Hex in H|].
    split; [apply not_elem_of_dom, is_fresh | done].
Qed.

Lemma apply_for_card_answer customer data now db card_name bank limit :
  routes_cards.card_name data = Some card_name ->
  routes_cards.bank_name data = Some bank ->
  routes_cards.requested_credit_limit data = Some limit ->
  card_name <> EmptyString -> bank <> EmptyString ->
  10000 <= limit /\ limit <= 1000000 ->
  let response := (routes_cards.apply_for_card customer data now db).1 in
  (is_success response = true
   <-> ~ holds_card_of db (Customer.id customer) bank)
  /\ (is_conflict response = true
      <-> holds_card_of db (Customer.id customer) bank).
Proof.
  intros Hn Hb Hl Hne Hbe Hrange. unfold routes_cards.apply_for_card.
  rewrite Hn, Hb, Hl.
  cbn [Validators.truthy_string Validators.truthy_number].
  destruct (String.eqb card_name EmptyString) eqn:E1;
    [by apply String.eqb_eq in E1|].
  destruct (String.eqb bank EmptyString) eqn:E2;
    [by apply String.eqb_eq in E2|].
  destruct (Qeq_bool limit 0) eqn:E3;
    [apply Qeq_bool_iff in E3; lra|].
  set (required := Validators.validate_required_fields _).
  vm_compute in required. subst required. cbn [negb].
  destruct (Validators.validate_credit_limit (Some limit)) as [ok e] eqn:Hv.
  assert (ok = true) as ->.
  { change ok with (ok, e).1. rewrite <- Hv.
    by apply validate_credit_limit_accepts. }
  cbn [negb]. unfold bind, on_credit_cards.
  pose proof (existing_card_of_bank db (Customer.id customer) bank) as Hex.
  destruct (CreditCard.find_by_customer_id (Customer.id customer)
              (credit_cards db)) as [cards coll]. cbn [fst] in Hex.
  destruct (existsb _ cards).
  - unfold ret. cbn [fst is_success is_conflict].
    split; [split; [done | intros H; destruct H; by apply Hex]
           |split; [intros _; by apply Hex | done]].
  - unfold on_card_applications, CardApplication.create, Mongo.insert_one,
      AuditLogger.log_user_action, ret. cbn [fst is_success is_conflict].
    split; [split; [intros _ H; by apply Hex in H | done]
           |split; [done | intros H; by apply Hex in H]].
Qed.

(** X8.  [apply_for_card] either files one pending application under a
    new id, for the requested limit, and logs it, or changes nothing.  It
    succeeds exactly for a request with a card name, a bank and a limit
    from 10,000 to 1,000,000 by a customer who holds no active card of
    that bank; it answers with a conflict exactly when the request is
    well-formed and the customer holds such a card. *)
Theorem apply_for_card_effect customer data now db :
  (let '(response, db') :=
     routes_cards.apply_for_card customer data now db in
   match response with
   | success application_id _ =>
       exists card_name bank limit,
         routes_cards.card_name data = Some card_name
         /\ routes_cards.bank_name data = Some bank
         /\ routes_cards.requested_credit_limit data = Some limit
         /\ (10000 <= limit /\ limit <= 1000000)
         /\ ~ holds_card_of db (Customer.id customer) bank
         /\ card_applications db !! application_id = None
         /\ db' =
            {| customers := customers db;
               card_applications :=
                 <[application_id :=
                     submitted customer card_name bank
                       (routes_cards.card_type data) limit now
                       application_id]> (card_applications db);
               credit_cards := credit_cards db;
               transactions := transactions db;
               notifications := notifications db;
               audit_logs :=
                 audit_logs db
                 ++ [audit (Customer.id customer) "customer"
                       "card_application" now] |}
   | conflict _ =>
       db' = db
       /\ exists bank,
            routes_cards.bank_name data = Some bank
            /\ holds_card_of db (Customer.id customer) bank
   | _ => db' = db
   end)
  /\ (forall card_name bank limit,
        routes_cards.card_name data = Some card_name ->
        routes_cards.bank_name data = Some bank ->
        routes_cards.requested_credit_limit data = Some limit ->
        card_name <> EmptyString -> bank <> EmptyString ->
        10000 <= limit /\ limit <= 1000000 ->
        let response :=
          (routes_cards.apply_for_card customer data now db).1 in
        (is_success response = true
         <-> ~ holds_card_of db (Customer.id customer) bank)
        /\ (is_conflict response = true
            <-> holds_card_of db (Customer.id customer) bank)).
Proof.
  split; [apply apply_for_card_cases | apply apply_for_card_answer].
Qed.

Lemma apply_for_card_effect_witness :
  (10000 <= 100000 /\ 100000 <= 1000000)
  /\ is_conflict
       (routes_cards.apply_for_card customer0 (apply0 "HDFC Bank") 3%N
          (db0 0)).1 = true
  /\ is_success
       (routes_cards.apply_for_card customer0 (apply0 "ICICI Bank") 3%N
          (db0 0)).1 = true.
Proof.
  assert (10000 <= 100000 /\ 100000 <= 1000000) as Hr by (split; lra).
  split; [exact Hr|].
  destruct (apply_for_card_effect customer0 (apply0 "HDFC Bank") 3%N (db0 0))
    as [_ H1].
  destruct (apply_for_card_effect customer0 (apply0 "ICICI Bank") 3%N (db0 0))
    as [_ H2].
  split.
  - apply (H1 _ _ _ eq_refl eq_refl eq_refl); [done | done | exact Hr |].
    exists 1%positive, (card0 0). by repeat split.
  - apply (H2 _ _ _ eq_refl eq_refl eq_refl); [done | done | exact Hr |].
    intros (k & c & Hk & _ & _ & Hb).
    unfold db0 in Hk. cbn [credit_cards] in Hk.
    apply lookup_singleton_Some in Hk as [_ <-]. discriminate Hb.
Defined.

Lemma reject_application_effect db a manager_id data now :
  card_applications db !! CardApplication.id a = Some a ->
  CardApplication.status a = CardApplication.STATUS_PENDING ->
  reason_too_short (reason_of data) = false ->
  routes_manager.reject_application manager_id (CardApplication.id a) data
    now db
  = (success (CardApplication.id a) "Application rejected successfully",
     {| customers := customers db;
        card_applications :=
          <[CardApplication.id a :=
              rejected a manager_id (reason_of data) now]>
            (card_applications db);
        credit_cards := credit_cards db;
        transactions := transactions db;
        notifications :=
          notifications db
          ++ match customers db !! CardApplication.customer_id a with
             | Some c =>
                 [notify (Customer.id c) "application_rejected"
                    [("application_id"%string, CardApplication.id a)] now]
             | None => []
             end;
        audit_logs :=
          audit_logs db
          ++ [audit manager_id "manager" "application_rejected" now] |}).
Proof.
  intros Hin Hst Hreason. unfold routes_manager.reject_application.
  fold (reason_of data). fold (reason_too_short (reason_of data)).
  rewrite Hreason.
  unfold bind, on_card_applications at 1, CardApplication.find_by_id,
    Mongo.find_one.
  db_simpl. rewrite Hin, Hst. cbn [CardApplication.status_eqb negb].
  unfold on_card_applications. db_simpl.
  rewrite (reject_pending a manager_id (reason_of data) now _ Hin Hst).
  unfold on_customers, Customer.find_by_id. db_simpl.
  change (CardApplication.customer_id
            (rejected a manager_id (reason_of data) now))
    with (CardApplication.customer_id a).
  destruct (customers db !! CardApplication.customer_id a) as [c|];
    unfold NotificationService.create_notification,
      AuditLogger.log_user_action, ret; db_simpl;
    [done | by rewrite app_nil_r].
Qed.

Lemma reject_application_failure manager_id application_id data now db
    response db' :
  routes_manager.reject_application manager_id application_id data now db
    = (response, db') ->
  is_success response = false ->
  db' = db.
Proof.
  unfold routes_manager.reject_application.
  destruct (_ || _); [by intros [= <- <-]|].
  unfold bind, on_card_applications at 1, CardApplication.find_by_id,
    Mongo.find_one.
  db_simpl.
  destruct (card_applications db !! application_id) as [a|];
    [|intros [= <- <-]; by rewrite db_eta].
  destruct (negb _); [intros [= <- <-]; by rewrite db_eta|].
  unfold on_card_applications, CardApplication.reject, Mongo.update_one.
  db_simpl.
  destruct (card_applications db !! CardApplication.id a) as [d|];
    [|intros [= <- <-]; by rewrite db_eta].
  destruct (existsb _ _); cbn [Nat.ltb Nat.leb];
    [|intros [= <- <-]; by rewrite db_eta].
  unfold on_customers, Customer.find_by_id. db_simpl.
  destruct (customers db !! _); by intros [= <- _].
Qed.

(** X9.  Rejecting a pending application with a reason of ten characters
    or more stores it rejected with the reason, the resolver and the time,
    notifies the customer when the record exists, logs the rejection, and
    touches no card and no transaction.  A rejection that does not succeed
    leaves the whole store as it was. *)
Theorem reject_application_all_or_nothing :
  (forall db a manager_id data now,
     card_applications db !! CardApplication.id a = Some a ->
     CardApplication.status a = CardApplication.STATUS_PENDING ->
     reason_too_short (reason_of data) = false ->
     exists message db',
       routes_manager.reject_application manager_id (CardApplication.id a)
         data now db
       = (success (CardApplication.id a) message, db')
       /\ card_applications db'
          = <[CardApplication.id a :=
                rejected a manager_id (reason_of data) now]>
              (card_applications db)
       /\ CardApplication.status
            (rejected a manager_id (reason_of data) now)
          = CardApplication.STATUS_REJECTED
       /\ CardApplication.rejection_reason
            (rejected a manager_id (reason_of data) now)
          = Some (reason_of data)
       /\ CardApplication.approved_credit_limit
            (rejected a manager_id (reason_of data) now)
          = CardApplication.approved_credit_limit a
       /\ credit_cards db' = credit_cards db
       /\ transactions db' = transactions db
       /\ customers db' = customers db
       /\ audit_logs db'
          = audit_logs db
            ++ [audit manager_id "manager" "application_rejected" now])
  /\ (forall manager_id application_id data now db,
        is_success
          (routes_manager.reject_application manager_id application_id
             data now db).1 = false ->
        (routes_manager.reject_application manager_id application_id
           data now db).2 = db).
Proof.
  split.
  - intros db a manager_id data now Hin Hst Hreason.
    eexists _, _. split;
      [by apply reject_application_effect|]. by db_simpl.
  - intros manager_id application_id data now db Hfail.
    destruct (routes_manager.reject_application manager_id application_id
                data now db) as [response db'] eqn:E.
    by apply (reject_application_failure _ _ _ _ _ _ _ E).
Qed.

Lemma reject_application_all_or_nothing_witness :
  card_applications (db_with application0)
    !! CardApplication.id application0 = Some application0
  /\ (CardApplication.status
        <$> card_applications
              (routes_manager.reject_application 9%positive
                 (CardApplication.id application0)
                 {| routes_manager.rejection_reason :=
                      Some "Income below our threshold"%string |} 6%N
                 (db_with application0)).2 !! 1%positive)
     = Some CardApplication.STATUS_REJECTED.
Proof.
  assert (card_applications (db_with application0)
            !! CardApplication.id application0 = Some application0) as Hin
    by reflexivity.
  split; [exact Hin|].
  destruct reject_application_all_or_nothing as [H _].
  destruct (H (db_with application0) application0 9%positive
              {| routes_manager.rejection_reason :=
                   Some "Income below our threshold"%string |} 6%N
              Hin eq_refl eq_refl)
    as (message & db' & Heq & Hcoll & _).
  rewrite Heq. cbn [snd]. rewrite Hcoll. by rewrite lookup_insert_eq.
Defined.

Lemma approve_application_failure manager_id application_id data now
    card_number cvv db response db' :
  routes_manager.approve_application manager_id application_id data now
    card_number cvv db = (response, db') ->
  match response with
  | success _ _ => True
  | server_error message =>
      message = "Customer not found"%string \/ db' = db
  | _ => db' = db
  end.
Proof.
  unfold routes_manager.approve_application, bind,
    on_card_applications at 1, CardApplication.find_by_id, Mongo.find_one.
  db_simpl.
  destruct (card_applications db !! application_id) as [a|];
    [|intros [= <- <-]; by rewrite db_eta].
  destruct (negb _); [intros [= <- <-]; by rewrite db_eta|].
  destruct (Validators.validate_credit_limit _) as [[] error];
    [|intros [= <- <-]; by rewrite db_eta].
  cbn [negb].
  unfold on_card_applications, CardApplication.approve, Mongo.update_one.
  db_simpl.
  destruct (card_applications db !! CardApplication.id a) as [d|];
    [|intros [= <- <-]; right; by rewrite db_eta].
  destruct (existsb _ _); cbn [Nat.ltb Nat.leb];
    [|intros [= <- <-]; right; by rewrite db_eta].
  unfold on_customers, Customer.find_by_id. db_simpl.
  destruct (customers db !! _); [by intros [= <- _] | intros [= <- _]].
  by left.
Qed.

(** X10.  How an approval fails.  An unknown application id is answered
    with not-found, and a resolved limit outside 10,000 to 1,000,000 on a
    pending application with a validation error, both leaving the store
    as it was; of all the answers other than success, only the server
    error for a missing customer record can leave the store changed. *)
Theorem approve_application_failures :
  (forall manager_id application_id data now card_number cvv db,
     card_applications db !! application_id = None ->
     routes_manager.approve_application manager_id application_id data now
       card_number cvv db
     = (not_found "Application not found", db))
  /\ (forall manager_id a data now card_number cvv db,
        card_applications db !! CardApplication.id a = Some a ->
        CardApplication.status a = CardApplication.STATUS_PENDING ->
        let limit :=
          default (CardApplication.requested_credit_limit a)
                  (routes_manager.approved_credit_limit data) in
        ~ (10000 <= limit /\ limit <= 1000000) ->
        exists e,
          routes_manager.approve_application manager_id
            (CardApplication.id a) data now card_number cvv db
          = (validation_error e, db))
  /\ (forall manager_id application_id data now card_number cvv db
             response db',
        routes_manager.approve_application manager_id application_id data
          now card_number cvv db = (response, db') ->
        match response with
        | success _ _ => True
        | server_error message =>
            message = "Customer not found"%string \/ db' = db
        | _ => db' = db
        end).
Proof.
  split; [|split; [|apply approve_application_failure]].
  - intros manager_id application_id data now card_number cvv db Hnone.
    unfold routes_manager.approve_application, bind,
      on_card_applications, CardApplication.find_by_id, Mongo.find_one.
    rewrite Hnone. unfold ret. by rewrite db_eta.
  - intros manager_id a data now card_number cvv db Hin Hst limit Hout.
    unfold routes_manager.approve_application, bind,
      on_card_applications, CardApplication.find_by_id, Mongo.find_one.
    rewrite Hin, Hst. cbn [CardApplication.status_eqb negb]. fold limit.
    pose proof (validate_credit_limit_accepts limit) as Hiff.
    destruct (Validators.validate_credit_limit (Some limit)) as [[] e].
    + destruct Hout. by apply Hiff.
    + exists e. unfold ret. by rewrite db_eta.
Qed.

Lemma approve_application_failures_witness :
  card_applications (db_with application0)
    !! CardApplication.id application0 = Some application0
  /\ exists e,
       routes_manager.approve_application 9%positive
         (CardApplication.id application0)
         {| routes_manager.approved_credit_limit := Some 5000000 |} 5%N
         "4000123412341234" "123" (db_with application0)
       = (validation_error e, db_with application0).
Proof.
  assert (card_applications (db_with application0)
            !! CardApplication.id application0 = Some application0) as Hin
    by reflexivity.
  split; [exact Hin|].
  destruct approve_application_failures as (_ & H & _).
  apply (H 9%positive application0
           {| routes_manager.approved_credit_limit := Some 5000000 |}
           5%N "4000123412341234"%string "123"%string
           (db_with application0) Hin eq_refl).
  simpl. lra.
Defined.

(** X11.  The life of an application.  Once [apply_for_card] has
    succeeded for a customer whose record is stored, an approval without
    an overriding limit succeeds: the limit that the submission accepted
    is accepted again.  The card issued belongs to the customer, is
    active, carries the bank and the requested limit and a zero balance;
    from then on every application of that customer to the same bank is
    refused. *)
Theorem submit_approve_lifecycle customer data now db application_id
    message db1 manager_id now' card_number cvv :
  customers db !! Customer.id customer = Some customer ->
  routes_cards.apply_for_card customer data now db
    = (success application_id message, db1) ->
  exists r message' db2 card bank limit,
    routes_cards.bank_name data = Some bank
    /\ routes_cards.requested_credit_limit data = Some limit
    /\ routes_manager.approve_application manager_id application_id
         {| routes_manager.approved_credit_limit := None |} now'
         card_number cvv db1
       = (success r message', db2)
    /\ credit_cards db2 !! routes_manager.card_id r = Some card
    /\ CreditCard.customer_id card = Customer.id customer
    /\ CreditCard.bank_name card = bank
    /\ CreditCard.credit_limit card = limit
    /\ CreditCard.current_balance card = 0
    /\ CreditCard.is_active card = true
    /\ (forall data' now'',
          routes_cards.bank_name data' = Some bank ->
          is_success
            (routes_cards.apply_for_card customer data' now'' db2).1
          = false).
Proof.
  intros Hc Happly.
  pose proof (apply_for_card_cases customer data now db) as Hcases.
  rewrite Happly in Hcases.
  destruct Hcases
    as (card_name & bank & limit & Hn & Hb & Hl & Hrange & _ & _ & ->).
  set (a := submitted customer card_name bank
              (routes_cards.card_type data) limit now application_id).
  pose proof (approve_application_pending
                {| customers := customers db;
                   card_applications :=
                     <[application_id := a]> (card_applications db);
                   credit_cards := credit_cards db;
                   transactions := transactions db;
                   notifications := notifications db;
                   audit_logs :=
                     audit_logs db
                     ++ [audit (Customer.id customer) "customer"
                           "card_application" now] |}
                a customer manager_id
                {| routes_manager.approved_credit_limit := None |}
                now' card_number cvv) as Happrove.
  cbn [card_applications customers credit_cards] in Happrove.
  change (CardApplication.id a) with application_id in Happrove.
  specialize (Happrove (lookup_insert_eq _ _ _) eq_refl Hc Hrange).
  change (default (CardApplication.requested_credit_limit a)
            (routes_manager.approved_credit_limit
               {| routes_manager.approved_credit_limit := None |}))
    with limit in Happrove.
  set (card_id := fresh (dom (credit_cards db))) in *.
  set (card := issued_card a customer limit now' card_number cvv card_id)
    in *.
  eexists _, _, _, card, bank, limit.
  split; [done|]. split; [done|]. split; [exact Happrove|].
  cbn [routes_manager.card_id credit_cards].
  split; [by rewrite lookup_insert_eq|].
  repeat (split; [done|]).
  intros data' now'' Hb'.
  pose proof (apply_for_card_cases customer data' now''
                {| customers := customers db;
                   card_applications :=
                     <[application_id := approved a manager_id limit now']>
                       (<[application_id := a]> (card_applications db));
                   credit_cards := <[card_id := card]> (credit_cards db);
                   transactions :=
                     (Transaction.create_sample_transactions card_id
                        (Customer.id customer) now' (transactions db)).2;
                   notifications :=
                     notifications db
                     ++ [{| n_user_id := Customer.id customer;
                            n_user_type := "customer";
                            n_notification_type := "application_approved";
                            n_data :=
                              [("card_id"%string, card_id);
                               ("application_id"%string, application_id)];
                            n_is_read := false; n_created_at := now' |}];
                   audit_logs :=
                     (audit_logs db
                      ++ [audit (Customer.id customer) "customer"
                            "card_application" now])
                     ++ [{| a_user_id := manager_id;
                            a_user_type := "manager";
                            a_action := "application_approved";
                            a_timestamp := now' |}] |}) as Hagain.
  destruct (routes_cards.apply_for_card customer data' now'' _)
    as [response db3].
  destruct response; try done.
  destruct Hagain as (? & bank' & ? & _ & Hb'' & _ & _ & Hfree & _).
  rewrite Hb' in Hb''. injection Hb'' as <-.
  destruct Hfree. exists card_id, card. cbn [credit_cards].
  by rewrite lookup_insert_eq.
Qed.

Lemma submit_approve_lifecycle_witness :
  let db := db_customers {[ 1%positive := customer0 ]} in
  let db1 :=
    (routes_cards.apply_for_card customer0 (apply0 "HDFC Bank") 3%N db).2 in
  customers db !! Customer.id customer0 = Some customer0
  /\ routes_cards.apply_for_card customer0 (apply0 "HDFC Bank") 3%N db
     = (success 1%positive "Card application submitted successfully", db1)
  /\ exists r message db2,
       routes_manager.approve_application 9%positive 1%positive
         {| routes_manager.approved_credit_limit := None |} 5%N
         "4000123412341234" "123" db1
       = (success r message, db2).
Proof.
  intros db db1.
  assert (customers db !! Customer.id customer0 = Some customer0) as Hc
    by reflexivity.
  assert (routes_cards.apply_for_card customer0 (apply0 "HDFC Bank") 3%N db
          = (success 1%positive "Card application submitted successfully",
             db1)) as Happly by (vm_compute; reflexivity).
  split; [exact Hc|]. split; [exact Happly|].
  destruct (submit_approve_lifecycle customer0 (apply0 "HDFC Bank") 3%N db
              1%positive "Card application submitted successfully" db1
              9%positive 5%N "4000123412341234" "123" Hc Happly)
    as (r & message & db2 & card & bank & limit & _ & _ & H & _).
  by exists r, message, db2.
Defined.

Lemma update_balance_result card amount transaction_type now coll :
  (CreditCard.update_balance card amount transaction_type now coll).1.1
  = if (CreditCard.update_balance card amount transaction_type now coll).1.2
    then with_balance card
           (if String.eqb transaction_type "debit"
            then CreditCard.current_balance card + amount
            else Py.max 0 (CreditCard.current_balance card - amount)) now
    else foldl CreditCard.setattr card
           [ CreditCard.upd_current_balance
               (if String.eqb transaction_type "debit"
                then CreditCard.current_balance card + amount
                else Py.max 0 (CreditCard.current_balance card - amount));
             CreditCard.upd_available_credit
               (CreditCard.credit_limit card
                - (if String.eqb transaction_type "debit"
                   then CreditCard.current_balance card + amount
                   else Py.max 0
                          (CreditCard.current_balance card - amount))) ].
Proof.
  unfold CreditCard.update_balance, CreditCard.update, Mongo.update_one.
  destruct (String.eqb transaction_type "debit");
    cbn [CreditCard.id CreditCard.setattr];
    destruct (coll !! CreditCard.id card) as [d|]; try done;
    by destruct (existsb _ _).
Qed.

Ltac nothing_written :=
  unfold ret; intros [= _ <-]; db_simpl;
  split; [done | split; [done | by left]].

(** The effect of a card route on the cards: nothing, or one write over a
    card of the customer. *)
Lemma card_request_writes customer db db' :
  cards_keyed db ->
  card_request customer db db' ->
  customers db' = customers db
  /\ card_applications db' = card_applications db
  /\ (credit_cards db' = credit_cards db
      \/ exists card card',
           credit_cards db !! CreditCard.id card = Some card
           /\ CreditCard.customer_id card = Customer.id customer
           /\ card_write card card'
           /\ credit_cards db' = <[CreditCard.id card := card']>
                                   (credit_cards db)).
Proof.
  intros Hkeyed [data now reference_number
                |card_id data now reference_number
                |card_id data now
                |card_id now];
    match goal with
    | |- context [(?route).2] =>
        let response := fresh "response" in
        let db' := fresh "db'" in
        let E := fresh "E" in
        destruct route as [response db'] eqn:E; cbn [snd]; revert E
    end.
  - unfold routes_transactions.create_transaction.
    destruct (Validators.validate_required_fields _) as [[] ?];
      [|nothing_written].
    destruct (Validators.validate_transaction_amount _) as [[] ?] eqn:Hv;
      [|nothing_written].
    cbn [negb].
    destruct (routes_transactions.card_id data) as [card_id|];
      [|nothing_written].
    destruct (routes_transactions.amount data) as [a|];
      [|nothing_written].
    destruct (routes_transactions.merchant_name data);
      [|nothing_written].
    destruct (routes_transactions.description data);
      [|nothing_written].
    assert (1 <= a) as Ha.
    { apply (validate_transaction_amount_accepts a). by rewrite Hv. }
    unfold bind, on_credit_cards at 1, CreditCard.find_by_id,
      Mongo.find_one. db_simpl.
    destruct (credit_cards db !! card_id) as [card|] eqn:Hcard;
      [|nothing_written].
    pose proof (Hkeyed _ _ Hcard) as <-.
    destruct (Pos.eqb_spec (CreditCard.customer_id card)
                (Customer.id customer)) as [Hown|];
      cbn [negb]; [|nothing_written].
    destruct (Py.gt _ _) eqn:Hgt; [nothing_written|].
    apply gt_false in Hgt.
    unfold ret, on_transactions, on_credit_cards,
      AuditLogger.log_user_action. db_simpl.
    destruct (Transaction.create _ _ _ _) as [transaction coll_t].
    db_simpl.
    pose proof (update_balance_store card a "debit" now (credit_cards db)
                  Hcard) as Hstore.
    pose proof (update_balance_result card a "debit" now (credit_cards db))
      as Hresult.
    destruct (CreditCard.update_balance card a "debit" now (credit_cards db))
      as [[card' ok] coll']. db_simpl. cbn [fst snd] in Hstore, Hresult.
    intros [= _ <-]. db_simpl.
    split; [done|]. split; [done|].
    destruct ok; [right | by left].
    exists card, card'. repeat (split; [done|]).
    split; [|done]. rewrite Hresult. by apply write_debit.
  - unfold routes_cards.pay_bill.
    destruct (Validators.validate_transaction_amount _) as [[] ?] eqn:Hv;
      [|nothing_written].
    cbn [negb].
    unfold bind, on_credit_cards at 1, CreditCard.find_by_id,
      Mongo.find_one. db_simpl.
    destruct (credit_cards db !! card_id) as [card|] eqn:Hcard;
      [|nothing_written].
    pose proof (Hkeyed _ _ Hcard) as <-.
    destruct (routes_cards.amount data) as [a|];
      [|nothing_written].
    assert (1 <= a) as Ha.
    { apply (validate_transaction_amount_accepts a). by rewrite Hv. }
    destruct (Pos.eqb_spec (CreditCard.customer_id card)
                (Customer.id customer)) as [Hown|];
      cbn [negb]; [|nothing_written].
    destruct (Py.gt _ _) eqn:Hgt; [nothing_written|].
    apply gt_false in Hgt.
    unfold on_credit_cards. db_simpl.
    pose proof (update_balance_store card a "credit" now (credit_cards db)
                  Hcard) as Hstore.
    pose proof (update_balance_result card a "credit" now (credit_cards db))
      as Hresult.
    destruct (CreditCard.update_balance card a "credit" now
                (credit_cards db)) as [[card' ok] coll'].
    db_simpl. cbn [fst snd] in Hstore, Hresult.
    destruct ok; [|subst coll'; nothing_written].
    unfold ret, on_transactions, AuditLogger.log_user_action. db_simpl.
    destruct (Transaction.create _ _ _ _) as [transaction coll_t].
    db_simpl. intros [= _ <-]. db_simpl.
    split; [done|]. split; [done|]. right.
    exists card, card'. repeat (split; [done|]).
    split; [|done]. rewrite Hresult. by apply write_credit.
  - unfold routes_cards.set_card_pin.
    destruct (Validators.validate_pin _) as [[] ?];
      [|nothing_written].
    cbn [negb].
    unfold bind, on_credit_cards at 1, CreditCard.find_by_id,
      Mongo.find_one. db_simpl.
    destruct (credit_cards db !! card_id) as [card|] eqn:Hcard;
      [|nothing_written].
    pose proof (Hkeyed _ _ Hcard) as <-.
    destruct (routes_cards.pin data) as [pin|];
      [|nothing_written].
    destruct (Pos.eqb_spec (CreditCard.customer_id card)
                (Customer.id customer)) as [Hown|];
      cbn [negb]; [|nothing_written].
    unfold on_credit_cards, CreditCard.set_pin. db_simpl.
    pose proof (update_effect card [CreditCard.upd_pin pin] now
                  (credit_cards db) Hcard) as Hupd.
    destruct (CreditCard.update card [CreditCard.upd_pin pin] now
                (credit_cards db)) as [[card' ok] coll'].
    destruct ok.
    + destruct Hupd as (-> & _ & _ & ->).
      unfold ret, AuditLogger.log_user_action. db_simpl.
      intros [= _ <-]. db_simpl.
      split; [done|]. split; [done|]. right.
      eexists card, _. repeat (split; [done|]).
      split; [apply write_pin | done].
    + destruct Hupd as [_ ->]. nothing_written.
  - unfold routes_cards.remove_card.
    unfold bind, on_credit_cards at 1, CreditCard.find_by_id,
      Mongo.find_one. db_simpl.
    destruct (credit_cards db !! card_id) as [card|] eqn:Hcard;
      [|nothing_written].
    pose proof (Hkeyed _ _ Hcard) as <-.
    destruct (Pos.eqb_spec (CreditCard.customer_id card)
                (Customer.id customer)) as [Hown|];
      cbn [negb]; [|nothing_written].
    unfold on_credit_cards, CreditCard.delete. db_simpl.
    pose proof (update_effect card [CreditCard.upd_is_active false] now
                  (credit_cards db) Hcard) as Hupd.
    destruct (CreditCard.update card [CreditCard.upd_is_active false] now
                (credit_cards db)) as [[card' ok] coll'].
    destruct ok.
    + destruct Hupd as (-> & _ & _ & ->).
      unfold ret, AuditLogger.log_user_action. db_simpl.
      intros [= _ <-]. db_simpl.
      split; [done|]. split; [done|]. right.
      eexists card, _. repeat (split; [done|]).
      split; [apply write_inactive | done].
    + destruct Hupd as [_ ->]. nothing_written.
Qed.

(** A write keeps the identity of the card: its id, owner, number, CVV,
    bank, type and credit limit. *)
Lemma card_write_identity card card' :
  card_write card card' ->
  CreditCard.id card' = CreditCard.id card
  /\ CreditCard.customer_id card' = CreditCard.customer_id card
  /\ CreditCard.card_number card' = CreditCard.card_number card
  /\ CreditCard.cvv card' = CreditCard.cvv card
  /\ CreditCard.bank_name card' = CreditCard.bank_name card
  /\ CreditCard.credit_limit card' = CreditCard.credit_limit card.
Proof. by intros []. Qed.

Lemma card_write_bounded card card' :
  card_write card card' ->
  card_ok card ->
  CreditCard.current_balance card <= CreditCard.credit_limit card ->
  card_ok card'
  /\ CreditCard.current_balance card' <= CreditCard.credit_limit card'.
Proof.
  intros [a now Ha Hfit|a now Ha Hfit|pin now|now] [Hinv Hpos] Hle;
    cbn; unfold card_ok; cbn; try done.
  - split; [split; [done | lra] | done].
  - destruct (max_cases 0 (CreditCard.current_balance card - a))
      as [[? ->]|[? ->]]; split; try split; (done || lra).
Qed.

(** X12.  A request of a customer to post a transaction, pay a bill, set
    a PIN or remove a card never changes a card of another customer,
    never adds or deletes a card, never changes the id, owner, number,
    CVV, bank or credit limit of a card, and leaves the customers and the
    applications alone. *)
Theorem card_requests_touch_own_card_only customer db db' :
  cards_keyed db ->
  card_request customer db db' ->
  (forall k c,
     credit_cards db !! k = Some c ->
     CreditCard.customer_id c <> Customer.id customer ->
     credit_cards db' !! k = Some c)
  /\ (forall k c,
        credit_cards db !! k = Some c ->
        exists c',
          credit_cards db' !! k = Some c'
          /\ CreditCard.id c' = CreditCard.id c
          /\ CreditCard.customer_id c' = CreditCard.customer_id c
          /\ CreditCard.card_number c' = CreditCard.card_number c
          /\ CreditCard.cvv c' = CreditCard.cvv c
          /\ CreditCard.bank_name c' = CreditCard.bank_name c
          /\ CreditCard.credit_limit c' = CreditCard.credit_limit c)
  /\ (forall k, credit_cards db !! k = None -> credit_cards db' !! k = None)
  /\ customers db' = customers db
  /\ card_applications db' = card_applications db.
Proof.
  intros Hkeyed Hreq.
  destruct (card_request_writes customer db db' Hkeyed Hreq)
    as (Hcust & Happs & [-> | (card & card' & Hcard & Hown & Hw & ->)]).
  { repeat split; try done. intros k c Hk. by exists c. }
  pose proof (card_write_identity _ _ Hw) as Hid.
  repeat split; try done.
  - intros k c Hk Hother.
    destruct (decide (CreditCard.id card = k)) as [<-|Hne];
      [|by rewrite lookup_insert_ne].
    rewrite Hcard in Hk. injection Hk as <-. by destruct Hother.
  - intros k c Hk.
    destruct (decide (CreditCard.id card = k)) as [<-|Hne].
    + rewrite Hcard in Hk. injection Hk as <-.
      exists card'. by rewrite lookup_insert_eq.
    + exists c. by rewrite lookup_insert_ne.
  - intros k Hk.
    destruct (decide (CreditCard.id card = k)) as [<-|Hne];
      [by rewrite Hcard in Hk | by rewrite lookup_insert_ne].
Qed.

Lemma cards_keyed_db0 balance : cards_keyed (db0 balance).
Proof.
  intros k c Hk. unfold db0 in Hk. cbn [credit_cards] in Hk.
  by apply lookup_singleton_Some in Hk as [<- <-].
Qed.

Lemma card_requests_touch_own_card_only_witness :
  cards_keyed (db0 0)
  /\ card_request customer0 (db0 0)
       (routes_cards.remove_card customer0 1%positive 4%N (db0 0)).2
  /\ customers
       (routes_cards.remove_card customer0 1%positive 4%N (db0 0)).2
     = customers (db0 0).
Proof.
  pose proof (cards_keyed_db0 0) as Hk.
  assert (card_request customer0 (db0 0)
            (routes_cards.remove_card customer0 1%positive 4%N (db0 0)).2)
    as Hr by apply request_remove_card.
  split; [exact Hk|]. split; [exact Hr|].
  by destruct (card_requests_touch_own_card_only customer0 (db0 0) _ Hk Hr)
    as (_ & _ & _ & H & _).
Defined.

(** What an approval writes: at most one application, approved with a
    limit in the legal range, and at most one new card, with that kind of
    limit and a zero balance. *)
Lemma approve_application_writes manager_id application_id data now
    card_number cvv db response db' :
  applications_ok db ->
  routes_manager.approve_application manager_id application_id data now
    card_number cvv db = (response, db') ->
  customers db' = customers db
  /\ (card_applications db' = card_applications db
      \/ exists a limit,
           card_applications db !! CardApplication.id a = Some a
           /\ CardApplication.status a = CardApplication.STATUS_PENDING
           /\ (10000 <= limit /\ limit <= 1000000)
           /\ card_applications db'
              = <[CardApplication.id a := approved a manager_id limit now]>
                  (card_applications db))
  /\ (credit_cards db' = credit_cards db
      \/ exists card,
           credit_cards db !! CreditCard.id card = None
           /\ credit_cards db'
              = <[CreditCard.id card := card]> (credit_cards db)
           /\ CreditCard.current_balance card = 0
           /\ CreditCard.available_credit card
              = CreditCard.credit_limit card - 0
           /\ 10000 <= CreditCard.credit_limit card).
Proof.
  intros Hok.
  unfold routes_manager.approve_application, bind,
    on_card_applications at 1, CardApplication.find_by_id, Mongo.find_one.
  db_simpl.
  destruct (card_applications db !! application_id) as [a|] eqn:Hin;
    [|intros [= _ <-]; db_simpl; by repeat split; try left].
  destruct (Hok _ _ Hin) as [<- _].
  destruct (CardApplication.status_eqb (CardApplication.status a)
              CardApplication.STATUS_PENDING) eqn:Hst;
    [apply status_eqb_eq in Hst
    |intros [= _ <-]; db_simpl; by repeat split; try left].
  cbn [negb].
  set (limit := default _ _).
  destruct (Validators.validate_credit_limit (Some limit))
    as [[] error] eqn:Hv;
    [|intros [= _ <-]; db_simpl; by repeat split; try left].
  assert (10000 <= limit /\ limit <= 1000000) as Hrange.
  { apply validate_credit_limit_accepts. by rewrite Hv. }
  cbn [negb]. unfold on_card_applications. db_simpl.
  rewrite (approve_pending a manager_id limit now _ Hin Hst)
    by (intros E; rewrite E in Hrange; lra).
  unfold on_customers, Customer.find_by_id. db_simpl.
  change (CardApplication.customer_id (approved a manager_id limit now))
    with (CardApplication.customer_id a).
  destruct (customers db !! CardApplication.customer_id a) as [c|].
  - unfold on_credit_cards, CreditCard.create, Mongo.insert_one,
      on_transactions, ret, NotificationService.create_notification,
      AuditLogger.log_user_action. db_simpl.
    destruct (Transaction.create_sample_transactions _ _ _ _).
    intros [= _ <-]. db_simpl.
    split; [done|]. split; [right; by exists a, limit|]. right.
    exists (issued_card a c limit now card_number cvv
              (fresh (dom (credit_cards db)))).
    cbn [issued_card CreditCard.id CreditCard.current_balance
         CreditCard.available_credit CreditCard.credit_limit].
    split; [apply not_elem_of_dom, is_fresh|].
    split; [reflexivity|]. repeat split; try done. apply Hrange.
  - unfold ret. intros [= _ <-]. db_simpl.
    split; [done|]. split; [right; by exists a, limit | by left].
Qed.

Lemma reject_application_writes manager_id application_id data now db
    response db' :
  applications_ok db ->
  routes_manager.reject_application manager_id application_id data now db
    = (response, db') ->
  customers db' = customers db
  /\ credit_cards db' = credit_cards db
  /\ transactions db' = transactions db
  /\ (card_applications db' = card_applications db
      \/ exists a,
           card_applications db !! CardApplication.id a = Some a
           /\ CardApplication.status a = CardApplication.STATUS_PENDING
           /\ reason_too_short (reason_of data) = false
           /\ card_applications db'
              = <[CardApplication.id a :=
                    rejected a manager_id (reason_of data) now]>
                  (card_applications db)).
Proof.
  intros Hok Hrej.
  destruct (is_success response) eqn:Hs.
  - revert Hrej. unfold routes_manager.reject_application.
    fold (reason_of data). fold (reason_too_short (reason_of data)).
    destruct (reason_too_short (reason_of data)) eqn:Hreason;
      [intros [= <- _]; done|].
    unfold bind, on_card_applications at 1, CardApplication.find_by_id,
      Mongo.find_one. db_simpl.
    destruct (card_applications db !! application_id) as [a|] eqn:Hin;
      [|intros [= <- _]; done].
    destruct (Hok _ _ Hin) as [<- _].
    destruct (CardApplication.status_eqb (CardApplication.status a)
                CardApplication.STATUS_PENDING) eqn:Hst;
      [apply status_eqb_eq in Hst | intros [= <- _]; done].
    cbn [negb]. intros Hrej.
    pose proof (reject_application_effect db a manager_id data now
                  Hin Hst Hreason) as Heff.
    unfold routes_manager.reject_application in Heff.
    fold (reason_of data) in Heff.
    fold (reason_too_short (reason_of data)) in Heff.
    rewrite Hreason in Heff.
    unfold bind, on_card_applications at 1, CardApplication.find_by_id,
      Mongo.find_one in Heff.
    cbn [customers card_applications credit_cards transactions
         notifications audit_logs fst snd] in Heff.
    rewrite Hin, Hst in Heff. cbn [CardApplication.status_eqb negb] in Heff.
    rewrite Heff in Hrej. injection Hrej as _ <-. db_simpl.
    repeat (split; [done|]). right. by exists a.
  - rewrite (reject_application_failure _ _ _ _ _ _ _ Hrej Hs).
    repeat split; try done. by left.
Qed.

Lemma application_ok_approved a manager_id limit now :
  application_ok a ->
  CardApplication.status a = CardApplication.STATUS_PENDING ->
  10000 <= limit /\ limit <= 1000000 ->
  application_ok (approved a manager_id limit now).
Proof.
  intros [Hreq Hpending] Hst Hrange. rewrite Hst in Hpending.
  destruct Hpending as (_ & Hreason & _).
  split; [exact Hreq|]. cbn.
  split; [by exists limit|]. by repeat split.
Qed.

Lemma application_ok_rejected a manager_id reason now :
  application_ok a ->
  CardApplication.status a = CardApplication.STATUS_PENDING ->
  reason_too_short reason = false ->
  application_ok (rejected a manager_id reason now).
Proof.
  intros [Hreq Hpending] Hst Hreason. rewrite Hst in Hpending.
  destruct Hpending as (Hlimit & _).
  split; [exact Hreq|]. cbn.
  split; [done|]. split; [by exists reason|]. by repeat split.
Qed.

Lemma ledger_bounded_keyed db : ledger_bounded db -> cards_keyed db.
Proof. intros H k c Hk. by destruct (H k c Hk). Qed.

Lemma step_keeps_invariants db db' :
  step db db' ->
  ledger_bounded db /\ applications_ok db ->
  ledger_bounded db' /\ applications_ok db'.
Proof.
  intros Hstep [Hledger Happs].
  assert (forall customer, card_request customer db db' ->
          ledger_bounded db' /\ applications_ok db') as Hcard.
  { intros customer Hreq.
    destruct (card_request_writes customer db db'
                (ledger_bounded_keyed db Hledger) Hreq)
      as (_ & Ha & [Hc | (card & card' & Hcard & _ & Hw & Hc)]);
      (split; [|intros k a; rewrite Ha; apply Happs]);
      intros k c; rewrite Hc; [apply Hledger|].
    destruct (Hledger _ _ Hcard) as (_ & Hok & Hle).
    destruct (card_write_bounded _ _ Hw Hok Hle) as [Hok' Hle'].
    destruct (card_write_identity _ _ Hw) as (Hid & _).
    destruct (decide (CreditCard.id card = k)) as [<-|Hne].
    - rewrite lookup_insert_eq. by intros [= <-].
    - rewrite lookup_insert_ne by done. apply Hledger. }
  destruct Hstep as [customer data now db
                    |manager_id application_id data now card_number cvv db
                    |manager_id application_id data now db
                    |customer data now reference_number db
                    |customer card_id data now reference_number db
                    |customer card_id data now db
                    |customer card_id now db].
  - pose proof (apply_for_card_cases customer data now db) as Hcases.
    destruct (routes_cards.apply_for_card customer data now db)
      as [response db']. cbn [snd].
    destruct response as [application_id ?| | | | |];
      [|by rewrite Hcases..|by destruct Hcases as [-> _]|by rewrite Hcases].
    destruct Hcases
      as (card_name & bank & limit & _ & _ & _ & Hrange & _ & _ & ->).
    split; [exact Hledger|]. intros k a. db_simpl.
    destruct (decide (application_id = k)) as [<-|Hne].
    + rewrite lookup_insert_eq. intros [= <-].
      split; [done|]. split; [exact Hrange|]. by cbn.
    + rewrite lookup_insert_ne by done. apply Happs.
  - destruct (routes_manager.approve_application manager_id application_id
                data now card_number cvv db) as [response db'] eqn:E.
    cbn [snd].
    destruct (approve_application_writes _ _ _ _ _ _ _ _ _ Happs E)
      as (_ & Ha & Hc). split.
    + intros k c.
      destruct Hc as [Hc | (card & Hnew & Hc & Hb & Hav & Hl)];
        rewrite Hc; [apply Hledger|].
      destruct (decide (CreditCard.id card = k)) as [<-|Hne].
      * rewrite lookup_insert_eq. intros [= <-].
        split; [done|]. unfold card_ok. rewrite Hav, Hb.
        repeat split; lra.
      * rewrite lookup_insert_ne by done. apply Hledger.
    + intros k a'.
      destruct Ha as [Ha | (a & limit & Hin & Hst & Hrange & Ha)];
        rewrite Ha; [apply Happs|].
      destruct (decide (CardApplication.id a = k)) as [<-|Hne].
      * rewrite lookup_insert_eq. intros [= <-]. split; [done|].
        apply application_ok_approved; [apply (Happs _ _ Hin) | done..].
      * rewrite lookup_insert_ne by done. apply Happs.
  - destruct (routes_manager.reject_application manager_id application_id
                data now db) as [response db'] eqn:E.
    cbn [snd].
    destruct (reject_application_writes _ _ _ _ _ _ _ Happs E)
      as (_ & Hc & _ & Ha). split.
    + intros k c. rewrite Hc. apply Hledger.
    + intros k a'.
      destruct Ha as [Ha | (a & Hin & Hst & Hreason & Ha)];
        rewrite Ha; [apply Happs|].
      destruct (decide (CardApplication.id a = k)) as [<-|Hne].
      * rewrite lookup_insert_eq. intros [= <-]. split; [done|].
        apply application_ok_rejected; [apply (Happs _ _ Hin) | done..].
      * rewrite lookup_insert_ne by done. apply Happs.
  - apply (Hcard customer), request_create_transaction.
  - apply (Hcard customer), request_pay_bill.
  - apply (Hcard customer), request_set_card_pin.
  - apply (Hcard customer), request_remove_card.
Qed.

(** X13.  From a store without cards and applications, however the seven
    writing routes are called and whatever the requests, every stored
    card is filed under its id, satisfies
    [available_credit = credit_limit - current_balance] and has a balance
    from zero to its credit limit, and every stored application is
    pending with no resolution recorded, approved with a resolver, a time
    and an approved limit from 10,000 to 1,000,000 and no reason, or
    rejected with a resolver, a time and a reason of ten characters or
    more and no approved limit. *)
Theorem store_invariants customers db :
  rtc step (db_customers customers) db ->
  ledger_bounded db /\ applications_ok db.
Proof.
  intros Hrun.
  assert (ledger_bounded (db_customers customers)
          /\ applications_ok (db_customers customers)) as Hinit
    by (split; intros k x Hk; cbn in Hk; by rewrite lookup_empty in Hk).
  revert Hinit. induction Hrun as [|db1 db2 db3 Hstep _ IH]; [done|].
  intros Hinv. by apply IH, (step_keeps_invariants db1).
Qed.

Lemma store_invariants_witness :
  let db := db_customers {[ 1%positive := customer0 ]} in
  let db1 :=
    (routes_cards.apply_for_card customer0 (apply0 "HDFC Bank") 3%N db).2 in
  rtc step db db1 /\ applications_ok db1.
Proof.
  intros db db1.
  assert (rtc step db db1) as Hrun
    by (apply rtc_once, step_apply_for_card).
  split; [exact Hrun|].
  exact (proj2 (store_invariants {[ 1%positive := customer0 ]} db1 Hrun)).
Defined.

(** [update_balance] is confirmed by the store whenever the balance it
    computes differs from the stored one. *)
Lemma update_balance_confirmed self amount transaction_type now coll :
  coll !! CreditCard.id self = Some self ->
  ~ (if String.eqb transaction_type "debit"
     then CreditCard.current_balance self + amount
     else Py.max 0 (CreditCard.current_balance self - amount))
    == CreditCard.current_balance self ->
  (CreditCard.update_balance self amount transaction_type now coll).1.2
  = true.
Proof.
  intros Hin Hne.
  unfold CreditCard.update_balance, CreditCard.update, Mongo.update_one.
  destruct (String.eqb transaction_type "debit");
    cbn [CreditCard.id CreditCard.setattr CreditCard.current_balance
         CreditCard.credit_limit CreditCard.available_credit];
    rewrite Hin; cbn [app existsb field_differs CreditCard.document
                      CreditCard.differs];
    match goal with
    | |- context [Qeq_bool ?x ?y] =>
        destruct (Qeq_bool x y) eqn:Heq;
          [apply Qeq_bool_iff in Heq; destruct Hne; by symmetry | done]
    end.
Qed.

(** X14.  A bill payment of an amount from 1 to 100,000 on the customer's
    own card: an amount above the balance is refused with a validation
    error and nothing is written; any other amount succeeds, answers the
    balance less the amount and the credit limit less that balance, stores
    the card with these two values, files one new payment transaction of
    that amount for the card, and adds one audit entry. *)
Theorem pay_bill_effect customer card data now reference_number db a :
  credit_cards db !! CreditCard.id card = Some card ->
  CreditCard.customer_id card = Customer.id customer ->
  routes_cards.amount data = Some a ->
  1 <= a /\ a <= 100000 ->
  let '(response, db') :=
    routes_cards.pay_bill customer (CreditCard.id card) data now
      reference_number db in
  (CreditCard.current_balance card < a ->
   is_validation_error response = true /\ db' = db)
  /\ (a <= CreditCard.current_balance card ->
      exists r msg txn,
        response = success r msg
        /\ routes_cards.new_balance r == CreditCard.current_balance card - a
        /\ routes_cards.available_credit r
           == CreditCard.credit_limit card
              - (CreditCard.current_balance card - a)
        /\ credit_cards db'
           = <[CreditCard.id card :=
                 with_balance card
                   (Py.max 0 (CreditCard.current_balance card - a)) now]>
               (credit_cards db)
        /\ transactions db !! Transaction.id txn = None
        /\ transactions db'
           = <[Transaction.id txn := txn]> (transactions db)
        /\ Transaction.card_id txn = CreditCard.id card
        /\ Transaction.customer_id txn = Customer.id customer
        /\ Transaction.transaction_type txn = "payment"%string
        /\ Transaction.amount txn = a
        /\ customers db' = customers db
        /\ card_applications db' = card_applications db
        /\ audit_logs db'
           = audit_logs db
             ++ [audit (Customer.id customer) "customer" "bill_payment"
                   now]).
Proof.
  intros Hcard Hown Hamount Hrange.
  destruct (routes_cards.pay_bill customer (CreditCard.id card) data now
              reference_number db) as [response db'] eqn:E.
  revert E. unfold routes_cards.pay_bill. rewrite Hamount.
  destruct (Validators.validate_transaction_amount (Some a))
    as [[] error] eqn:Hv;
    [|pose proof (proj2 (validate_transaction_amount_accepts a) Hrange)
        as Hacc; by rewrite Hv in Hacc].
  cbn [negb].
  unfold bind, on_credit_cards at 1, CreditCard.find_by_id, Mongo.find_one.
  db_simpl. rewrite Hcard.
  rewrite (proj2 (Pos.eqb_eq _ _) Hown). cbn [negb].
  destruct (Py.gt a (CreditCard.current_balance card)) eqn:Hgt.
  - apply gt_spec in Hgt. unfold ret. intros [= <- <-].
    split; [intros _; split; [done | by destruct db] | intros Hle; lra].
  - apply gt_false in Hgt.
    assert (Py.max 0 (CreditCard.current_balance card - a)
            == CreditCard.current_balance card - a) as Hmax.
    { destruct (max_cases 0 (CreditCard.current_balance card - a))
        as [[? ->]|[? ->]]; lra. }
    unfold on_credit_cards. db_simpl.
    pose proof (update_balance_store card a "credit" now (credit_cards db)
                  Hcard) as Hstore.
    pose proof (update_balance_result card a "credit" now (credit_cards db))
      as Hresult.
    pose proof (update_balance_confirmed card a "credit" now
                  (credit_cards db) Hcard) as Hok.
    cbn [String.eqb Ascii.eqb Bool.eqb] in Hresult, Hok.
    rewrite Hok in Hresult, Hstore by (rewrite Hmax; lra).
    destruct (CreditCard.update_balance card a "credit" now
                (credit_cards db)) as [[card' ok] coll'].
    cbn [fst snd] in Hstore, Hresult, Hok.
    rewrite Hok by (rewrite Hmax; lra). subst card' coll'.
    unfold ret, on_transactions, AuditLogger.log_user_action,
      Transaction.create, Mongo.insert_one. db_simpl.
    intros [= <- <-]. split; [intros Hlt; lra|]. intros _.
    eexists _, _, (Transaction.init (fresh (dom (transactions db))) _ now).
    split; [reflexivity|].
    cbn [routes_cards.new_balance routes_cards.available_credit
         with_balance foldl CreditCard.setattr CreditCard.current_balance
         CreditCard.available_credit CreditCard.credit_limit
         Transaction.init Transaction.id Transaction.card_id
         Transaction.customer_id Transaction.transaction_type
         Transaction.amount Transaction.transaction_data.card_id
         Transaction.transaction_data.customer_id
         Transaction.transaction_data.transaction_type
         Transaction.transaction_data.amount].
    db_simpl.
    split; [exact Hmax|]. split; [by rewrite Hmax|].
    split; [done|].
    split; [apply not_elem_of_dom, is_fresh|].
    by repeat split.
Qed.

Lemma pay_bill_effect_witness :
  credit_cards (db0 1000) !! CreditCard.id (card0 1000) = Some (card0 1000)
  /\ (1 <= 400 /\ 400 <= 100000)
  /\ exists r msg,
       (routes_cards.pay_bill customer0 (CreditCard.id (card0 1000))
          {| routes_cards.amount := Some 400 |} 5%N "TXNA1B2C3D4E5"
          (db0 1000)).1 = success r msg
       /\ routes_cards.new_balance r == 600.
Proof.
  assert (credit_cards (db0 1000) !! CreditCard.id (card0 1000)
          = Some (card0 1000)) as Hcard by (by vm_compute).
  assert (1 <= 400 /\ 400 <= 100000) as Hrange by (split; lra).
  split; [exact Hcard|]. split; [exact Hrange|].
  pose proof (pay_bill_effect customer0 (card0 1000)
                {| routes_cards.amount := Some 400 |} 5%N "TXNA1B2C3D4E5"
                (db0 1000) 400 Hcard eq_refl eq_refl Hrange) as H.
  destruct (routes_cards.pay_bill customer0 (CreditCard.id (card0 1000))
              {| routes_cards.amount := Some 400 |} 5%N "TXNA1B2C3D4E5"
              (db0 1000)) as [response db'].
  destruct H as [_ H].
  destruct H as (r & msg & txn & Hr & Hb & _);
    [cbn [card0 CreditCard.current_balance]; lra|].
  exists r, msg. split; [exact Hr|].
  rewrite Hb. cbn [card0 CreditCard.current_balance]. lra.
Defined.

(** X15.  A transaction of an amount from 1 to 100,000 posted by a
    customer on a card of their own, with a merchant and a description:
    when the balance plus the amount exceeds the credit limit it is
    refused with a validation error and nothing is written; otherwise it
    succeeds, answers the balance plus the amount and the credit left,
    stores the card with these two values, files the one transaction it
    returns under a new id, and adds one audit entry.  Whether the card
    is active plays no part: a removed card is charged like any other. *)
Theorem create_transaction_effect customer card data now reference_number
    db a merchant description :
  credit_cards db !! CreditCard.id card = Some card ->
  CreditCard.customer_id card = Customer.id customer ->
  routes_transactions.card_id data = Some (CreditCard.id card) ->
  routes_transactions.amount data = Some a ->
  routes_transactions.merchant_name data = Some merchant ->
  routes_transactions.description data = Some description ->
  merchant <> EmptyString -> description <> EmptyString ->
  1 <= a /\ a <= 100000 ->
  let '(response, db') :=
    routes_transactions.create_transaction customer data now
      reference_number db in
  (CreditCard.credit_limit card < CreditCard.current_balance card + a ->
   is_validation_error response = true /\ db' = db)
  /\ (CreditCard.current_balance card + a <= CreditCard.credit_limit card ->
      exists r msg,
        response = success r msg
        /\ routes_transactions.new_balance r
           = CreditCard.current_balance card + a
        /\ routes_transactions.available_credit r
           = CreditCard.credit_limit card
             - (CreditCard.current_balance card + a)
        /\ credit_cards db'
           = <[CreditCard.id card :=
                 with_balance card (CreditCard.current_balance card + a)
                   now]> (credit_cards db)
        /\ transactions db
           !! Transaction.id (routes_transactions.transaction r) = None
        /\ transactions db'
           = <[Transaction.id (routes_transactions.transaction r) :=
                 routes_transactions.transaction r]> (transactions db)
        /\ Transaction.card_id (routes_transactions.transaction r)
           = CreditCard.id card
        /\ Transaction.customer_id (routes_transactions.transaction r)
           = Customer.id customer
        /\ Transaction.amount (routes_transactions.transaction r) = a
        /\ customers db' = customers db
        /\ card_applications db' = card_applications db
        /\ audit_logs db'
           = audit_logs db
             ++ [audit (Customer.id customer) "customer"
                   "transaction_created" now]).
Proof.
  intros Hcard Hown Hid Hamount Hm Hd Hme Hde Hrange.
  destruct (routes_transactions.create_transaction customer data now
              reference_number db) as [response db'] eqn:E.
  revert E. unfold routes_transactions.create_transaction.
  rewrite Hid, Hamount, Hm, Hd.
  cbn [Validators.truthy_string Validators.truthy_number].
  destruct (String.eqb merchant EmptyString) eqn:E1;
    [by apply String.eqb_eq in E1|].
  destruct (String.eqb description EmptyString) eqn:E2;
    [by apply String.eqb_eq in E2|].
  destruct (Qeq_bool a 0) eqn:E3;
    [apply Qeq_bool_iff in E3; lra|].
  rewrite bool_decide_true by done.
  set (required := Validators.validate_required_fields _).
  vm_compute in required. subst required. cbn [negb].
  destruct (Validators.validate_transaction_amount (Some a))
    as [[] error] eqn:Hv;
    [|pose proof (proj2 (validate_transaction_amount_accepts a) Hrange)
        as Hacc; by rewrite Hv in Hacc].
  cbn [negb].
  unfold bind, on_credit_cards at 1, CreditCard.find_by_id, Mongo.find_one.
  db_simpl. rewrite Hcard.
  rewrite (proj2 (Pos.eqb_eq _ _) Hown). cbn [negb].
  destruct (Py.gt _ _) eqn:Hgt.
  - apply gt_spec in Hgt. unfold ret. intros [= <- <-].
    split; [intros _; split; [done | by destruct db] | intros Hle; lra].
  - apply gt_false in Hgt.
    unfold on_credit_cards, on_transactions. db_simpl.
    pose proof (update_balance_store card a "debit" now (credit_cards db)
                  Hcard) as Hstore.
    pose proof (update_balance_result card a "debit" now (credit_cards db))
      as Hresult.
    pose proof (update_balance_confirmed card a "debit" now
                  (credit_cards db) Hcard) as Hok.
    cbn [String.eqb Ascii.eqb Bool.eqb] in Hresult, Hok.
    rewrite Hok in Hresult, Hstore by lra.
    unfold Transaction.create, Mongo.insert_one. db_simpl.
    destruct (CreditCard.update_balance card a "debit" now
                (credit_cards db)) as [[card' ok] coll'].
    cbn [fst snd] in Hstore, Hresult, Hok. subst card' coll'.
    unfold ret, AuditLogger.log_user_action. db_simpl.
    intros [= <- <-]. split; [intros Hlt; lra|]. intros _.
    eexists _, _. split; [reflexivity|].
    cbn [routes_transactions.new_balance
         routes_transactions.available_credit
         routes_transactions.transaction
         with_balance foldl CreditCard.setattr CreditCard.current_balance
         CreditCard.available_credit CreditCard.credit_limit
         Transaction.init Transaction.id Transaction.card_id
         Transaction.customer_id Transaction.amount
         Transaction.transaction_data.card_id
         Transaction.transaction_data.customer_id
         Transaction.transaction_data.amount].
    db_simpl.
    repeat (split; [done|]).
    split; [apply not_elem_of_dom, is_fresh|].
    by repeat split.
Qed.

Lemma create_transaction_effect_witness :
  credit_cards (db0 1000) !! CreditCard.id (card0 1000) = Some (card0 1000)
  /\ (1 <= 250 /\ 250 <= 100000)
  /\ exists r msg,
       (routes_transactions.create_transaction customer0
          (request0 None 250) 5%N "TXNA1B2C3D4E5" (db0 1000)).1
       = success r msg
       /\ routes_transactions.new_balance r == 1250.
Proof.
  assert (credit_cards (db0 1000) !! CreditCard.id (card0 1000)
          = Some (card0 1000)) as Hcard by (by vm_compute).
  assert (1 <= 250 /\ 250 <= 100000) as Hrange by (split; lra).
  split; [exact Hcard|]. split; [exact Hrange|].
  pose proof (create_transaction_effect customer0 (card0 1000)
                (request0 None 250) 5%N "TXNA1B2C3D4E5" (db0 1000) 250
                "Amazon India" "Order 1234" Hcard eq_refl eq_refl eq_refl
                eq_refl eq_refl ltac:(done) ltac:(done) Hrange) as H.
  destruct (routes_transactions.create_transaction customer0
              (request0 None 250) 5%N "TXNA1B2C3D4E5" (db0 1000))
    as [response db'].
  destruct H as [_ H].
  destruct H as (r & msg & Hr & Hb & _);
    [cbn [card0 CreditCard.current_balance CreditCard.credit_limit]; lra|].
  exists r, msg. split; [exact Hr|].
  rewrite Hb. cbn [card0 CreditCard.current_balance]. lra.
Defined.

(** [update] is confirmed when one of the values it writes, its time
    stamp included, differs from the stored document. *)
Lemma update_confirmed self update_data now coll :
  coll !! CreditCard.id self = Some self ->
  existsb (CreditCard.differs self)
    (update_data ++ [CreditCard.upd_updated_at now]) = true ->
  (CreditCard.update self update_data now coll).1.2 = true.
Proof.
  intros Hin Hdiff. unfold CreditCard.update, Mongo.update_one.
  rewrite Hin. cbn [field_differs CreditCard.document].
  by rewrite Hdiff.
Qed.

(** X16.  Removing an active card of one's own succeeds and is a soft
    delete: the document stays under its id with only the active flag and
    the update time changed, so [find_by_id] still returns it; the
    customer then holds a card of a bank exactly when another of their
    cards is an active card of that bank; and a well-formed application
    to the bank of the removed card, refused with a conflict before the
    removal, succeeds after it when no other active card of the customer
    is from that bank. *)
Theorem remove_card_soft_delete customer card now db :
  credit_cards db !! CreditCard.id card = Some card ->
  CreditCard.customer_id card = Customer.id customer ->
  CreditCard.is_active card = true ->
  let '(response, db') :=
    routes_cards.remove_card customer (CreditCard.id card) now db in
  let removed :=
    foldl CreditCard.setattr card
      [CreditCard.upd_is_active false; CreditCard.upd_updated_at now] in
  is_success response = true
  /\ credit_cards db'
     = <[CreditCard.id card := removed]> (credit_cards db)
  /\ (CreditCard.find_by_id (CreditCard.id card) (credit_cards db')).1
     = Some removed
  /\ (forall bank,
        holds_card_of db' (Customer.id customer) bank
        <-> exists k c,
              k <> CreditCard.id card
              /\ credit_cards db !! k = Some c
              /\ CreditCard.customer_id c = Customer.id customer
              /\ CreditCard.is_active c = true
              /\ CreditCard.bank_name c = bank)
  /\ (forall data now' card_name limit,
        routes_cards.card_name data = Some card_name ->
        routes_cards.bank_name data = Some (CreditCard.bank_name card) ->
        routes_cards.requested_credit_limit data = Some limit ->
        card_name <> EmptyString ->
        CreditCard.bank_name card <> EmptyString ->
        10000 <= limit /\ limit <= 1000000 ->
        is_conflict (routes_cards.apply_for_card customer data now' db).1
        = true
        /\ ((forall k c,
               k <> CreditCard.id card ->
               credit_cards db !! k = Some c ->
               CreditCard.customer_id c = Customer.id customer ->
               CreditCard.is_active c = true ->
               CreditCard.bank_name c <> CreditCard.bank_name card) ->
            is_success
              (routes_cards.apply_for_card customer data now' db').1
            = true)).
Proof.
  intros Hcard Hown Hactive.
  destruct (routes_cards.remove_card customer (CreditCard.id card) now db)
    as [response db'] eqn:E.
  revert E. unfold routes_cards.remove_card.
  unfold bind, on_credit_cards at 1, CreditCard.find_by_id, Mongo.find_one.
  db_simpl. rewrite Hcard.
  rewrite (proj2 (Pos.eqb_eq _ _) Hown). cbn [negb].
  unfold on_credit_cards, CreditCard.delete. db_simpl.
  pose proof (update_effect card [CreditCard.upd_is_active false] now
                (credit_cards db) Hcard) as Hupd.
  pose proof (update_confirmed card [CreditCard.upd_is_active false] now
                (credit_cards db) Hcard) as Hok.
  destruct (CreditCard.update card [CreditCard.upd_is_active false] now
              (credit_cards db)) as [[card' ok] coll'].
  cbn [fst snd] in Hok. rewrite Hok in Hupd
    by (cbn [app existsb CreditCard.differs]; by rewrite Hactive).
  rewrite Hok by (cbn [app existsb CreditCard.differs]; by rewrite Hactive).
  destruct Hupd as (-> & _ & _ & ->).
  unfold ret, AuditLogger.log_user_action. db_simpl.
  intros [= <- <-]. cbn zeta. db_simpl. cbn [app].
  set (removed := foldl CreditCard.setattr card _).
  assert (forall bank,
            holds_card_of
              {| customers := customers db;
                 card_applications := card_applications db;
                 credit_cards :=
                   <[CreditCard.id card := removed]> (credit_cards db);
                 transactions := transactions db;
                 notifications := notifications db;
                 audit_logs :=
                   audit_logs db
                   ++ [{| a_user_id := Customer.id customer;
                          a_user_type := "customer";
                          a_action := "card_removed";
                          a_timestamp := now |}] |}
              (Customer.id customer) bank
            <-> exists k c,
                  k <> CreditCard.id card
                  /\ credit_cards db !! k = Some c
                  /\ CreditCard.customer_id c = Customer.id customer
                  /\ CreditCard.is_active c = true
                  /\ CreditCard.bank_name c = bank) as Hholds.
  { intros bank. unfold holds_card_of. db_simpl. split.
    - intros (k & c & Hk & Hc).
      destruct (decide (CreditCard.id card = k)) as [<-|Hne].
      + rewrite lookup_insert_eq in Hk. injection Hk as <-.
        by destruct Hc as (_ & Hfalse & _).
      + rewrite lookup_insert_ne in Hk by done. by exists k, c.
    - intros (k & c & Hne & Hk & Hc). exists k, c.
      by rewrite lookup_insert_ne. }
  split; [done|]. split; [done|].
  split; [by rewrite lookup_insert_eq|].
  split; [exact Hholds|].
  intros data now' card_name limit Hn Hb Hl Hne Hbe Hrange.
  split.
  - apply (apply_for_card_answer customer data now' db card_name
             (CreditCard.bank_name card) limit Hn Hb Hl Hne Hbe Hrange).
    by exists (CreditCard.id card), card.
  - intros Hother.
    apply (apply_for_card_answer customer data now' _ card_name
             (CreditCard.bank_name card) limit Hn Hb Hl Hne Hbe Hrange).
    intros Hheld. apply Hholds in Hheld
      as (k & c & Hk & Hin & Hc & Hact & Hbank).
    by apply (Hother k c).
Qed.

Lemma remove_card_soft_delete_witness :
  credit_cards (db0 0) !! CreditCard.id (card0 0) = Some (card0 0)
  /\ is_success
       (routes_cards.remove_card customer0 (CreditCard.id (card0 0)) 4%N
          (db0 0)).1 = true.
Proof.
  assert (credit_cards (db0 0) !! CreditCard.id (card0 0)
          = Some (card0 0)) as Hcard by (by vm_compute).
  split; [exact Hcard|].
  pose proof (remove_card_soft_delete customer0 (card0 0) 4%N (db0 0)
                Hcard eq_refl eq_refl) as H.
  destruct (routes_cards.remove_card customer0 (CreditCard.id (card0 0))
              4%N (db0 0)) as [response db'].
  exact (proj1 H).
Defined.

(** The loop of [create_sample_transactions], for any list of samples:
    one new document per sample, in order, each under an id of its own. *)
Lemma insert_samples_spec samples now coll :
  let '(created, coll') := Transaction.insert_samples samples now coll in
  Forall2
    (fun s t =>
       Transaction.card_id t = Transaction.transaction_data.card_id s
       /\ Transaction.customer_id t
          = Transaction.transaction_data.customer_id s
       /\ Transaction.amount t = Transaction.transaction_data.amount s
       /\ Transaction.status t
          = default Transaction.STATUS_PENDING
              (Transaction.transaction_data.status s)
       /\ Transaction.reference_number t
          = Transaction.transaction_data.reference_number s
       /\ Transaction.transaction_date t = now
       /\ Transaction.settlement_date t = Some now)
    samples created
  /\ Forall
       (fun t =>
          coll !! Transaction.id t = None
          /\ coll' !! Transaction.id t = Some t) created
  /\ NoDup (Transaction.id <$> created)
  /\ (forall k t, coll !! k = Some t -> coll' !! k = Some t)
  /\ size coll' = (size coll + length samples)%nat.
Proof.
  revert coll. induction samples as [|s samples IH]; intros coll.
  - cbn. unfold ret. repeat split; try done; try constructor.
  - cbn [Transaction.insert_samples]. unfold Mongo.insert_one.
    set (k := fresh (dom coll)).
    assert (coll !! k = None) as Hk by apply not_elem_of_dom, is_fresh.
    set (t0 := Transaction.init k _ now).
    specialize (IH (<[k := t0]> coll)).
    destruct (Transaction.insert_samples samples now (<[k := t0]> coll))
      as [created coll'].
    destruct IH as (Hfields & Hnew & Hdup & Hkeep & Hsize).
    assert (forall t, t ∈ created -> Transaction.id t <> k) as Hfresh.
    { intros t Ht Heq.
      destruct (proj1 (Forall_forall _ _) Hnew t Ht) as [Hnone _].
      by rewrite Heq, lookup_insert_eq in Hnone. }
    split; [|split; [|split; [|split]]].
    + constructor; [by cbn | exact Hfields].
    + constructor.
      * split; [exact Hk|]. apply Hkeep. by rewrite lookup_insert_eq.
      * apply Forall_forall. intros t Ht.
        destruct (proj1 (Forall_forall _ _) Hnew t Ht) as [Hnone Hsome].
        split; [|exact Hsome].
        rewrite lookup_insert_ne in Hnone; [done|].
        intros Heq. by apply (Hfresh t Ht).
    + cbn [fmap list_fmap]. constructor; [|exact Hdup].
      intros Hin. apply list_elem_of_fmap in Hin as (t & Heq & Ht).
      by apply (Hfresh t Ht).
    + intros k' t Hin. apply Hkeep.
      rewrite lookup_insert_ne; [done|]. intros <-. by rewrite Hk in Hin.
    + rewrite Hsize, map_size_insert_None by done. cbn [length]. lia.
Qed.

(** X17.  [create_sample_transactions] files exactly five new
    transactions for the card and the customer, each under an id of its
    own that no document had, and keeps every document that was stored.
    The five carry the amounts 2500, 800, 1200, 4500 and 5000; since they
    are inserted as they are and not through [create], they are stored as
    completed, dated and settled at the time of the call, and without a
    reference number. *)
Theorem create_sample_transactions_effect card_id customer_id now coll :
  let '(created, coll') :=
    Transaction.create_sample_transactions card_id customer_id now coll in
  Transaction.amount <$> created = [2500; 800; 1200; 4500; 5000]
  /\ Forall
       (fun t =>
          coll !! Transaction.id t = None
          /\ coll' !! Transaction.id t = Some t
          /\ Transaction.card_id t = card_id
          /\ Transaction.customer_id t = customer_id
          /\ Transaction.status t = Transaction.STATUS_COMPLETED
          /\ Transaction.transaction_date t = now
          /\ Transaction.settlement_date t = Some now
          /\ Transaction.reference_number t = None) created
  /\ NoDup (Transaction.id <$> created)
  /\ (forall k t, coll !! k = Some t -> coll' !! k = Some t)
  /\ size coll' = (size coll + 5)%nat.
Proof.
  unfold Transaction.create_sample_transactions.
  pose proof (insert_samples_spec
                (Transaction.sample_transactions card_id customer_id)
                now coll) as H.
  destruct (Transaction.insert_samples _ now coll) as [created coll'].
  destruct H as (Hfields & Hnew & Hdup & Hkeep & Hsize).
  split; [|split; [|split; [exact Hdup | split; [exact Hkeep | exact Hsize]]]].
  - unfold Transaction.sample_transactions in Hfields.
    repeat match goal with
           | H : Forall2 _ (_ :: _) _ |- _ =>
               apply Forall2_cons_inv_l in H
                 as (? & ? & (_ & _ & ? & _) & H & ->)
           | H : Forall2 _ [] _ |- _ => apply Forall2_nil_inv_l in H as ->
           end.
    cbn [fmap list_fmap]. by repeat f_equal.
  - apply Forall_forall. intros t Ht.
    destruct (proj1 (Forall_forall _ _) Hnew t Ht) as [Hnone Hsome].
    split; [exact Hnone|]. split; [exact Hsome|].
    apply (Forall2_Forall_r
             (fun s t =>
                Transaction.card_id t = Transaction.transaction_data.card_id s
                /\ Transaction.customer_id t
                   = Transaction.transaction_data.customer_id s
                /\ Transaction.amount t = Transaction.transaction_data.amount s
                /\ Transaction.status t
                   = default Transaction.STATUS_PENDING
                       (Transaction.transaction_data.status s)
                /\ Transaction.reference_number t
                   = Transaction.transaction_data.reference_number s
                /\ Transaction.transaction_date t = now
                /\ Transaction.settlement_date t = Some now)
             (fun t =>
                Transaction.card_id t = card_id
                /\ Transaction.customer_id t = customer_id
                /\ Transaction.status t = Transaction.STATUS_COMPLETED
                /\ Transaction.transaction_date t = now
                /\ Transaction.settlement_date t = Some now
                /\ Transaction.reference_number t = None)
             (Transaction.sample_transactions card_id customer_id) created)
      in Hfields; [by apply (proj1 (Forall_forall _ _) Hfields)|].
    apply Forall_forall. intros s Hs t' (Hc & Hcu & _ & Hst & Href & Hd & Hse).
    unfold Transaction.sample_transactions in Hs.
    repeat (apply elem_of_cons in Hs as [->|Hs]; [by repeat split|]).
    by apply elem_of_nil in Hs.
Qed.

End routes.

Section transaction_methods.

Import Transaction.

(** X18.  [update_status] on a transaction that is its stored document.
    A confirmed update stores the new status and the update time, and
    sets them on the object; the stored settlement date is the one given,
    else the time of the update when the new status is completed, else
    the old one, whereas the object takes a settlement date only when one
    is given.  So completing a transaction without a settlement date
    leaves the object behind its document, unless it already carried
    that date.  An unconfirmed update changes neither, and happens only
    when status and update time are already the stored ones. *)
Theorem update_status_memory_and_store self new_status date now coll :
  coll !! id self = Some self ->
  let '((self', ok), coll') := update_status self new_status date now coll in
  if ok
  then exists stored,
         coll' = <[id self := stored]> coll
         /\ status stored = new_status /\ status self' = new_status
         /\ updated_at stored = now /\ updated_at self' = now
         /\ settlement_date stored
            = match date with
              | Some d => Some d
              | None =>
                  if status_eqb new_status STATUS_COMPLETED then Some now
                  else settlement_date self
              end
         /\ settlement_date self'
            = match date with
              | Some d => Some d
              | None => settlement_date self
              end
         /\ (id stored = id self /\ id self' = id self)
         /\ (amount stored = amount self /\ amount self' = amount self)
         /\ (date = None -> new_status = STATUS_COMPLETED ->
             settlement_date self <> Some now -> self' <> stored)
  else self' = self /\ coll' = coll
       /\ status self = new_status /\ updated_at self = now.
Proof.
  intros Hin. unfold update_status, Mongo.update_one. rewrite Hin.
  set (extra := match date with
                | Some d => [upd_settlement_date d]
                | None =>
                    if status_eqb new_status STATUS_COMPLETED
                    then [upd_settlement_date now] else []
                end).
  destruct (existsb (field_differs self)
              ([upd_status new_status; upd_updated_at now] ++ extra))
    eqn:Hdiff.
  - cbn [Nat.ltb Nat.leb]. eexists. split; [reflexivity|]. subst extra.
    destruct date as [d|];
      [|destruct (status_eqb new_status STATUS_COMPLETED) eqn:Hc];
      cbn [app foldl set_field document setattr id status updated_at
           settlement_date amount];
      repeat (split; [done|]); try done.
    all: intros _ -> Hneq Heq; apply (f_equal settlement_date) in Heq;
      cbn [setattr settlement_date status_eqb] in Heq, Hc; congruence.
  - cbn [Nat.ltb Nat.leb]. split; [done|]. split; [done|].
    cbn [app existsb field_differs document differs] in Hdiff.
    apply orb_false_elim in Hdiff as [Hst Hrest].
    apply orb_false_elim in Hrest as [Hnow _].
    apply negb_false_iff in Hst, Hnow. apply N.eqb_eq in Hnow.
    split; [by destruct (status self), new_status | done].
Qed.

Lemma update_status_memory_and_store_witness :
  ({[ 1%positive := transaction0 ]} : gmap ObjectId t) !! id transaction0
  = Some transaction0
  /\ let '((self', ok), _) :=
       update_status transaction0 STATUS_COMPLETED None 9%N
         {[ 1%positive := transaction0 ]} in
     if ok then settlement_date self' = settlement_date transaction0
     else self' = transaction0.
Proof.
  assert (({[ 1%positive := transaction0 ]} : gmap ObjectId t)
          !! id transaction0 = Some transaction0) as Hin
    by (by vm_compute).
  split; [exact Hin|].
  pose proof (update_status_memory_and_store transaction0 STATUS_COMPLETED
                None 9%N {[ 1%positive := transaction0 ]} Hin) as H.
  destruct (update_status transaction0 STATUS_COMPLETED None 9%N
              {[ 1%positive := transaction0 ]}) as [[self' ok] coll'].
  destruct ok; [|exact (proj1 H)].
  destruct H as (stored & _ & _ & _ & _ & _ & _ & Hs & _). exact Hs.
Defined.

End transaction_methods.

Section paging.

Import routes_transactions.

Lemma pages_bounds total per_page :
  (1 <= per_page)%Z -> (0 <= total)%Z ->
  ((pages total per_page - 1) * per_page < total)%Z
  /\ (total <= pages total per_page * per_page)%Z.
Proof.
  intros Hpp Htotal. unfold pages, Py.floordiv.
  pose proof (Z.div_mod (total + per_page - 1) per_page ltac:(lia)) as Hdm.
  pose proof (Z.mod_pos_bound (total + per_page - 1) per_page ltac:(lia))
    as Hmod.
  nia.
Qed.

(** X19.  The paging of the two transaction listings, for a page and a
    page size of at least one.  The page count is the number of results
    divided by the page size, rounded up.  A page holds at most the page
    size, its entry at a position is the result at the offset of the page
    plus that position, and it is empty exactly when its number is above
    the page count.  Every result is on the page and at the position that
    its index gives, and that page is within the page count. *)
Theorem paging_covers_results {A} (results : list A) page per_page :
  (1 <= page)%Z -> (1 <= per_page)%Z ->
  let total := Z.of_nat (length results) in
  ((pages total per_page - 1) * per_page < total
   /\ total <= pages total per_page * per_page)%Z
  /\ (length (page_of results page per_page) <= Z.to_nat per_page)%nat
  /\ (forall j,
        (j < Z.to_nat per_page)%nat ->
        page_of results page per_page !! j
        = results !! (Z.to_nat (skip page per_page) + j)%nat)
  /\ (page_of results page per_page = []
      <-> (pages total per_page < page)%Z)
  /\ (forall i x,
        results !! i = Some x ->
        let p := (Z.of_nat i / per_page + 1)%Z in
        (1 <= p <= pages total per_page)%Z
        /\ page_of results p per_page
           !! Z.to_nat (Z.of_nat i mod per_page) = Some x).
Proof.
  intros Hpage Hpp total.
  pose proof (pages_bounds total per_page Hpp ltac:(lia)) as [Hlo Hhi].
  assert (forall p j,
            (1 <= p)%Z -> (j < Z.to_nat per_page)%nat ->
            page_of results p per_page !! j
            = results !! (Z.to_nat (skip p per_page) + j)%nat) as Hentry.
  { intros p j Hp Hj. unfold page_of.
    by rewrite lookup_take_lt, lookup_drop by done. }
  split; [done|]. split; [|split; [|split]].
  - unfold page_of. rewrite length_take. lia.
  - intros j Hj. by apply Hentry.
  - unfold page_of, skip. split.
    + intros Hnil. apply (f_equal length) in Hnil.
      rewrite length_take, length_drop in Hnil. cbn [length] in Hnil.
      subst total. nia.
    + intros Hp. apply length_zero_iff_nil.
      rewrite length_take, length_drop. subst total. nia.
  - intros i x Hx p.
    pose proof (lookup_lt_Some _ _ _ Hx) as Hi.
    pose proof (Z.div_mod (Z.of_nat i) per_page ltac:(lia)) as Hdm.
    pose proof (Z.mod_pos_bound (Z.of_nat i) per_page ltac:(lia)) as Hmod.
    assert (0 <= Z.of_nat i / per_page)%Z as Hq
      by (apply Z.div_pos; lia).
    split; [subst p total; nia|].
    rewrite Hentry by (subst p; lia).
    rewrite <- Hx. f_equal. unfold skip. subst p. nia.
Qed.

Lemma paging_covers_results_witness :
  (1 <= 2)%Z /\ (1 <= 2)%Z
  /\ page_of [10%Z; 20%Z; 30%Z; 40%Z; 50%Z] 2 2 !! 0%nat = Some 30%Z.
Proof.
  split; [lia|]. split; [lia|].
  destruct (paging_covers_results [10%Z; 20%Z; 30%Z; 40%Z; 50%Z] 2 2
              ltac:(lia) ltac:(lia)) as (_ & _ & Hentry & _).
  rewrite (Hentry 0%nat) by (cbn; lia). reflexivity.
Defined.

End paging.

Section queue.

Lemma pending_queue_lists db a :
  In a (pending_queue db)
  <-> (exists k, card_applications db !! k = Some a)
      /\ CardApplication.status a = CardApplication.STATUS_PENDING.
Proof.
  unfold pending_queue, CardApplication.find_pending_applications.
  cbn [fst]. rewrite filter_In, elem_of_map_values, status_eqb_eq.
  done.
Qed.

(** The queue after one application is overwritten by a resolved one. *)
Lemma pending_queue_resolved db db' a a' :
  (forall k b, card_applications db !! k = Some b -> CardApplication.id b = k) ->
  card_applications db !! CardApplication.id a = Some a ->
  CardApplication.status a' <> CardApplication.STATUS_PENDING ->
  card_applications db'
  = <[CardApplication.id a := a']> (card_applications db) ->
  forall b, In b (pending_queue db') <-> In b (pending_queue db) /\ b <> a.
Proof.
  intros Hkeyed Hin Hresolved Hstore b.
  rewrite !pending_queue_lists, Hstore. split.
  - intros [[k Hk] Hst].
    destruct (decide (CardApplication.id a = k)) as [<-|Hne].
    + rewrite lookup_insert_eq in Hk. injection Hk as <-. by destruct Hresolved.
    + rewrite lookup_insert_ne in Hk by done.
      split; [split; [by exists k | done]|].
      intros ->. by apply Hne, Hkeyed.
  - intros [[[k Hk] Hst] Hb]. split; [|done]. exists k.
    rewrite lookup_insert_ne; [done|].
    intros <-. rewrite Hin in Hk. by injection Hk as <-.
Qed.

(** X20.  The queue of [find_pending_applications] follows the workflow.
    It lists exactly the stored applications whose status is pending.  In
    a store that files every application under its id, a successful
    [apply_for_card] adds one application to the queue, the one with the
    id it answers, and a successful approval or rejection takes the
    resolved application out of the queue; each leaves the rest of the
    queue as it was. *)
Theorem pending_queue_follows_workflow db :
  (forall k b,
     card_applications db !! k = Some b -> CardApplication.id b = k) ->
  (forall a,
     In a (pending_queue db)
     <-> (exists k, card_applications db !! k = Some a)
         /\ CardApplication.status a = CardApplication.STATUS_PENDING)
  /\ (forall customer data now application_id msg db',
        routes_cards.apply_for_card customer data now db
        = (success application_id msg, db') ->
        exists a,
          CardApplication.id a = application_id
          /\ CardApplication.customer_id a = Customer.id customer
          /\ ~ In a (pending_queue db)
          /\ forall b,
               In b (pending_queue db') <-> b = a \/ In b (pending_queue db))
  /\ (forall a manager_id data now card_number cvv response db',
        card_applications db !! CardApplication.id a = Some a ->
        routes_manager.approve_application manager_id (CardApplication.id a)
          data now card_number cvv db = (response, db') ->
        is_success response = true ->
        forall b,
          In b (pending_queue db') <-> In b (pending_queue db) /\ b <> a)
  /\ (forall a manager_id data now response db',
        card_applications db !! CardApplication.id a = Some a ->
        routes_manager.reject_application manager_id (CardApplication.id a)
          data now db = (response, db') ->
        is_success response = true ->
        forall b,
          In b (pending_queue db') <-> In b (pending_queue db) /\ b <> a).
Proof.
  intros Hkeyed. split; [apply pending_queue_lists|].
  split; [|split].
  - intros customer data now application_id msg db' Happly.
    pose proof (apply_for_card_cases customer data now db) as Hcases.
    rewrite Happly in Hcases.
    destruct Hcases
      as (card_name & bank & limit & _ & _ & _ & _ & _ & Hnew & ->).
    exists (submitted customer card_name bank (routes_cards.card_type data)
              limit now application_id).
    split; [reflexivity|]. split; [reflexivity|].
    split.
    + rewrite pending_queue_lists. intros [[k Hk] _].
      apply Hkeyed in Hk as Hid. cbn [submitted CardApplication.id] in Hid.
      subst k. by rewrite Hnew in Hk.
    + intros b. rewrite !pending_queue_lists.
      cbn [card_applications]. split.
      * intros [[k Hk] Hst].
        destruct (decide (application_id = k)) as [<-|Hne].
        -- rewrite lookup_insert_eq in Hk. injection Hk as <-. by left.
        -- rewrite lookup_insert_ne in Hk by done. right.
           split; [by exists k | done].
      * intros [-> | [[k Hk] Hst]].
        -- split; [|done]. exists application_id.
           by rewrite lookup_insert_eq.
        -- split; [|done]. exists k. rewrite lookup_insert_ne; [done|].
           intros <-. by rewrite Hnew in Hk.
  - intros a manager_id data now card_number cvv response db' Hin Happ Hs.
    destruct (approve_application_success db a manager_id data now
                card_number cvv response db' Hin Happ Hs)
      as (_ & limit & Hstore).
    by apply (pending_queue_resolved db db' a
                (approved a manager_id limit now)).
  - intros a manager_id data now response db' Hin Hrej Hs.
    destruct (reject_application_success db a manager_id data now
                response db' Hin Hrej Hs) as (_ & Hstore).
    by apply (pending_queue_resolved db db' a
                (rejected a manager_id (reason_of data) now)).
Qed.

Lemma pending_queue_follows_workflow_witness :
  (forall k b,
     card_applications (db0 0) !! k = Some b -> CardApplication.id b = k)
  /\ forall a, In a (pending_queue (db0 0)) -> False.
Proof.
  assert (forall k b,
            card_applications (db0 0) !! k = Some b
            -> CardApplication.id b = k) as Hkeyed
    by (intros k b Hk; cbn in Hk; by rewrite lookup_empty in Hk).
  split; [exact Hkeyed|].
  intros a Ha.
  apply (proj1 (pending_queue_follows_workflow (db0 0) Hkeyed)) in Ha
    as [[k Hk] _].
  cbn in Hk. by rewrite lookup_empty in Hk.
Defined.

End queue.

Section insights.

Import routes_customer.

Lemma utilization_above (balance limit percent : Q) :
  0 < limit ->
  Py.gt (balance / limit * 100) percent = true
  <-> percent * limit < 100 * balance.
Proof.
  intros Hlimit. rewrite gt_spec.
  assert (balance / limit * limit == balance) as Hdiv
    by (field; lra).
  set (u := balance / limit) in *.
  rewrite <- Hdiv. split; intros H; [|apply Qnot_le_lt; intros Hle]; nra.
Qed.

(** X21.  The default insights for a card with a positive credit limit:
    they open with exactly one line on the utilization, high above 80
    percent of the limit, moderate above 50 percent, excellent otherwise,
    and close with the two standing lines, three to five lines in all;
    the low-credit line is there exactly when the available credit is
    below 10,000 and the premium-card line exactly when the income is
    above 500,000.  On a card whose available credit is the limit less
    the balance and whose limit is at least 20,000, the low-credit line
    never comes with the excellent one.  A zero credit limit gives no
    insights: the division fails. *)
Theorem default_insights_shape customer card :
  (CreditCard.credit_limit card == 0 ->
   get_default_insights (analysis_of customer card) = None)
  /\ (0 < CreditCard.credit_limit card ->
      exists first rest,
        get_default_insights (analysis_of customer card)
        = Some (first :: rest ++ [regular_monitoring; automatic_payments])
        /\ (length rest <= 2)%nat
        /\ (first = high_credit_utilization
            <-> 80 * CreditCard.credit_limit card
                < 100 * CreditCard.current_balance card)
        /\ (first = moderate_credit_utilization
            <-> 50 * CreditCard.credit_limit card
                < 100 * CreditCard.current_balance card
                /\ 100 * CreditCard.current_balance card
                   <= 80 * CreditCard.credit_limit card)
        /\ (first = excellent_credit_utilization
            <-> 100 * CreditCard.current_balance card
                <= 50 * CreditCard.credit_limit card)
        /\ (In low_available_credit rest
            <-> CreditCard.available_credit card < 10000)
        /\ (In consider_premium_card rest
            <-> 500000 < Customer.annual_income customer)
        /\ (forall i, In i rest ->
              i = low_available_credit \/ i = consider_premium_card)
        /\ (CreditCard.available_credit card
            == CreditCard.credit_limit card
               - CreditCard.current_balance card ->
            20000 <= CreditCard.credit_limit card ->
            In low_available_credit rest ->
            first <> excellent_credit_utilization)).
Proof.
  unfold get_default_insights, analysis_of.
  cbn [annual_income credit_limit current_balance available_credit].
  split.
  { intros Hzero. by rewrite (proj2 (Qeq_bool_iff _ _) Hzero). }
  intros Hlimit.
  destruct (Qeq_bool (CreditCard.credit_limit card) 0) eqn:Hz;
    [apply Qeq_bool_iff in Hz; lra|].
  pose proof (utilization_above (CreditCard.current_balance card)
                (CreditCard.credit_limit card) 80 Hlimit) as H80.
  pose proof (utilization_above (CreditCard.current_balance card)
                (CreditCard.credit_limit card) 50 Hlimit) as H50.
  pose proof (lt_spec (CreditCard.available_credit card) 10000) as Hlow.
  pose proof (gt_spec (Customer.annual_income customer) 500000) as Hrich.
  destruct (Py.gt (_ * 100) 80) eqn:E80;
    [|destruct (Py.gt (_ * 100) 50) eqn:E50];
    destruct (Py.lt (CreditCard.available_credit card) 10000) eqn:Elow;
    destruct (Py.gt (Customer.annual_income customer) 500000) eqn:Erich;
    cbn [app];
    (eexists _, _; split;
       [match goal with
        | |- Some (?x :: ?l) = _ =>
            instantiate (1 := removelast (removelast l)); reflexivity
        end|]);
    cbn [removelast length In];
    assert (forall P : Prop, (true = true <-> P) -> P) as Hyes
      by (intros P HP; by apply HP);
    assert (forall P : Prop, (false = true <-> P) -> ~ P) as Hno
      by (intros P HP HP'; by apply HP in HP');
    repeat match goal with
           | H : true = true <-> _ |- _ => apply Hyes in H
           | H : false = true <-> _ |- _ => apply Hno in H
           end;
    (split; [lia|]);
    repeat split; try done; try lra; try (intros; lra);
    try (intros [?|[?|[]]]; done);
    try (intros [?|[]]; done);
    try (intros [?|[?|[]]]; subst; tauto);
    try (intros ? [?|[?|[]]]; subst; tauto);
    try (intros ? [?|[]]; subst; tauto);
    try (intros; exfalso; lra);
    try (intros _ _ [?|[]]; done);
    try tauto.
Qed.

Lemma default_insights_shape_witness :
  0 < CreditCard.credit_limit (card0 90000)
  /\ exists rest,
       get_default_insights (analysis_of customer0 (card0 90000))
       = Some (high_credit_utilization
                 :: rest ++ [regular_monitoring; automatic_payments]).
Proof.
  assert (0 < CreditCard.credit_limit (card0 90000)) as Hlimit
    by (cbn; lra).
  split; [exact Hlimit|].
  destruct (proj2 (default_insights_shape customer0 (card0 90000)) Hlimit)
    as (first & rest & Heq & _ & Hhigh & _).
  exists rest. rewrite Heq. do 2 f_equal. apply Hhigh. cbn. lra.
Defined.

End insights.

Section pin.

Ltac db_simpl :=
  cbn [customers card_applications credit_cards transactions
       notifications audit_logs fst snd].

(** X22.  Setting a PIN that [validate_pin] accepts on a card of one's
    own.  The text is stored as it was sent, beside the update time, and
    nothing else of the card changes; the masked view of the stored card
    shows four stars for it.  The request succeeds unless the card
    already carries this PIN and this update time, in which case the
    store reports no change and the answer is a server error with the
    store as it was.  Whether the card is active plays no part. *)
Theorem set_card_pin_effect customer card data now db pin :
  credit_cards db !! CreditCard.id card = Some card ->
  CreditCard.customer_id card = Customer.id customer ->
  routes_cards.pin data = Some pin ->
  (Validators.validate_pin (Some pin)).1 = true ->
  let '(response, db') :=
    routes_cards.set_card_pin customer (CreditCard.id card) data now db in
  let stored :=
    foldl CreditCard.setattr card
      [CreditCard.upd_pin pin; CreditCard.upd_updated_at now] in
  (CreditCard.pin card = Some pin /\ CreditCard.updated_at card = now ->
   response = server_error "Failed to set PIN" /\ db' = db)
  /\ (CreditCard.pin card <> Some pin \/ CreditCard.updated_at card <> now ->
      is_success response = true
      /\ credit_cards db'
         = <[CreditCard.id card := stored]> (credit_cards db)
      /\ CreditCard.pin stored = Some pin
      /\ CreditCard.dict.pin (CreditCard.to_dict stored true)
         = Some "****"%string
      /\ CreditCard.current_balance stored = CreditCard.current_balance card
      /\ CreditCard.available_credit stored
         = CreditCard.available_credit card
      /\ CreditCard.is_active stored = CreditCard.is_active card
      /\ customers db' = customers db
      /\ card_applications db' = card_applications db
      /\ transactions db' = transactions db
      /\ audit_logs db'
         = audit_logs db
           ++ [audit (Customer.id customer) "customer" "pin_set" now]).
Proof.
  intros Hcard Hown Hpin Hvalid.
  destruct (routes_cards.set_card_pin customer (CreditCard.id card) data
              now db) as [response db'] eqn:E.
  revert E. unfold routes_cards.set_card_pin. rewrite Hpin.
  destruct (Validators.validate_pin (Some pin)) as [ok error] eqn:Hv.
  cbn [fst] in Hvalid. subst ok. cbn [negb].
  assert (pin <> EmptyString) as Hne.
  { intros ->. by vm_compute in Hv. }
  unfold bind, on_credit_cards at 1, CreditCard.find_by_id, Mongo.find_one.
  db_simpl. rewrite Hcard.
  rewrite (proj2 (Pos.eqb_eq _ _) Hown). cbn [negb].
  unfold on_credit_cards, CreditCard.set_pin. db_simpl.
  pose proof (update_effect card [CreditCard.upd_pin pin] now
                (credit_cards db) Hcard) as Hupd.
  pose proof (update_confirmed card [CreditCard.upd_pin pin] now
                (credit_cards db) Hcard) as Hok.
  pose proof (update_unconfirmed card [CreditCard.upd_pin pin] now
                (credit_cards db)) as Hno.
  cbn [app existsb CreditCard.differs] in Hok.
  destruct (CreditCard.update card [CreditCard.upd_pin pin] now
              (credit_cards db)) as [[card' ok] coll'] eqn:Eupd.
  cbn [fst snd] in Hok, Hno.
  destruct ok.
  - destruct Hupd as (-> & _ & _ & ->).
    unfold ret, AuditLogger.log_user_action. db_simpl.
    intros [= <- <-]. cbn zeta. db_simpl. split.
    + intros [Hsame Hnow]. exfalso.
      revert Eupd. unfold CreditCard.update, Mongo.update_one.
      rewrite Hcard.
      cbn [app existsb field_differs CreditCard.document CreditCard.differs].
      rewrite Hsame, Hnow, String.eqb_refl, N.eqb_refl. by cbn.
    + intros _. split; [done|]. split; [done|]. split; [done|].
      split; [|done].
      cbn [app foldl CreditCard.setattr CreditCard.to_dict
           CreditCard.dict.pin CreditCard.pin].
      by rewrite (proj2 (String.eqb_neq _ _) Hne).
  - destruct Hupd as [-> ->]. unfold ret. intros [= <- <-]. split.
    + intros _. split; [done | by destruct db].
    + intros Hdiff. exfalso.
      assert (true = false) as Habs; [|done]. rewrite <- Hok; [done|].
      destruct Hdiff as [Hp|Ht].
      * destruct (CreditCard.pin card) as [w|]; [|done].
        destruct (String.eqb_spec w pin) as [Heq|]; [|done].
        subst w. by destruct Hp.
      * rewrite (proj2 (N.eqb_neq _ _) Ht).
        by destruct (CreditCard.pin card) as [w|];
          [destruct (String.eqb w pin)|].
Qed.

Lemma set_card_pin_effect_witness :
  credit_cards (db0 0) !! CreditCard.id (card0 0) = Some (card0 0)
  /\ (Validators.validate_pin (Some "4821"%string)).1 = true
  /\ is_success
       (routes_cards.set_card_pin customer0 (CreditCard.id (card0 0))
          {| routes_cards.pin := Some "4821"%string |} 6%N (db0 0)).1
     = true.
Proof.
  assert (credit_cards (db0 0) !! CreditCard.id (card0 0)
          = Some (card0 0)) as Hcard by (by vm_compute).
  assert ((Validators.validate_pin (Some "4821"%string)).1 = true)
    as Hvalid by (by vm_compute).
  split; [exact Hcard|]. split; [exact Hvalid|].
  pose proof (set_card_pin_effect customer0 (card0 0)
                {| routes_cards.pin := Some "4821"%string |} 6%N (db0 0)
                "4821" Hcard eq_refl eq_refl Hvalid) as H.
  destruct (routes_cards.set_card_pin customer0 (CreditCard.id (card0 0))
              {| routes_cards.pin := Some "4821"%string |} 6%N (db0 0))
    as [response db'].
  destruct H as [_ H]. apply H. by left.
Defined.

End pin.
